(** * Timetable scheduler: the solver pipeline of [scheduler.py]

    A shallow embedding of [scheduler-backend/scheduler.py]: the time grid
    builder, the scheduler constructor, the decision variables, the
    constraint families on the assignment variables and the exceptions
    of their builders, solution extraction, the greedy fallback
    generator, [generate_schedule] and [validate_constraints].

    Conventions.
    - A JSON object is a record whose optional keys are [option] fields:
      [None] stands for an absent key.  A key that is present holds a
      value of its declared type; the one key that may also hold [null]
      is [maxSubjectsPerDay], whose [null] the constructor keeps
      ([Some None]).  For the thirteen required school settings the
      constructor treats [null] like an absent key.
    - Text is ASCII.
    - The CP-SAT solver, [uuid.uuid4] and numpy's global generator are
      outside the repository: the solver is a function from the posted
      model to a status and a valuation, the two random sources are
      explicit streams in a [world] that is threaded through the code. *)

From Stdlib Require Import ZArith String Ascii List Lia Bool Permutation.
From stdpp Require Import base option gmap strings list.

Local Open Scope Z_scope.

(** ** Python primitives *)

Module Py.

(** Exceptions the modelled code can raise. *)
Inductive exn : Type :=
| KeyError
| ValueError
| TypeError
| OverflowError.

(** Result of running a piece of code: a value, an exception, or the
    step budget of a [while] loop was used up before the loop ended. *)
Inductive outcome (A : Type) : Type :=
| Ret (a : A)
| Raise (e : exn)
| Timeout.
Arguments Ret {A} a.
Arguments Raise {A} e.
Arguments Timeout {A}.

Definition bind {A B} (m : outcome A) (k : A -> outcome B) : outcome B :=
  match m with
  | Ret a => k a
  | Raise e => Raise e
  | Timeout => Timeout
  end.

(** [d[k]] on a dictionary: [KeyError] when the key is absent. *)
Definition getitem {A} (o : option A) : outcome A :=
  match o with
  | Some a => Ret a
  | None => Raise KeyError
  end.

(** [try: m except Exception: h]. *)
Definition try_except {A} (m : outcome A) (h : exn -> outcome A) : outcome A :=
  match m with
  | Raise e => h e
  | r => r
  end.

(** *** [int(str)] on ASCII text *)

(** The blanks that [int] skips at both ends of an ASCII text: space and
    the codes 9 to 13. *)
Definition is_space (c : ascii) : bool :=
  let n := nat_of_ascii c in
  (Nat.eqb n 32 || (Nat.leb 9 n && Nat.leb n 13))%bool.

Definition digit_of (c : ascii) : option Z :=
  let n := nat_of_ascii c in
  if (Nat.leb 48 n && Nat.leb n 57)%bool then Some (Z.of_nat (n - 48)) else None.

Definition underscore : ascii := "_"%char.

(** Digits with single underscores allowed between digits. *)
Fixpoint digits_value (cs : list ascii) (acc : Z) (after_digit : bool) : option Z :=
  match cs with
  | [] => if after_digit then Some acc else None
  | c :: cs' =>
      if Ascii.eqb c underscore then
        if after_digit then digits_value cs' acc false else None
      else
        match digit_of c with
        | Some d => digits_value cs' (10 * acc + d) true
        | None => None
        end
  end.

Fixpoint lstrip (cs : list ascii) : list ascii :=
  match cs with
  | c :: cs' => if is_space c then lstrip cs' else cs
  | [] => []
  end.

Definition strip (cs : list ascii) : list ascii :=
  rev (lstrip (rev (lstrip cs))).

Definition int_of_chars (cs : list ascii) : outcome Z :=
  let body := strip cs in
  let parsed :=
    match body with
    | c :: rest =>
        if Ascii.eqb c "-"%char then Z.opp <$> digits_value rest 0 false
        else if Ascii.eqb c "+"%char then digits_value rest 0 false
        else digits_value body 0 false
    | [] => None
    end in
  match parsed with
  | Some z => Ret z
  | None => Raise ValueError
  end.

(** *** [str.split(sep)] for a one-character separator *)

Fixpoint split_on (sep : ascii) (cs : list ascii) : list (list ascii) :=
  match cs with
  | [] => [[]]
  | c :: cs' =>
      if Ascii.eqb c sep then [] :: split_on sep cs'
      else match split_on sep cs' with
           | h :: t => (c :: h) :: t
           | [] => [[c]]
           end
  end.

(** *** [str(n)] and the format [{n:02d}] *)

Definition digit_char (n : nat) : ascii := ascii_of_nat (48 + n mod 10).

Fixpoint nat_digits (fuel n : nat) (acc : list ascii) : list ascii :=
  match fuel with
  | O => acc
  | S f =>
      let acc' := digit_char n :: acc in
      if Nat.ltb n 10 then acc' else nat_digits f (n / 10) acc'
  end.

Definition str_nat (n : nat) : list ascii := nat_digits (S n) n [].

(** [f"{z:02d}"]: the sign counts towards the width. *)
Definition format_02d (z : Z) : list ascii :=
  if z <? 0 then "-"%char :: str_nat (Z.to_nat (- z))
  else if z <? 10 then "0"%char :: str_nat (Z.to_nat z)
  else str_nat (Z.to_nat z).

Definition str_of_nat (n : nat) : string := string_of_list_ascii (str_nat n).

End Py.

Import Py.

#[global] Instance outcome_ret : MRet outcome := @Ret.
#[global] Instance outcome_bind : MBind outcome := fun A B k m => Py.bind m k.

(** ** Input records

    Only the keys that the modelled code reads are kept.  Teacher caps,
    teacher availability and the scheduling preferences feed constraint
    families that are left to the solver (see [solver] below). *)

Record FreePeriod : Type := {
  fp_name : option string;
  fp_startTime : option string;
  fp_duration : option Z;
  fp_days : list string;
  fp_forClasses : list string
}.

Record SchoolSettings : Type := {
  startTime : option string;
  endTime : option string;
  lessonDuration : option Z;
  breakDuration : option Z;
  hasBreakfastBreak : option bool;
  breakfastBreakStartTime : option string;
  breakfastBreakDuration : option Z;
  lunchBreakDuration : option Z;
  lunchBreakStartTime : option string;
  lessonsPerDay : option Z;
  daysPerWeek : option Z;
  workingDays : option (list string);
  useRoomConstraints : option bool;
  maxSubjectsPerDay : option (option Z);
  freePeriods : list FreePeriod
}.

Record Teacher : Type := {
  t_id : option string;
  t_name : option string;
  t_subjects : list string
}.

Record Class : Type := {
  c_id : option string;
  c_name : option string;
  c_requiredSubjects : list string
}.

Record Subject : Type := {
  s_id : option string;
  s_name : option string;
  s_hoursPerWeek : option Z
}.

Record Room : Type := {
  r_id : option string;
  r_name : option string
}.

(** The request body.  [school_settings = None] is the empty (or absent)
    settings object. *)
Record Data : Type := {
  school_settings : option SchoolSettings;
  teachers : list Teacher;
  classes : list Class;
  subjects : list Subject;
  rooms : list Room
}.

(** ** Time grid builder *)

Definition slot : Type := (string * string)%type.

(** The nested helper [time_to_minutes]: [hours, minutes = map(int,
    time_str.split(':'))].  Every failure of the unpacking or of [int] is a
    [ValueError]. *)
Definition time_to_minutes (time_str : string) : outcome Z :=
  match split_on ":"%char (list_ascii_of_string time_str) with
  | [h; m] =>
      hours ← int_of_chars h;
      minutes ← int_of_chars m;
      mret (hours * 60 + minutes)
  | _ => Raise ValueError
  end.

(** The nested helper [minutes_to_time]. *)
Definition minutes_to_time (minutes : Z) : string :=
  string_of_list_ascii
    (format_02d (minutes / 60) ++ ":"%char :: format_02d (minutes mod 60)).

(** The locals of [_generate_time_slots] that the loop reads. *)
Record grid : Type := {
  start_minutes : Z;
  end_minutes : Z;
  lesson_duration : Z;
  break_duration : Z;
  has_breakfast_break : bool;
  breakfast_start_minutes : Z;
  breakfast_end_minutes : Z;
  lunch_start_minutes : Z;
  lunch_end_minutes : Z
}.

(** Loop state: [current_minutes] and the list [time_slots]. *)
Definition loop_state : Type := (Z * list slot)%type.

Definition loop_cond (g : grid) (st : loop_state) : bool :=
  fst st + lesson_duration g <=? end_minutes g.

(** One pass through the loop body; each [continue] ends the pass. *)
Definition loop_body (g : grid) (st : loop_state) : loop_state :=
  let '(current_minutes, time_slots) := st in
  if (has_breakfast_break g
      && (current_minutes <? breakfast_end_minutes g)
      && (current_minutes + lesson_duration g >? breakfast_start_minutes g))%bool
  then (breakfast_end_minutes g, time_slots)
  else if ((current_minutes <? lunch_end_minutes g)
           && (current_minutes + lesson_duration g >? lunch_start_minutes g))%bool
  then (lunch_end_minutes g, time_slots)
  else
    let lesson_start := minutes_to_time current_minutes in
    let lesson_end := minutes_to_time (current_minutes + lesson_duration g) in
    (current_minutes + (lesson_duration g + break_duration g),
     time_slots ++ [(lesson_start, lesson_end)]).

(** [while cond: body], with a budget of passes. *)
Fixpoint while {S : Type} (cond : S -> bool) (body : S -> S) (fuel : nat) (st : S)
  : outcome S :=
  match fuel with
  | O => Timeout
  | S fuel' => if cond st then while cond body fuel' (body st) else Ret st
  end.

(** The statements of the [try] block before the loop. *)
Definition read_grid (ss : SchoolSettings) : outcome grid :=
  start_time ← getitem (startTime ss);
  end_time ← getitem (endTime ss);
  lesson ← getitem (lessonDuration ss);
  brk ← getitem (breakDuration ss);
  has_bf ← getitem (hasBreakfastBreak ss);
  bf_start ← getitem (breakfastBreakStartTime ss);
  bf_duration ← getitem (breakfastBreakDuration ss);
  lunch_start ← getitem (lunchBreakStartTime ss);
  lunch_duration ← getitem (lunchBreakDuration ss);
  start_m ← time_to_minutes start_time;
  end_m ← time_to_minutes end_time;
  bf ← (if has_bf : bool
        then (b ← time_to_minutes bf_start; mret (b, b + bf_duration))
        else mret (-1, -1));
  lunch_m ← time_to_minutes lunch_start;
  mret {| start_minutes := start_m; end_minutes := end_m;
          lesson_duration := lesson; break_duration := brk;
          has_breakfast_break := has_bf;
          breakfast_start_minutes := fst bf; breakfast_end_minutes := snd bf;
          lunch_start_minutes := lunch_m;
          lunch_end_minutes := lunch_m + lunch_duration |}.

Definition default_time_slots : list slot :=
  [("08:00", "09:00"); ("09:15", "10:15"); ("10:30", "11:30");
   ("11:45", "12:45"); ("13:30", "14:30"); ("14:45", "15:45")]%string.

(** The [try] block of [_generate_time_slots]. *)
Definition time_slots_try (fuel : nat) (ss : SchoolSettings) : outcome (list slot) :=
  g ← read_grid ss;
  st ← while (loop_cond g) (loop_body g) fuel (start_minutes g, []);
  mret (snd st).

Definition _generate_time_slots (fuel : nat) (ss : SchoolSettings) : outcome (list slot) :=
  try_except (time_slots_try fuel ss) (fun _ => Ret default_time_slots).

(** ** The scheduler object *)

(** A decision variable is named by its key [(c, s, t, r, d, ts)]. *)
Definition key : Type := (nat * nat * nat * nat * nat * nat)%type.

Inductive status : Type :=
| UNKNOWN
| MODEL_INVALID
| FEASIBLE
| INFEASIBLE
| OPTIMAL.

#[global] Instance status_eq_dec : EqDecision status.
Proof. solve_decision. Defined.

(** [self.status in (cp_model.OPTIMAL, cp_model.FEASIBLE)]. *)
Definition status_found (st : option status) : bool :=
  match st with
  | Some OPTIMAL | Some FEASIBLE => true
  | _ => false
  end.

(** The fields of [TimetableScheduler].  [max_subjects_per_day] is
    [None] when the request carries [maxSubjectsPerDay: null];
    [assignment_vars] is the insertion-ordered dictionary of decision
    variables, kept as the list of its keys; [value] is what
    [self.solver.Value] answers after [Solve]. *)
Record Scheduler : Type := {
  sch_settings : SchoolSettings;
  sch_teachers : list Teacher;
  sch_classes : list Class;
  sch_subjects : list Subject;
  sch_rooms : list Room;
  use_room_constraints : bool;
  max_subjects_per_day : option Z;
  free_periods : list FreePeriod;
  days : list string;
  time_slots : list slot;
  subject_indices : gmap string nat;
  teacher_ids : list string;
  class_ids : list string;
  subject_ids : list string;
  room_ids : list string;
  assignment_vars : list key;
  sch_status : option status;
  value : key -> bool
}.

(** One step of the list comprehension that collects the missing keys. *)
Definition missing_key {A} (name : string) (o : option A) : list string :=
  match o with Some _ => [] | None => [name] end.
Arguments missing_key {A} name%_string o.

(** The keys of [required_settings] that are absent or [None]. *)
Definition missing_settings (ss : SchoolSettings) : list string :=
  missing_key "startTime" (startTime ss)
  ++ missing_key "endTime" (endTime ss)
  ++ missing_key "lessonDuration" (lessonDuration ss)
  ++ missing_key "breakDuration" (breakDuration ss)
  ++ missing_key "hasBreakfastBreak" (hasBreakfastBreak ss)
  ++ missing_key "breakfastBreakStartTime" (breakfastBreakStartTime ss)
  ++ missing_key "breakfastBreakDuration" (breakfastBreakDuration ss)
  ++ missing_key "lunchBreakDuration" (lunchBreakDuration ss)
  ++ missing_key "lunchBreakStartTime" (lunchBreakStartTime ss)
  ++ missing_key "lessonsPerDay" (lessonsPerDay ss)
  ++ missing_key "daysPerWeek" (daysPerWeek ss)
  ++ missing_key "workingDays" (workingDays ss)
  ++ missing_key "useRoomConstraints" (useRoomConstraints ss).

(** [[x['id'] for x in xs]]: [KeyError] at the first record without an id. *)
Fixpoint ids_of {A} (get_id : A -> option string) (xs : list A) : outcome (list string) :=
  match xs with
  | [] => mret []
  | x :: xs' =>
      i ← getitem (get_id x);
      rest ← ids_of get_id xs';
      mret (i :: rest)
  end.

(** [{id: i for i, id in enumerate(ids)}], counting from [i]: a later
    duplicate overwrites an earlier one. *)
Fixpoint index_dict (i : nat) (ids : list string) (d : gmap string nat) : gmap string nat :=
  match ids with
  | [] => d
  | x :: ids' => index_dict (S i) ids' (<[x := i]> d)
  end.

(** [TimetableScheduler.__init__].  [max_subjects] is
    [school_settings.get('maxSubjectsPerDay',
    school_settings.get('lessonsPerDay', 6))]: a key that is present is
    kept, also with [null]; the default is read only when the key is
    absent (and then [lessonsPerDay] is an integer whenever the check of
    the required settings passes). *)
Definition __init__ (fuel : nat) (data : Data) : outcome Scheduler :=
  match school_settings data with
  | None => Raise ValueError
  | Some ss =>
      let max_subjects :=
        match maxSubjectsPerDay ss with
        | Some kept => kept
        | None => Some (default 6 (lessonsPerDay ss))
        end in
      if negb (bool_decide (missing_settings ss = [])) then Raise ValueError
      else
        use_room ← getitem (useRoomConstraints ss);
        working_days ← getitem (workingDays ss);
        slots ← _generate_time_slots fuel ss;
        tids ← ids_of t_id (teachers data);
        cids ← ids_of c_id (classes data);
        sids ← ids_of s_id (subjects data);
        rids ← ids_of r_id (rooms data);
        mret {| sch_settings := ss;
                sch_teachers := teachers data;
                sch_classes := classes data;
                sch_subjects := subjects data;
                sch_rooms := rooms data;
                use_room_constraints := use_room;
                max_subjects_per_day := max_subjects;
                free_periods := freePeriods ss;
                days := working_days;
                time_slots := slots;
                subject_indices := index_dict 0 sids ∅;
                teacher_ids := tids;
                class_ids := cids;
                subject_ids := sids;
                room_ids := rids;
                assignment_vars := [];
                sch_status := None;
                value := fun _ => false |}
  end.

(** ** Decision variables *)

(** [d[k] = v] on the keys of an insertion-ordered dictionary. *)
Definition dict_set (k : key) (d : list key) : list key :=
  if decide (k ∈ d) then d else d ++ [k].

(** [[t for t, teacher in enumerate(teachers) if s_id in
    teacher.get('subjects', [])]], counting from [i]. *)
Fixpoint valid_teachers (i : nat) (s_id : string) (ts : list Teacher) : list nat :=
  match ts with
  | [] => []
  | teacher :: ts' =>
      if decide (s_id ∈ t_subjects teacher)
      then i :: valid_teachers (S i) s_id ts'
      else valid_teachers (S i) s_id ts'
  end.

(** The innermost three loops of [_create_variables] for one room index. *)
Definition create_for_room (sch : Scheduler) (c s r : nat) (valid : list nat)
    (vars : list key) : list key :=
  foldl (fun vars d =>
    foldl (fun vars ts =>
      foldl (fun vars t => dict_set (c, s, t, r, d, ts) vars) vars valid)
      vars (seq 0 (length (time_slots sch))))
    vars (seq 0 (length (days sch))).

(** The body of the loop over [required_subjects]. *)
Definition create_for_subject (sch : Scheduler) (c : nat) (s_id : string)
    (vars : list key) : list key :=
  match subject_indices sch !! s_id with
  | None => vars
  | Some s =>
      let valid := valid_teachers 0 s_id (sch_teachers sch) in
      if bool_decide (valid = []) then vars
      else if negb (use_room_constraints sch) then create_for_room sch c s 0%nat valid vars
      else foldl (fun vars r => create_for_room sch c s r valid vars)
             vars (seq 0 (length (sch_rooms sch)))
  end.

(** The loop over the classes, given with their indices. *)
Fixpoint create_for_classes (sch : Scheduler) (c : nat) (cs : list Class)
    (vars : list key) : list key :=
  match cs with
  | [] => vars
  | class_info :: cs' =>
      create_for_classes sch (S c) cs'
        (foldl (fun vars s_id => create_for_subject sch c s_id vars)
           vars (c_requiredSubjects class_info))
  end.

Definition _create_variables (sch : Scheduler) : list key :=
  create_for_classes sch 0 (sch_classes sch) (assignment_vars sch).

(** ** The modelled constraint families *)

(** [model.Add(sum(vars) == rhs)]. *)
Inductive constraint : Type :=
| SumEq (vars : list key) (rhs : Z).

Definition Value (val : key -> bool) (k : key) : Z := if val k then 1 else 0.

Definition sum_vars (val : key -> bool) (ks : list key) : Z :=
  foldr (fun k acc => Value val k + acc) 0 ks.

Definition holds (val : key -> bool) (c : constraint) : bool :=
  match c with
  | SumEq ks rhs => sum_vars val ks =? rhs
  end.

(** Three nested [range] loops that gather variables:
    [for a .. for b .. for c: key = ...; if key in self.assignment_vars:
    xs.append(self.assignment_vars[key])]. *)
Definition gather (vars : list key) (n1 n2 n3 : nat)
    (mk : nat -> nat -> nat -> key) : list key :=
  a ← seq 0 n1; b ← seq 0 n2; c ← seq 0 n3;
  if decide (mk a b c ∈ vars) then [mk a b c] else [].

(** The four nested loops that gather the variables of one (class,
    subject) pair: [for t .. for r .. for d .. for ts: if key in
    self.assignment_vars: append]. *)
Definition pair_vars (sch : Scheduler) (vars : list key) (c s : nat) : list key :=
  t ← seq 0 (length (sch_teachers sch));
  r ← seq 0 (length (sch_rooms sch));
  d ← seq 0 (length (days sch));
  ts ← seq 0 (length (time_slots sch));
  if decide ((c, s, t, r, d, ts) ∈ vars) then [(c, s, t, r, d, ts)] else [].

(** [subject.get('hoursPerWeek', 0)] for [subject = self.subjects[s]]. *)
Definition hours_at (sch : Scheduler) (s : nat) : Z :=
  match sch_subjects sch !! s with
  | Some subject => default 0 (s_hoursPerWeek subject)
  | None => 0
  end.

(** [_add_subject_hours_constraint]: the constraints it posts. *)
Definition subject_hours_for (sch : Scheduler) (vars : list key) (c : nat)
    (s_id : string) : list constraint :=
  match subject_indices sch !! s_id with
  | None => []
  | Some s =>
      let hours_per_week := hours_at sch s in
      if hours_per_week <=? 0 then []
      else
        let subject_hours := pair_vars sch vars c s in
        if bool_decide (subject_hours = []) then []
        else [SumEq subject_hours hours_per_week]
  end.

Fixpoint subject_hours_from (sch : Scheduler) (vars : list key) (c : nat)
    (cs : list Class) : list constraint :=
  match cs with
  | [] => []
  | class_info :: cs' =>
      (s_id ← c_requiredSubjects class_info; subject_hours_for sch vars c s_id)
      ++ subject_hours_from sch vars (S c) cs'
  end.

Definition _add_subject_hours_constraint (sch : Scheduler) : list constraint :=
  subject_hours_from sch (assignment_vars sch) 0 (sch_classes sch).

(** [_add_teacher_consistency_constraint], its weekly-hours equation
    ("Strict enforcement of hours per week").  The teacher-choice
    booleans of that method are left to the solver. *)
Definition consistency_hours_for (sch : Scheduler) (vars : list key) (c : nat)
    (s_id : string) : list constraint :=
  match subject_indices sch !! s_id with
  | None => []
  | Some s =>
      if bool_decide (valid_teachers 0 s_id (sch_teachers sch) = []) then []
      else
        let total_hours_vars := pair_vars sch vars c s in
        if bool_decide (total_hours_vars = []) then []
        else [SumEq total_hours_vars (hours_at sch s)]
  end.

Fixpoint consistency_hours_from (sch : Scheduler) (vars : list key) (c : nat)
    (cs : list Class) : list constraint :=
  match cs with
  | [] => []
  | class_info :: cs' =>
      (s_id ← c_requiredSubjects class_info; consistency_hours_for sch vars c s_id)
      ++ consistency_hours_from sch vars (S c) cs'
  end.

Definition _add_teacher_consistency_constraint (sch : Scheduler) : list constraint :=
  consistency_hours_from sch (assignment_vars sch) 0 (sch_classes sch).

(** ** Constraint builders that can raise

    Of [_add_break_constraints], [_add_daily_lessons_constraints] and
    [_add_free_period_constraints] only the evaluation that can raise is
    kept (the times they parse, the bound they post); the constraints
    they post are left to the solver.  The remaining builders of
    [_add_all_constraints] read with [.get] and by index inside [range],
    post constants of their own, and cannot raise. *)

Fixpoint for_each {A} (body : A -> outcome unit) (xs : list A) : outcome unit :=
  match xs with
  | [] => mret tt
  | x :: xs' => _ ← body x; for_each body xs'
  end.

(** The constant [n] of [model.Add(expr == n)] or [model.Add(expr <= n)]:
    the library makes a bounded linear expression from it and raises
    when [n] is [None] ([TypeError]: the expression cannot be compared
    with it) or an integer outside the 64-bit range ([OverflowError],
    from its [assert_is_int64]). *)
Definition INT_MIN : Z := - 2 ^ 63.
Definition INT_MAX : Z := 2 ^ 63 - 1.

Definition is_int64 (z : Z) : bool := (INT_MIN <=? z) && (z <=? INT_MAX).

Definition bound_of (n : option Z) : outcome Z :=
  match n with
  | None => Raise TypeError
  | Some z => if is_int64 z then Ret z else Raise OverflowError
  end.

(** The calls [self.model.Add(sum(vars) == rhs)] for the equations
    [cs], in the order in which they are posted. *)
Definition post (cs : list constraint) : outcome unit :=
  for_each (fun c => match c with
                     | SumEq _ rhs => _ ← bound_of (Some rhs); mret tt
                     end) cs.

Definition parse_slot (sl : slot) : outcome unit :=
  _ ← time_to_minutes (fst sl);
  _ ← time_to_minutes (snd sl);
  mret tt.

Definition _add_break_constraints (sch : Scheduler) : outcome unit :=
  let ss := sch_settings sch in
  _ ← getitem (hasBreakfastBreak ss);
  breakfast_break_start ← getitem (breakfastBreakStartTime ss);
  _ ← getitem (breakfastBreakDuration ss);
  lunch_break_start ← getitem (lunchBreakStartTime ss);
  _ ← getitem (lunchBreakDuration ss);
  _ ← time_to_minutes breakfast_break_start;
  _ ← time_to_minutes lunch_break_start;
  for_each (fun _ : string => for_each parse_slot (time_slots sch)) (days sch).

(** Truth value of [period.get('startTime')]. *)
Definition truthy_str (o : option string) : option string :=
  match o with
  | Some s => if String.eqb s "" then None else Some s
  | None => None
  end.

Definition free_period_body (sch : Scheduler) (period : FreePeriod) : outcome unit :=
  match truthy_str (fp_startTime period) with
  | None => mret tt
  | Some period_start =>
      _ ← time_to_minutes period_start;
      for_each (fun day : string =>
        if (bool_decide (day ∈ fp_days period)
            || bool_decide ("all"%string ∈ fp_days period))%bool
        then for_each parse_slot (time_slots sch)
        else mret tt) (days sch)
  end.

Definition _add_free_period_constraints (sch : Scheduler) : outcome unit :=
  for_each (free_period_body sch) (free_periods sch).

(** [_add_daily_lessons_constraints]: for each class and day,
    [class_day_subjects] holds the subjects that have a variable on
    that day, and [if class_day_subjects:
    self.model.Add(sum(class_day_subjects.values()) <=
    max_subjects_per_day)].  The keys [minSubjectsPerDay] and
    [exactLessonsPerDay] are absent. *)
Definition _add_daily_lessons_constraints (sch : Scheduler) : outcome unit :=
  for_each (fun c =>
    for_each (fun d =>
      let class_day_subjects :=
        filter (fun s =>
                  gather (assignment_vars sch) (length (sch_teachers sch))
                    (length (sch_rooms sch)) (length (time_slots sch))
                    (fun t r ts => (c, s, t, r, d, ts)) <> [])
          (seq 0 (length (sch_subjects sch))) in
      if bool_decide (class_day_subjects = []) then mret tt
      else _ ← bound_of (max_subjects_per_day sch); mret tt)
      (seq 0 (length (days sch))))
    (seq 0 (length (sch_classes sch))).

(** [_add_all_constraints]: the modelled equations, or the exception of
    the first builder that raises, in the order of the calls. *)
Definition _add_all_constraints (sch : Scheduler) : outcome (list constraint) :=
  let hours := _add_subject_hours_constraint sch in
  let consistency := _add_teacher_consistency_constraint sch in
  _ ← post hours;
  _ ← post consistency;
  _ ← _add_break_constraints sch;
  _ ← _add_daily_lessons_constraints sch;
  _ ← _add_free_period_constraints sch;
  mret (hours ++ consistency).

(** ** The solver

    [self.solver.Solve(self.model)] with its fixed parameters: the model
    is determined by the scheduler's fields, so the solver is a function
    of the scheduler. *)
Definition solver : Type := Scheduler -> status * (key -> bool).

(** What a status in [{OPTIMAL, FEASIBLE}] promises about the valuation,
    for the modelled families. *)
Definition respects (cs : list constraint) (answer : status * (key -> bool)) : Prop :=
  status_found (Some (fst answer)) = true ->
  forallb (holds (snd answer)) cs = true.

Definition with_vars (sch : Scheduler) (vars : list key) : Scheduler :=
  {| sch_settings := sch_settings sch; sch_teachers := sch_teachers sch;
     sch_classes := sch_classes sch; sch_subjects := sch_subjects sch;
     sch_rooms := sch_rooms sch; use_room_constraints := use_room_constraints sch;
     max_subjects_per_day := max_subjects_per_day sch;
     free_periods := free_periods sch; days := days sch;
     time_slots := time_slots sch; subject_indices := subject_indices sch;
     teacher_ids := teacher_ids sch; class_ids := class_ids sch;
     subject_ids := subject_ids sch; room_ids := room_ids sch;
     assignment_vars := vars;
     sch_status := sch_status sch; value := value sch |}.

Definition with_answer (sch : Scheduler) (answer : status * (key -> bool)) : Scheduler :=
  {| sch_settings := sch_settings sch; sch_teachers := sch_teachers sch;
     sch_classes := sch_classes sch; sch_subjects := sch_subjects sch;
     sch_rooms := sch_rooms sch; use_room_constraints := use_room_constraints sch;
     max_subjects_per_day := max_subjects_per_day sch;
     free_periods := free_periods sch; days := days sch;
     time_slots := time_slots sch; subject_indices := subject_indices sch;
     teacher_ids := teacher_ids sch; class_ids := class_ids sch;
     subject_ids := subject_ids sch; room_ids := room_ids sch;
     assignment_vars := assignment_vars sch;
     sch_status := Some (fst answer); value := snd answer |}.

(** [solve]: the scheduler after the call, and the boolean it returns. *)
Definition solve (cp : solver) (sch : Scheduler) : outcome (bool * Scheduler) :=
  let sch1 := with_vars sch (_create_variables sch) in
  _ ← _add_all_constraints sch1;
  let sch2 := with_answer sch1 (cp sch1) in
  mret (status_found (sch_status sch2), sch2).

(** ** Random sources *)

Record world : Type := {
  uuids : nat -> string;
  uuid_count : nat;
  draws : nat -> nat;
  draw_count : nat
}.

(** [str(uuid.uuid4())]. *)
Definition uuid4 (w : world) : string * world :=
  (uuids w (uuid_count w),
   {| uuids := uuids w; uuid_count := S (uuid_count w);
      draws := draws w; draw_count := draw_count w |}).

(** A draw from [0 .. max] of numpy's global generator. *)
Definition random_interval (max : nat) (w : world) : nat * world :=
  ((draws w (draw_count w) mod S max)%nat,
   {| uuids := uuids w; uuid_count := uuid_count w;
      draws := draws w; draw_count := S (draw_count w) |}).

(** [np.random.choice(xs)] for a non-empty list. *)
Definition choice {A} (dflt : A) (xs : list A) (w : world) : A * world :=
  let '(i, w') := random_interval (length xs - 1) w in
  (default dflt (xs !! i), w').

Definition swap {A} (xs : list A) (i j : nat) : list A :=
  match xs !! i, xs !! j with
  | Some a, Some b => <[i := b]> (<[j := a]> xs)
  | _, _ => xs
  end.

(** [np.random.shuffle(xs)]: for [i] from the last index down to 1, swap
    [xs[i]] with [xs[j]] for a drawn [j <= i]. *)
Fixpoint shuffle_from {A} (i : nat) (xs : list A) (w : world) : list A * world :=
  match i with
  | O => (xs, w)
  | S i' =>
      let '(j, w') := random_interval i w in
      shuffle_from i' (swap xs i j) w'
  end.

Definition shuffle {A} (xs : list A) (w : world) : list A * world :=
  shuffle_from (length xs - 1) xs w.

(** ** Schedules *)

Record Entry : Type := {
  e_id : string;
  e_day : string;
  e_startTime : string;
  e_endTime : string;
  e_classId : option string;
  e_subjectId : string;
  e_teacherId : option string;
  e_roomId : string;
  e_roomName : option string
}.

Record Schedule : Type := {
  scheduleId : string;
  entries : list Entry
}.

(** [f"<prefix>{str(uuid.uuid4())[:8]}"]. *)
Definition fresh_id (prefix : string) (w : world) : string * world :=
  let '(u, w') := uuid4 w in
  (prefix +:+ String.substring 0 8 u, w').

(** ** Solution extraction *)

(** [next((cls["name"] for cls in self.classes if cls["id"] == class_id),
    dflt)]. *)
Fixpoint class_name_of (cs : list Class) (class_id dflt : string) : outcome string :=
  match cs with
  | [] => mret dflt
  | cls :: cs' =>
      i ← getitem (c_id cls);
      if String.eqb i class_id then getitem (c_name cls)
      else class_name_of cs' class_id dflt
  end.

(** The entry built for a chosen key, before its [id] is drawn. *)
Definition entry_of_key (sch : Scheduler) (k : key) : outcome (string -> Entry) :=
  let '(c, s, t, r, d, ts) := k in
  class_id ← getitem (class_ids sch !! c);
  subject_id ← getitem (subject_ids sch !! s);
  teacher_id ← getitem (teacher_ids sch !! t);
  room_id ← getitem (room_ids sch !! r);
  day ← getitem (days sch !! d);
  sl ← getitem (time_slots sch !! ts);
  if negb (use_room_constraints sch) then
    class_name ← class_name_of (sch_classes sch) class_id
                   ("Class " +:+ str_of_nat c);
    mret (fun u =>
      {| e_id := u; e_day := day; e_startTime := fst sl; e_endTime := snd sl;
         e_classId := Some class_id; e_subjectId := subject_id;
         e_teacherId := Some teacher_id; e_roomId := class_id;
         e_roomName := Some ("Room " +:+ class_name) |})
  else
    mret (fun u =>
      {| e_id := u; e_day := day; e_startTime := fst sl; e_endTime := snd sl;
         e_classId := Some class_id; e_subjectId := subject_id;
         e_teacherId := Some teacher_id; e_roomId := room_id;
         e_roomName := None |}).

(** [for key, var in self.assignment_vars.items(): if Value(var) == 1:
    ...append(entry)].  The bookkeeping dictionaries of this loop and the
    checks after it only feed the log. *)
Fixpoint extract_entries (sch : Scheduler) (ks : list key) (acc : list Entry)
    (w : world) : outcome (list Entry) * world :=
  match ks with
  | [] => (Ret acc, w)
  | k :: ks' =>
      if value sch k then
        match entry_of_key sch k with
        | Ret mk =>
            let '(u, w') := uuid4 w in
            extract_entries sch ks' (acc ++ [mk u]) w'
        | Raise e => (Raise e, w)
        | Timeout => (Timeout, w)
        end
      else extract_entries sch ks' acc w
  end.

(** ** Fallback greedy generator *)

(** The dictionary [assigned_teachers], in insertion order. *)
Definition assignment : Type := (option string * string * Teacher)%type.

Fixpoint assign (class_id : option string) (subject_id : string) (teacher : Teacher)
    (d : list assignment) : list assignment :=
  match d with
  | [] => [(class_id, subject_id, teacher)]
  | (c, s, t) :: d' =>
      if bool_decide (c = class_id /\ s = subject_id)
      then (c, s, teacher) :: d'
      else (c, s, t) :: assign class_id subject_id teacher d'
  end.

Definition no_teacher : Teacher :=
  {| t_id := None; t_name := None; t_subjects := [] |}.

(** First stage: one teacher for each (class, subject) pair. *)
Definition pick_teacher (sch : Scheduler) (class_id : option string)
    (st : list assignment * world) (subject_id : string) : list assignment * world :=
  let '(assigned_teachers, w) := st in
  match subject_indices sch !! subject_id with
  | None => st
  | Some _ =>
      let valid :=
        filter (fun t => subject_id ∈ t_subjects t) (sch_teachers sch) in
      if bool_decide (valid = []) then st
      else
        let '(teacher, w') := choice no_teacher valid w in
        (assign class_id subject_id teacher assigned_teachers, w')
  end.

Definition pick_teachers (sch : Scheduler) (w : world) : list assignment * world :=
  foldl (fun st class_info =>
           foldl (pick_teacher sch (c_id class_info)) st
             (c_requiredSubjects class_info))
    ([], w) (sch_classes sch).

(** [available_slots] before the shuffle. *)
Definition all_slots (sch : Scheduler) : list (string * slot) :=
  day ← days sch; time_slot ← time_slots sch; [(day, time_slot)].

(** [next((i for i, ts in enumerate(self.time_slots) if ts[0] == start),
    -1)], counting from [i]; [None] is -1. *)
Fixpoint slot_index (i : nat) (start : string) (sls : list slot) : option nat :=
  match sls with
  | [] => None
  | sl :: sls' =>
      if String.eqb (fst sl) start then Some i else slot_index (S i) start sls'
  end.

(** Same day, class and subject as the candidate, starting at [start]. *)
Definition same_lesson_at (existing : Entry) (day : string)
    (class_id : option string) (subject_id : string) (start : string) : bool :=
  (String.eqb (e_day existing) day
   && String.eqb (e_startTime existing) start
   && bool_decide (e_classId existing = class_id)
   && String.eqb (e_subjectId existing) subject_id)%bool.

(** The checks of the loop over [mock_schedule["entries"]] against one
    existing entry: [true] when one of them sets [valid_slot = False]. *)
Definition clashes (sch : Scheduler) (day : string) (time_slot : slot)
    (teacher : Teacher) (class_id : option string) (subject_id : string)
    (existing : Entry) : bool :=
  if (String.eqb (e_day existing) day
      && String.eqb (e_startTime existing) (fst time_slot)
      && bool_decide (e_teacherId existing = t_id teacher))%bool
  then true
  else if (String.eqb (e_day existing) day
           && String.eqb (e_startTime existing) (fst time_slot)
           && bool_decide (e_classId existing = class_id))%bool
  then true
  else if (String.eqb (e_day existing) day
           && bool_decide (e_classId existing = class_id)
           && String.eqb (e_subjectId existing) subject_id)%bool
  then true
  else
    match slot_index 0 (fst time_slot) (time_slots sch) with
    | None => false
    | Some time_slot_idx =>
        if (Nat.ltb 0 time_slot_idx
            && match time_slots sch !! (time_slot_idx - 1)%nat with
               | Some prev_time_slot =>
                   same_lesson_at existing day class_id subject_id (fst prev_time_slot)
               | None => false
               end)%bool
        then true
        else
          (Nat.ltb time_slot_idx (length (time_slots sch) - 1)
           && match time_slots sch !! (time_slot_idx + 1)%nat with
              | Some next_time_slot =>
                  same_lesson_at existing day class_id subject_id (fst next_time_slot)
              | None => false
              end)%bool
    end.

(** The loop over the existing entries, leaving at the first clash. *)
Fixpoint valid_slot (sch : Scheduler) (day : string) (time_slot : slot)
    (teacher : Teacher) (class_id : option string) (subject_id : string)
    (existing : list Entry) : bool :=
  match existing with
  | [] => true
  | existing_entry :: rest =>
      if clashes sch day time_slot teacher class_id subject_id existing_entry
      then false
      else valid_slot sch day time_slot teacher class_id subject_id rest
  end.

(** State of the fill loops: the entries so far and the random sources. *)
Definition fill_state : Type := (list Entry * world)%type.

(** [for slot_idx, (day, time_slot) in enumerate(available_slots)],
    counting from [slot_idx]. *)
Fixpoint fill_slots (sch : Scheduler) (teacher : Teacher) (class_id : option string)
    (subject_id : string) (slot_idx : nat) (slots : list (string * slot))
    (hours_to_assign : Z) (st : fill_state) : fill_state :=
  match slots with
  | [] => st
  | (day, time_slot) :: slots' =>
      if hours_to_assign <=? 0 then st
      else
        let '(es, w) := st in
        if valid_slot sch day time_slot teacher class_id subject_id es then
          let dflt := ("room-" +:+ str_of_nat slot_idx)%string in
          let '(room_id, w1) :=
            match sch_rooms sch with
            | [] => (dflt, w)
            | r0 :: _ =>
                let '(room, w1) := choice r0 (sch_rooms sch) w in
                (default dflt (r_id room), w1)
            end in
          let '(u, w2) := uuid4 w1 in
          let entry :=
            {| e_id := u; e_day := day; e_startTime := fst time_slot;
               e_endTime := snd time_slot; e_classId := class_id;
               e_subjectId := subject_id; e_teacherId := t_id teacher;
               e_roomId := room_id; e_roomName := None |} in
          fill_slots sch teacher class_id subject_id (S slot_idx) slots'
            (hours_to_assign - 1) (es ++ [entry], w2)
        else
          fill_slots sch teacher class_id subject_id (S slot_idx) slots'
            hours_to_assign st
  end.

(** The body of the loop over [assigned_teachers.items()]. *)
Definition fill_pair (sch : Scheduler) (available_slots : list (string * slot))
    (st : fill_state) (a : assignment) : fill_state :=
  let '(class_id, subject_id, teacher) := a in
  match list_find (fun s => s_id s = Some subject_id) (sch_subjects sch) with
  | None => st
  | Some (_, subject) =>
      let hours_per_week := default 0 (s_hoursPerWeek subject) in
      if hours_per_week <=? 0 then st
      else
        match list_find (fun c => c_id c = class_id) (sch_classes sch) with
        | None => st
        | Some _ =>
            fill_slots sch teacher class_id subject_id 0 available_slots
              hours_per_week st
        end
  end.

Definition _generate_mock_schedule (sch : Scheduler) (w : world) : Schedule * world :=
  let '(sid, w0) := fresh_id "mock-schedule-" w in
  let '(assigned_teachers, w1) := pick_teachers sch w0 in
  let '(available_slots, w2) := shuffle (all_slots sch) w1 in
  let '(es, w3) := foldl (fill_pair sch available_slots) ([], w2) assigned_teachers in
  ({| scheduleId := sid; entries := es |}, w3).

(** [extract_solution]. *)
Definition extract_solution (sch : Scheduler) (w : world) : outcome Schedule * world :=
  if negb (status_found (sch_status sch)) then
    let '(m, w') := _generate_mock_schedule sch w in (Ret m, w')
  else
    let '(sid, w0) := fresh_id "generated-schedule-" w in
    match extract_entries sch (assignment_vars sch) [] w0 with
    | (Ret es, w1) => (Ret {| scheduleId := sid; entries := es |}, w1)
    | (Raise e, w1) => (Raise e, w1)
    | (Timeout, w1) => (Timeout, w1)
    end.

(** ** [generate_schedule] *)

(** The [try] block. *)
Definition generate_try (fuel : nat) (cp : solver) (data : Data) (w : world)
  : outcome Schedule * world :=
  match (scheduler ← __init__ fuel data; solve cp scheduler) with
  | Ret (true, scheduler) => extract_solution scheduler w
  | Ret (false, scheduler) =>
      let '(m, w') := _generate_mock_schedule scheduler w in (Ret m, w')
  | Raise e => (Raise e, w)
  | Timeout => (Timeout, w)
  end.

(** [None] only when the budget of the time grid loop is used up. *)
Definition generate_schedule (fuel : nat) (cp : solver) (data : Data) (w : world)
  : option Schedule :=
  match generate_try fuel cp data w with
  | (Ret schedule, _) => Some schedule
  | (Raise _, w') =>
      Some {| scheduleId := fst (fresh_id "error-schedule-" w'); entries := [] |}
  | (Timeout, _) => None
  end.

(** ** [validate_constraints] *)

(** The issues, one constructor for each [issues.append]; [message]
    gives the text. *)
Inductive issue : Type :=
| SettingsMissing
| NoTeachers
| NoClasses
| NoSubjects
| NoRooms
| StartTimeMissing
| EndTimeMissing
| LessonDurationMissing
| MaxSubjectsInvalid
| FreePeriodNoName (i : nat)
| FreePeriodNoStart (name : string)
| FreePeriodNoDays (name : string)
| FreePeriodNoClasses (name : string)
| EndNotAfterStart
| InvalidTimeFormat
| TeacherNoId (i : nat)
| TeacherNoSubjects (name : string)
| ClassNoId (i : nat)
| ClassNoSubjects (name : string)
| SubjectNoId (i : nat)
| SubjectNoHours (name : string)
| ClassUnknownSubject (name subj_id : string)
| TeacherUnknownSubject (name subj_id : string)
| NotEnoughRooms (n_rooms n_classes : nat).

#[global] Instance issue_eq_dec : EqDecision issue.
Proof. solve_decision. Defined.

Definition message (i : issue) : string :=
  match i with
  | SettingsMissing => "School settings are missing."
  | NoTeachers => "No teachers provided."
  | NoClasses => "No classes provided."
  | NoSubjects => "No subjects provided."
  | NoRooms => "No rooms provided (required when room constraints are enabled)."
  | StartTimeMissing => "School start time is missing."
  | EndTimeMissing => "School end time is missing."
  | LessonDurationMissing => "Lesson duration is missing."
  | MaxSubjectsInvalid => "Maximum subjects per day must be a positive integer."
  | FreePeriodNoName i =>
      "Free period at index " +:+ str_of_nat i +:+ " is missing a name."
  | FreePeriodNoStart n => "Free period '" +:+ n +:+ "' is missing a start time."
  | FreePeriodNoDays n => "Free period '" +:+ n +:+ "' has no assigned days."
  | FreePeriodNoClasses n => "Free period '" +:+ n +:+ "' has no assigned classes."
  | EndNotAfterStart => "School end time must be after start time."
  | InvalidTimeFormat => "Invalid time format in school settings."
  | TeacherNoId i => "Teacher at index " +:+ str_of_nat i +:+ " is missing an ID."
  | TeacherNoSubjects n => "Teacher '" +:+ n +:+ "' has no assigned subjects."
  | ClassNoId i => "Class at index " +:+ str_of_nat i +:+ " is missing an ID."
  | ClassNoSubjects n => "Class '" +:+ n +:+ "' has no required subjects."
  | SubjectNoId i => "Subject at index " +:+ str_of_nat i +:+ " is missing an ID."
  | SubjectNoHours n => "Subject '" +:+ n +:+ "' has no specified hours per week."
  | ClassUnknownSubject n s =>
      "Class '" +:+ n +:+ "' requires non-existent subject ID: " +:+ s
  | TeacherUnknownSubject n s =>
      "Teacher '" +:+ n +:+ "' is assigned non-existent subject ID: " +:+ s
  | NotEnoughRooms r c =>
      "Not enough rooms provided (" +:+ str_of_nat r
      +:+ ") for the number of classes (" +:+ str_of_nat c +:+ ")."
  end%string.

(** [not d.get(k)] for a string, an integer and a list. *)
Definition falsy_str (o : option string) : bool :=
  match truthy_str o with Some _ => false | None => true end.

Definition falsy_int (o : option Z) : bool :=
  match o with Some z => z =? 0 | None => true end.

Definition falsy_list {A} (xs : list A) : bool :=
  match xs with [] => true | _ => false end.

(** [x.get('name', f'at index {i}')]. *)
Definition name_or_index (name : option string) (i : nat) : string :=
  default ("at index " +:+ str_of_nat i)%string name.

(** [if cond: issues.append(i)]. *)
Definition when (cond : bool) (i : issue) : list issue :=
  if cond then [i] else [].

Definition free_period_issues (i : nat) (period : FreePeriod) : list issue :=
  when (falsy_str (fp_name period)) (FreePeriodNoName i)
  ++ when (falsy_str (fp_startTime period))
       (FreePeriodNoStart (name_or_index (fp_name period) i))
  ++ when (falsy_list (fp_days period))
       (FreePeriodNoDays (name_or_index (fp_name period) i))
  ++ when (falsy_list (fp_forClasses period))
       (FreePeriodNoClasses (name_or_index (fp_name period) i)).

(** The [try] block that compares the school hours. *)
Definition school_hours_issues (ss : SchoolSettings) : list issue :=
  let s_time := default "08:00"%string (startTime ss) in
  let e_time := default "15:00"%string (endTime ss) in
  match (s ← time_to_minutes s_time; e ← time_to_minutes e_time; mret (s, e)) with
  | Ret (s, e) => when (e <=? s) EndNotAfterStart
  | _ => [InvalidTimeFormat]
  end.

Definition settings_issues (ss : SchoolSettings) : list issue :=
  when (falsy_str (startTime ss)) StartTimeMissing
  ++ when (falsy_str (endTime ss)) EndTimeMissing
  ++ when (falsy_int (lessonDuration ss)) LessonDurationMissing
  ++ when (match maxSubjectsPerDay ss with
           | Some (Some max_subjects) => max_subjects <? 0
           | _ => false
           end) MaxSubjectsInvalid
  ++ concat (imap free_period_issues (freePeriods ss))
  ++ school_hours_issues ss.

Definition teacher_issues (i : nat) (teacher : Teacher) : list issue :=
  when (falsy_str (t_id teacher)) (TeacherNoId i)
  ++ when (falsy_list (t_subjects teacher))
       (TeacherNoSubjects (name_or_index (t_name teacher) i)).

Definition class_issues (i : nat) (cls : Class) : list issue :=
  when (falsy_str (c_id cls)) (ClassNoId i)
  ++ when (falsy_list (c_requiredSubjects cls))
       (ClassNoSubjects (name_or_index (c_name cls) i)).

Definition subject_issues (i : nat) (subject : Subject) : list issue :=
  when (falsy_str (s_id subject)) (SubjectNoId i)
  ++ when (falsy_int (s_hoursPerWeek subject))
       (SubjectNoHours (name_or_index (s_name subject) i)).

(** The set [subject_ids] after the loop over the subjects. *)
Definition known_subject_ids (subjs : list Subject) : gset string :=
  list_to_set (omap (fun subject => truthy_str (s_id subject)) subjs).

Definition class_reference_issues (known : gset string) (i : nat) (cls : Class)
  : list issue :=
  subj_id ← c_requiredSubjects cls;
  when (bool_decide (subj_id ∉ known))
    (ClassUnknownSubject (name_or_index (c_name cls) i) subj_id).

Definition teacher_reference_issues (known : gset string) (i : nat)
    (teacher : Teacher) : list issue :=
  subj_id ← t_subjects teacher;
  when (bool_decide (subj_id ∉ known))
    (TeacherUnknownSubject (name_or_index (t_name teacher) i) subj_id).

(** The list [issues] at the end of [validate_constraints]. *)
Definition validation_issues (data : Data) : list issue :=
  let known := known_subject_ids (subjects data) in
  when (bool_decide (school_settings data = None)) SettingsMissing
  ++ when (falsy_list (teachers data)) NoTeachers
  ++ when (falsy_list (classes data)) NoClasses
  ++ when (falsy_list (subjects data)) NoSubjects
  ++ when (default true (school_settings data ≫= useRoomConstraints)
           && falsy_list (rooms data)) NoRooms
  ++ match school_settings data with
     | Some ss => settings_issues ss
     | None => []
     end
  ++ concat (imap teacher_issues (teachers data))
  ++ concat (imap class_issues (classes data))
  ++ concat (imap subject_issues (subjects data))
  ++ concat (imap (class_reference_issues known) (classes data))
  ++ concat (imap (teacher_reference_issues known) (teachers data))
  ++ when (Nat.ltb (length (rooms data)) (length (classes data)))
       (NotEnoughRooms (length (rooms data)) (length (classes data))).

(** The returned object: [feasible] and the texts of [issues]. *)
Definition validate_constraints (data : Data) : bool * list string :=
  let issues := validation_issues data in
  (bool_decide (issues = []), message <$> issues).

(** * Vocabulary of the statements *)

(** A decimal digit character, its value, and the number that a run of
    digits denotes. *)
Definition plain_digit (c : ascii) : Prop :=
  exists k, (k < 10)%nat /\ c = digit_char k.

Definition dval (c : ascii) : Z := default 0 (digit_of c).

Definition digits_number (acc : Z) (ds : list ascii) : Z :=
  foldl (fun a c => 10 * a + dval c) acc ds.

Definition is_digit (c : ascii) : bool :=
  match digit_of c with Some _ => true | None => false end.

(** A well-formed [HH:MM] text: two digits, a colon, two digits. *)
Definition is_hhmm (s : string) : bool :=
  match list_ascii_of_string s with
  | [h1; h2; c; m1; m2] =>
      is_digit h1 && is_digit h2 && Ascii.eqb c ":"%char
      && is_digit m1 && is_digit m2
  | _ => false
  end.

(** The half-open intervals [[a, b)] and [[c, d)] share a minute. *)
Definition overlaps (a b c d : Z) : Prop :=
  exists x, (a <= x < b) /\ (c <= x < d).

(** Settings with other breakfast-break fields. *)
Definition with_breakfast (ss : SchoolSettings) (start : string) (duration : Z)
  : SchoolSettings :=
  {| startTime := startTime ss; endTime := endTime ss;
     lessonDuration := lessonDuration ss; breakDuration := breakDuration ss;
     hasBreakfastBreak := hasBreakfastBreak ss;
     breakfastBreakStartTime := Some start;
     breakfastBreakDuration := Some duration;
     lunchBreakDuration := lunchBreakDuration ss;
     lunchBreakStartTime := lunchBreakStartTime ss;
     lessonsPerDay := lessonsPerDay ss; daysPerWeek := daysPerWeek ss;
     workingDays := workingDays ss; useRoomConstraints := useRoomConstraints ss;
     maxSubjectsPerDay := maxSubjectsPerDay ss; freePeriods := freePeriods ss |}.

(** Passes that suffice for the loop of the time grid builder. *)
Definition grid_fuel (g : grid) : nat :=
  S (Z.to_nat (end_minutes g - lesson_duration g - start_minutes g + 1)).

(** What a slot of the grid must satisfy. *)
Definition good_slot (g : grid) (sl : slot) : Prop :=
  exists sa sb,
    time_to_minutes (fst sl) = Ret sa /\ time_to_minutes (snd sl) = Ret sb
    /\ sb - sa = lesson_duration g
    /\ start_minutes g <= sa /\ sb <= end_minutes g
    /\ ~ overlaps sa sb (lunch_start_minutes g) (lunch_end_minutes g)
    /\ (has_breakfast_break g = true ->
        ~ overlaps sa sb (breakfast_start_minutes g) (breakfast_end_minutes g)).

(** Every record of the request carries an id. *)
Definition has_ids (data : Data) : Prop :=
  Forall (fun t => is_Some (t_id t)) (teachers data)
  /\ Forall (fun c => is_Some (c_id c)) (classes data)
  /\ Forall (fun s => is_Some (s_id s)) (subjects data)
  /\ Forall (fun r => is_Some (r_id r)) (rooms data).

(** The three kinds of schedule identifier. *)
Definition generated_prefix : string := "generated-schedule-".
Definition mock_prefix : string := "mock-schedule-".
Definition error_prefix : string := "error-schedule-".

(** ** Sample requests *)

Definition settings_of (start finish : string) (lesson : Z) (day_names : list string)
    (use_rooms : bool) : SchoolSettings :=
  {| startTime := Some start; endTime := Some finish;
     lessonDuration := Some lesson; breakDuration := Some 15;
     hasBreakfastBreak := Some true;
     breakfastBreakStartTime := Some "10:00"%string;
     breakfastBreakDuration := Some 25;
     lunchBreakDuration := Some 45;
     lunchBreakStartTime := Some "12:00"%string;
     lessonsPerDay := Some 6; daysPerWeek := Some 5;
     workingDays := Some day_names; useRoomConstraints := Some use_rooms;
     maxSubjectsPerDay := Some (Some 6); freePeriods := [] |}.

Definition alice : Teacher :=
  {| t_id := Some "teacher-1"; t_name := Some "Alice"; t_subjects := ["math"] |}%string.

Definition class_1 (required : list string) : Class :=
  {| c_id := Some "class-1"; c_name := Some "Class 1";
     c_requiredSubjects := required |}%string.

Definition math : Subject :=
  {| s_id := Some "math"; s_name := Some "Mathematics";
     s_hoursPerWeek := Some 1 |}%string.


Definition room_1 : Room :=
  {| r_id := Some "room-1"; r_name := Some "Room 101" |}%string.

(** One class, one teacher, one subject, one room. *)
Definition request_of (ss : SchoolSettings) (rs : list Room) : Data :=
  {| school_settings := Some ss; teachers := [alice];
     classes := [class_1 ["math"%string]]; subjects := [math]; rooms := rs |}.

(** Room constraints switched off and no room sent. *)
Definition request_without_rooms : Data :=
  request_of (settings_of "08:00" "15:00" 60 ["MONDAY"; "TUESDAY"] false)%string [].

(** The random sources after [n] identifiers, with draws [f]. *)
Definition world_of (f : nat -> nat) : world :=
  {| uuids := fun n => ("0000000" +:+ str_of_nat n +:+ "-aaaa")%string;
     uuid_count := 0; draws := f; draw_count := 0 |}.

(** A solver that gives up, and one that reports the empty valuation as
    optimal. *)
Definition solver_unknown : solver := fun _ => (UNKNOWN, fun _ => false).


(** An ordinary week of two days. *)
Definition request_two_days : Data :=
  request_of (settings_of "08:00" "15:00" 60 ["MONDAY"; "TUESDAY"] true)%string
    [room_1].

(** An entry without its random [id]. *)
Definition entry_tuple (e : Entry)
  : string * string * string * option string * string * option string * string :=
  (e_day e, e_startTime e, e_endTime e, e_classId e, e_subjectId e,
   e_teacherId e, e_roomId e).

(** Two results that agree up to the random identifiers: the same
    entries in the same order once the ids are dropped, and the same
    kind of [scheduleId]. *)
Definition same_up_to_ids (a b : option Schedule) : Prop :=
  match a, b with
  | Some x, Some y =>
      entry_tuple <$> entries x = entry_tuple <$> entries y
      /\ exists p, p ∈ [generated_prefix; mock_prefix; error_prefix]
                   /\ String.prefix p (scheduleId x) = true
                   /\ String.prefix p (scheduleId y) = true
  | None, None => True
  | _, _ => False
  end.

(** Two slot starts that are next to each other in the grid. *)
Definition adjacent_starts (sch : Scheduler) (a b : string) : Prop :=
  exists i j sa sb,
    time_slots sch !! i = Some sa /\ time_slots sch !! j = Some sb
    /\ fst sa = a /\ fst sb = b /\ (j = S i \/ i = S j).

(** No teacher clash, no class clash, no subject twice on a day. *)
Definition apart (e1 e2 : Entry) : Prop :=
  ~ (e_day e1 = e_day e2 /\ e_startTime e1 = e_startTime e2
     /\ e_teacherId e1 = e_teacherId e2)
  /\ ~ (e_day e1 = e_day e2 /\ e_startTime e1 = e_startTime e2
        /\ e_classId e1 = e_classId e2)
  /\ ~ (e_classId e1 = e_classId e2 /\ e_day e1 = e_day e2
        /\ e_subjectId e1 = e_subjectId e2).

(** Every earlier entry is apart from every later one. *)
Definition all_apart (es : list Entry) : Prop :=
  forall i j e1 e2,
    (i < j)%nat -> es !! i = Some e1 -> es !! j = Some e2 -> apart e1 e2.

(** ** Counting lessons and describing the decision variables *)

(** The entries of a schedule for one class and one subject. *)
Definition lessons_of (schedule : Schedule) (class_id subject_id : string) : nat :=
  length (filter (fun e => e_classId e = Some class_id /\ e_subjectId e = subject_id)
            (entries schedule)).

(** The solver's answer for the model of [sch] respects the modelled
    constraint families whenever its status is OPTIMAL or FEASIBLE. *)
Definition sound_on (cp : solver) (sch : Scheduler) : Prop :=
  let sch1 := with_vars sch (_create_variables sch) in
  forall cs, _add_all_constraints sch1 = Ret cs -> respects cs (cp sch1).

(** A dictionary update [f] that adds exactly the keys in [P]. *)
Definition adds (f : list key -> list key) (P : key -> Prop) : Prop :=
  forall vars,
    (NoDup vars -> NoDup (f vars))
    /\ (forall k, k ∈ f vars <-> k ∈ vars \/ P k).

(** The keys made for class index [c] and subject id [s_id]. *)
Definition key_of_pair (sch : Scheduler) (c : nat) (s_id : string) (k : key) : Prop :=
  exists s t r d ts,
    k = (c, s, t, r, d, ts)
    /\ subject_indices sch !! s_id = Some s
    /\ t ∈ valid_teachers 0 s_id (sch_teachers sch)
    /\ (if use_room_constraints sch then (r < length (sch_rooms sch))%nat else r = 0%nat)
    /\ (d < length (days sch))%nat
    /\ (ts < length (time_slots sch))%nat.

(** The keys made for the classes [cs], the first of which has index [c]. *)
Definition key_of_classes (sch : Scheduler) (c : nat) (cs : list Class) (k : key) : Prop :=
  exists i class_info s_id,
    cs !! i = Some class_info
    /\ s_id ∈ c_requiredSubjects class_info
    /\ key_of_pair sch (c + i) s_id k.



(** A key of class index [c] and subject index [s]. *)
Definition of_pair (c s : nat) (k : key) : Prop :=
  let '(c', s', _, _, _, _) := k in c' = c /\ s' = s.

#[global] Instance of_pair_dec c s k : Decision (of_pair c s k).
Proof. destruct k as [[[[[c' s'] t] r] d] ts]. simpl. apply _. Defined.

(** ** More sample requests, and the objects built from them *)


(** Room constraints off and a class without a name. *)
Definition request_unnamed_class : Data :=
  {| school_settings :=
       Some (settings_of "08:00" "15:00" 60 ["MONDAY"; "TUESDAY"] false);
     teachers := [alice];
     classes := [{| c_id := Some "class-1"; c_name := None;
                    c_requiredSubjects := ["math"] |}];
     subjects := [math];
     rooms := [room_1] |}%string.

(** Mathematics twice a week. *)
Definition request_two_hours : Data :=
  {| school_settings :=
       Some (settings_of "08:00" "15:00" 60 ["MONDAY"; "TUESDAY"] true);
     teachers := [alice];
     classes := [class_1 ["math"]];
     subjects := [{| s_id := Some "math"; s_name := Some "Mathematics";
                     s_hoursPerWeek := Some 2 |}];
     rooms := [room_1] |}%string.

(** A start time that is not [HH:MM]. *)
Definition settings_bad_start : SchoolSettings :=
  settings_of "8" "15:00" 60 ["MONDAY"; "TUESDAY"] true.

Definition blank_scheduler : Scheduler :=
  {| sch_settings := settings_of "" "" 0 [] false;
     sch_teachers := []; sch_classes := []; sch_subjects := []; sch_rooms := [];
     use_room_constraints := false; max_subjects_per_day := Some 0;
     free_periods := []; days := []; time_slots := [];
     subject_indices := ∅; teacher_ids := []; class_ids := [];
     subject_ids := []; room_ids := []; assignment_vars := [];
     sch_status := None; value := fun _ => false |}.

(** The scheduler that the constructor returns, and the one that
    [solve] leaves. *)
Definition built (fuel : nat) (data : Data) : Scheduler :=
  match __init__ fuel data with
  | Ret sch => sch
  | _ => blank_scheduler
  end.

Definition solved (cp : solver) (sch : Scheduler) : Scheduler :=
  match solve cp sch with
  | Ret (_, sch') => sch'
  | _ => sch
  end.

(** A solver that reports as optimal the valuation with one lesson: the
    first class, subject, teacher and room, on the first day in the
    first slot. *)
Definition solver_one_lesson : solver :=
  fun _ => (OPTIMAL, fun k => bool_decide (k = (0, 0, 0, 0, 0, 0)%nat)).

(** The one-class request with that start time. *)
Definition request_bad_start : Data := request_of settings_bad_start [room_1].

(** Two classes that carry the same id, and a solver that gives each of
    them its one lesson, in the first two slots of the first day. *)
Definition request_twin_classes : Data :=
  {| school_settings :=
       Some (settings_of "08:00" "15:00" 60 ["MONDAY"; "TUESDAY"] true);
     teachers := [alice];
     classes := [class_1 ["math"]; class_1 ["math"]];
     subjects := [math];
     rooms := [room_1; room_1] |}%string.

Definition solver_two_lessons : solver :=
  fun _ => (OPTIMAL,
            fun k => bool_decide (k = (0, 0, 0, 0, 0, 0)%nat)
                     || bool_decide (k = (1, 0, 0, 0, 0, 1)%nat)).

(** An exception [e] reaches the handler of [generate_schedule]: it
    leaves the constructor, [solve] or [extract_solution]. *)
Definition reaches_handler (fuel : nat) (cp : solver) (data : Data) (w : world)
    (e : exn) : Prop :=
  __init__ fuel data = Raise e
  \/ (exists sch, __init__ fuel data = Ret sch /\ solve cp sch = Raise e)
  \/ (exists sch sch' w',
        __init__ fuel data = Ret sch /\ solve cp sch = Ret (true, sch')
        /\ extract_solution sch' w = (Raise e, w')).

(** The empty schedule that the handler of [generate_schedule] returns. *)
Definition error_schedule (w : world) : Schedule :=
  {| scheduleId := ("error-schedule-"
                    +:+ String.substring 0 8 (uuids w (uuid_count w)))%string;
     entries := [] |}.

(** * Vocabulary of the further properties *)

(** ** The time grid as a list of minute marks *)

(** The slot that the loop emits at cursor [m]. *)
Definition slot_at (g : grid) (m : Z) : slot :=
  (minutes_to_time m, minutes_to_time (m + lesson_duration g)).

(** Successive marks are at least [gap] apart. *)
Definition spaced (gap : Z) (xs : list Z) : Prop :=
  forall i x y, xs !! i = Some x -> xs !! S i = Some y -> x + gap <= y.

(** ** What the validator asks of a request *)

(** A key that is present with a non-empty text. *)
Definition filled (o : option string) : Prop :=
  exists s, o = Some s /\ s <> ""%string.

(** A subject id that the catalogue defines. *)
Definition in_catalogue (data : Data) (subj_id : string) : Prop :=
  exists subject, subject ∈ subjects data
                  /\ s_id subject = Some subj_id /\ subj_id <> ""%string.

Definition settings_in_order (ss : SchoolSettings) : Prop :=
  (exists l, lessonDuration ss = Some l /\ l <> 0)
  /\ (forall m, maxSubjectsPerDay ss = Some (Some m) -> 0 <= m)
  /\ Forall (fun p => filled (fp_name p) /\ filled (fp_startTime p)
                      /\ fp_days p <> [] /\ fp_forClasses p <> [])
       (freePeriods ss)
  /\ exists st et s e,
       startTime ss = Some st /\ st <> ""%string
       /\ endTime ss = Some et /\ et <> ""%string
       /\ time_to_minutes st = Ret s /\ time_to_minutes et = Ret e /\ s < e.

(** The requests without an issue, said without reference to the order
    in which the validator looks. *)
Definition in_order (data : Data) : Prop :=
  (exists ss, school_settings data = Some ss /\ settings_in_order ss)
  /\ teachers data <> [] /\ classes data <> [] /\ subjects data <> []
  /\ Forall (fun t => filled (t_id t) /\ t_subjects t <> []
                      /\ Forall (in_catalogue data) (t_subjects t))
       (teachers data)
  /\ Forall (fun c => filled (c_id c) /\ c_requiredSubjects c <> []
                      /\ Forall (in_catalogue data) (c_requiredSubjects c))
       (classes data)
  /\ Forall (fun s => filled (s_id s)
                      /\ exists h, s_hoursPerWeek s = Some h /\ h <> 0)
       (subjects data)
  /\ (length (classes data) <= length (rooms data))%nat.

(** ** Entries and the keys they are written for *)

(** [e] is the entry that extraction writes for the key [k]. *)
Definition written_for (sch : Scheduler) (k : key) (e : Entry) : Prop :=
  exists mk, entry_of_key sch k = Ret mk /\ e = mk (e_id e).

(** The keys behind the entries of a schedule: chosen variables, each
    once, in the order of the entries. *)
Definition keys_of_entries (sch : Scheduler) (ks : list key) (es : list Entry) : Prop :=
  NoDup ks
  /\ (forall k, k ∈ ks -> k ∈ assignment_vars sch /\ value sch k = true)
  /\ Forall2 (written_for sch) ks es.

(** What a lesson of a schedule must be made of. *)
Definition lesson_of_request (data : Data) (sch : Scheduler) (e : Entry) : Prop :=
  e_day e ∈ days sch
  /\ (e_startTime e, e_endTime e) ∈ time_slots sch
  /\ (exists class_info,
        class_info ∈ classes data /\ c_id class_info = e_classId e
        /\ e_subjectId e ∈ c_requiredSubjects class_info)
  /\ (exists teacher,
        teacher ∈ teachers data /\ t_id teacher = e_teacherId e
        /\ e_subjectId e ∈ t_subjects teacher)
  /\ (exists subject,
        subject ∈ subjects data /\ s_id subject = Some (e_subjectId e))
  /\ (if use_room_constraints sch
      then exists room, room ∈ rooms data /\ r_id room = Some (e_roomId e)
      else Some (e_roomId e) = e_classId e).

(** ** Which decision variables exist *)

(** [n] is the last position of [x] in [ids]: what
    [{id: i for i, id in enumerate(ids)}] gives for [x]. *)
Definition last_index (ids : list string) (x : string) (n : nat) : Prop :=
  ids !! n = Some x /\ forall m, (n < m)%nat -> ids !! m <> Some x.

(** A lesson that the request allows: a class, a subject it requires
    (at the last position of its id in the catalogue), a teacher whose
    subjects contain it, a room (room 0 when room constraints are off),
    a working day and a slot of the grid. *)
Definition possible_lesson (data : Data) (sch : Scheduler) (k : key) : Prop :=
  let '(c, s, t, r, d, ts) := k in
  exists class_info subject_id teacher,
    classes data !! c = Some class_info
    /\ subject_id ∈ c_requiredSubjects class_info
    /\ last_index (subject_ids sch) subject_id s
    /\ teachers data !! t = Some teacher
    /\ subject_id ∈ t_subjects teacher
    /\ (if use_room_constraints sch then (r < length (rooms data))%nat else r = 0%nat)
    /\ (d < length (days sch))%nat
    /\ (ts < length (time_slots sch))%nat.

(** ** Constraint families over the assignment variables

    The families below post linear constraints on the assignment
    variables alone; they are given as the list of what they post, in
    the order of the loops. *)

Inductive bound : Type :=
| SumLe (vars : list key) (rhs : Z).

Definition within (val : key -> bool) (b : bound) : bool :=
  match b with
  | SumLe ks rhs => sum_vars val ks <=? rhs
  end.

(** [if xs: self.model.Add(sum(xs) <= 1)]. *)
Definition at_most_one (xs : list key) : list bound :=
  if bool_decide (xs = []) then [] else [SumLe xs 1].

(** [_add_teacher_availability_constraints], its first loop nest ("a
    teacher can teach at most one class in a time slot").  The daily and
    weekly caps of the two other nests read [maxHoursPerDay] and
    [maxHoursPerWeek] and are not part of this list. *)
Definition teacher_slot_constraints (sch : Scheduler) : list bound :=
  t ← seq 0 (length (sch_teachers sch));
  d ← seq 0 (length (days sch));
  ts ← seq 0 (length (time_slots sch));
  at_most_one
    (gather (assignment_vars sch) (length (sch_classes sch))
       (length (sch_subjects sch)) (length (sch_rooms sch))
       (fun c s r => (c, s, t, r, d, ts))).

(** [_add_class_constraints]. *)
Definition _add_class_constraints (sch : Scheduler) : list bound :=
  c ← seq 0 (length (sch_classes sch));
  d ← seq 0 (length (days sch));
  ts ← seq 0 (length (time_slots sch));
  at_most_one
    (gather (assignment_vars sch) (length (sch_subjects sch))
       (length (sch_teachers sch)) (length (sch_rooms sch))
       (fun s t r => (c, s, t, r, d, ts))).

(** [_add_room_constraints]; [_add_all_constraints] calls it only
    [if self.use_room_constraints]. *)
Definition _add_room_constraints (sch : Scheduler) : list bound :=
  r ← seq 0 (length (sch_rooms sch));
  d ← seq 0 (length (days sch));
  ts ← seq 0 (length (time_slots sch));
  at_most_one
    (gather (assignment_vars sch) (length (sch_classes sch))
       (length (sch_subjects sch)) (length (sch_teachers sch))
       (fun c s t => (c, s, t, r, d, ts))).

(** [_add_no_repeat_subject_constraint], the bound of its first loop
    nest ("each subject can be taught at most once per day per class").
    A subject whose id is empty is passed over ([if not subject_id:
    continue]).  The indicator booleans of that nest restrict no
    assignment variable, and the pairwise bounds of the second nest are
    consequences of this one. *)
Definition once_a_day_constraints (sch : Scheduler) : list bound :=
  c ← seq 0 (length (sch_classes sch));
  d ← seq 0 (length (days sch));
  s ← seq 0 (length (sch_subjects sch));
  match truthy_str (subject_ids sch !! s) with
  | None => []
  | Some _ =>
      at_most_one
        (gather (assignment_vars sch) (length (sch_teachers sch))
           (length (sch_rooms sch)) (length (time_slots sch))
           (fun t r ts => (c, s, t, r, d, ts)))
  end.

(** A valuation that keeps every bound of a family. *)
Definition keeps (val : key -> bool) (bs : list bound) : Prop :=
  forallb (within val) bs = true.

(** No two entries at different positions are related by [P]. *)
Definition no_two (P : Entry -> Entry -> Prop) (es : list Entry) : Prop :=
  forall i j e1 e2,
    i <> j -> es !! i = Some e1 -> es !! j = Some e2 -> ~ P e1 e2.

Definition same_time (e1 e2 : Entry) : Prop :=
  e_day e1 = e_day e2 /\ e_startTime e1 = e_startTime e2.

(** What the request must provide for the bounds to be posted and for
    days and times to name one index each: a room (the loops of every
    family run over [range(len(self.rooms))], also when room
    constraints are off), working days that are pairwise different, and
    a lesson and a break that together last at least a minute. *)
Definition told_apart (data : Data) (sch : Scheduler) : Prop :=
  rooms data <> []
  /\ NoDup (days sch)
  /\ (forall l b, lessonDuration (sch_settings sch) = Some l ->
                  breakDuration (sch_settings sch) = Some b -> 1 <= l + b).

(** ** The teacher of a (class, subject) pair

    [_add_teacher_consistency_constraint] makes a boolean
    [teacher_vars[t]] for each valid teacher of each required subject of
    each class, and ties the assignment variables to it.  The weekly
    hours equation of that method is [consistency_hours_for]. *)

(** The boolean of teacher [t] for the subject at position [j] of the
    required subjects of class [c]. *)
Definition flag : Type := (nat * nat * nat)%type.

Inductive choice_constraint : Type :=
| ExactlyOne (flags : list flag)
| MaxEquality (f : flag) (vars : list key)
| ZeroUnless (k : key) (f : flag)
| ZeroIf (k : key) (f : flag).

(** [Add(sum(..) == 1)], [AddMaxEquality(f, vars)],
    [Add(var == 0).OnlyEnforceIf(f.Not())] and
    [Add(var == 0).OnlyEnforceIf(f)]. *)
Definition meets (val : key -> bool) (chosen : flag -> bool)
    (cc : choice_constraint) : bool :=
  match cc with
  | ExactlyOne fs => Nat.eqb (length (filter (fun f => chosen f = true) fs)) 1
  | MaxEquality f ks => Bool.eqb (chosen f) (existsb val ks)
  | ZeroUnless k f => chosen f || negb (val k)
  | ZeroIf k f => negb (chosen f) || negb (val k)
  end.

Definition teacher_choice_for (sch : Scheduler) (c j : nat) (subject_id : string)
  : list choice_constraint :=
  match subject_indices sch !! subject_id with
  | None => []
  | Some s =>
      let valid := valid_teachers 0 subject_id (sch_teachers sch) in
      if bool_decide (valid = []) then []
      else
        let assignments_of t :=
          gather (assignment_vars sch) (length (sch_rooms sch)) (length (days sch))
            (length (time_slots sch)) (fun r d ts => (c, s, t, r, d, ts)) in
        ExactlyOne ((fun t => (c, j, t)) <$> valid)
        :: (t ← valid;
            let t_assignments := assignments_of t in
            if bool_decide (t_assignments = []) then []
            else
              MaxEquality (c, j, t) t_assignments
              :: ((fun k => ZeroUnless k (c, j, t)) <$> t_assignments)
              ++ (other_t ← valid;
                  if decide (other_t <> t)
                  then (fun k => ZeroIf k (c, j, t)) <$> assignments_of other_t
                  else []))
  end.

Definition teacher_choice_constraints (sch : Scheduler) : list choice_constraint :=
  concat (imap (fun c class_info =>
            concat (imap (teacher_choice_for sch c) (c_requiredSubjects class_info)))
          (sch_classes sch)).

(** ** Variables forced to zero

    [_add_break_constraints] and [_add_free_period_constraints] post
    [Add(var == 0)] for the variables of the slots that meet a break or
    a free period.  Here they are given with the keys they force to
    zero, in the order of the loops, or the exception they raise. *)

Fixpoint collect {A B} (body : A -> outcome (list B)) (xs : list A)
  : outcome (list B) :=
  match xs with
  | [] => mret []
  | x :: xs' => ys ← body x; zs ← collect body xs'; mret (ys ++ zs)
  end.

(** [for s .. for t .. for r: key = (c, s, t, r, d, ts); if key in
    self.assignment_vars: ...]. *)
Definition class_slot_keys (sch : Scheduler) (c d ts : nat) : list key :=
  gather (assignment_vars sch) (length (sch_subjects sch))
    (length (sch_teachers sch)) (length (sch_rooms sch))
    (fun s t r => (c, s, t, r, d, ts)).

Definition slot_keys (sch : Scheduler) (d ts : nat) : list key :=
  c ← seq 0 (length (sch_classes sch)); class_slot_keys sch c d ts.

(** [slot_start_minutes < window_end and slot_end_minutes > window_start]. *)
Definition meets_window (slot_start slot_end window_start window_end : Z) : bool :=
  (slot_start <? window_end) && (window_start <? slot_end).

Definition break_zeros (sch : Scheduler) : outcome (list key) :=
  let ss := sch_settings sch in
  has_breakfast_break ← getitem (hasBreakfastBreak ss);
  breakfast_break_start ← getitem (breakfastBreakStartTime ss);
  breakfast_break_duration ← getitem (breakfastBreakDuration ss);
  lunch_break_start ← getitem (lunchBreakStartTime ss);
  lunch_break_duration ← getitem (lunchBreakDuration ss);
  breakfast_start ← time_to_minutes breakfast_break_start;
  let breakfast_end := breakfast_start + breakfast_break_duration in
  lunch_start ← time_to_minutes lunch_break_start;
  let lunch_end := lunch_start + lunch_break_duration in
  collect (fun d =>
    collect (fun '(ts, sl) =>
      slot_start_minutes ← time_to_minutes (fst sl);
      slot_end_minutes ← time_to_minutes (snd sl);
      mret ((if has_breakfast_break
                && meets_window slot_start_minutes slot_end_minutes
                     breakfast_start breakfast_end
             then slot_keys sch d ts else [])
            ++ (if meets_window slot_start_minutes slot_end_minutes
                     lunch_start lunch_end
                then slot_keys sch d ts else [])))
      (imap pair (time_slots sch)))
    (seq 0 (length (days sch))).

(** ["all" in affected_classes or class_id in affected_classes], for
    [class_id = class_info.get('id')]. *)
Definition affected (period : FreePeriod) (class_info : Class) : bool :=
  bool_decide ("all"%string ∈ fp_forClasses period)
  || match c_id class_info with
     | Some class_id => bool_decide (class_id ∈ fp_forClasses period)
     | None => false
     end.

(** [day in period_days or "all" in period_days]. *)
Definition on_day (period : FreePeriod) (day : string) : bool :=
  bool_decide (day ∈ fp_days period) || bool_decide ("all"%string ∈ fp_days period).

Definition free_period_zeros_of (sch : Scheduler) (period : FreePeriod)
  : outcome (list key) :=
  match truthy_str (fp_startTime period) with
  | None => mret []
  | Some period_start =>
      period_start_minutes ← time_to_minutes period_start;
      let period_end_minutes :=
        period_start_minutes + default 60 (fp_duration period) in
      collect (fun '(d, day) =>
        if on_day period day then
          collect (fun '(ts, sl) =>
            slot_start_minutes ← time_to_minutes (fst sl);
            slot_end_minutes ← time_to_minutes (snd sl);
            mret (if meets_window slot_start_minutes slot_end_minutes
                       period_start_minutes period_end_minutes
                  then
                    '(c, class_info) ← imap pair (sch_classes sch);
                    if affected period class_info
                    then class_slot_keys sch c d ts else []
                  else []))
            (imap pair (time_slots sch))
        else mret [])
        (imap pair (days sch))
  end.

Definition free_period_zeros (sch : Scheduler) : outcome (list key) :=
  collect (free_period_zeros_of sch) (free_periods sch).

(** A valuation that gives zero to every key of [zs], when [zs] is
    computed without an exception. *)
Definition zeroed (val : key -> bool) (zs : outcome (list key)) : Prop :=
  forall ks, zs = Ret ks -> forallb (fun k => negb (val k)) ks = true.

(** The slot from minute [a] to minute [b] keeps clear of the window
    that starts at [window_start] and lasts [duration] minutes. *)
Definition clear_of (a b window_start duration : Z) : Prop :=
  window_start + duration <= a \/ b <= window_start.

(** The windows that the settings and a free period describe: start
    minute and duration. *)
Definition lunch_window (ss : SchoolSettings) (start duration : Z) : Prop :=
  exists text,
    lunchBreakStartTime ss = Some text /\ time_to_minutes text = Ret start
    /\ lunchBreakDuration ss = Some duration.

Definition breakfast_window (ss : SchoolSettings) (start duration : Z) : Prop :=
  hasBreakfastBreak ss = Some true
  /\ exists text,
       breakfastBreakStartTime ss = Some text /\ time_to_minutes text = Ret start
       /\ breakfastBreakDuration ss = Some duration.

Definition period_window (period : FreePeriod) (start duration : Z) : Prop :=
  exists text,
    truthy_str (fp_startTime period) = Some text /\ time_to_minutes text = Ret start
    /\ duration = default 60 (fp_duration period).

(** The free period is on the day of the entry and for its class. *)
Definition concerns (period : FreePeriod) (e : Entry) : Prop :=
  on_day period (e_day e) = true
  /\ ("all"%string ∈ fp_forClasses period
      \/ exists class_id, e_classId e = Some class_id
                          /\ class_id ∈ fp_forClasses period).

(** The entry's slot, in minutes, keeps clear of every window in [W]. *)
Definition entry_clear_of (W : Z -> Z -> Prop) (e : Entry) : Prop :=
  forall start duration,
    W start duration ->
    exists a b,
      time_to_minutes (e_startTime e) = Ret a /\ time_to_minutes (e_endTime e) = Ret b
      /\ clear_of a b start duration.

(** ** What the fallback generator hands out *)

(** [subject.get("hoursPerWeek", 0)] for the first subject of the
    catalogue with this id, 0 when there is none. *)
Definition hours_of (sch : Scheduler) (subject_id : string) : Z :=
  match list_find (fun s => s_id s = Some subject_id) (sch_subjects sch) with
  | Some (_, subject) => default 0 (s_hoursPerWeek subject)
  | None => 0
  end.

Definition fallback_lesson (sch : Scheduler) (e : Entry) : Prop :=
  e_day e ∈ days sch
  /\ (e_startTime e, e_endTime e) ∈ time_slots sch
  /\ (exists class_info,
        class_info ∈ sch_classes sch /\ c_id class_info = e_classId e
        /\ e_subjectId e ∈ c_requiredSubjects class_info)
  /\ (exists teacher,
        teacher ∈ sch_teachers sch /\ t_id teacher = e_teacherId e
        /\ e_subjectId e ∈ t_subjects teacher)
  /\ 0 < hours_of sch (e_subjectId e).

(** The entry was written for this item of [assigned_teachers]. *)
Definition made_for (a : assignment) (e : Entry) : Prop :=
  e_classId e = a.1.1 /\ e_subjectId e = a.1.2 /\ e_teacherId e = t_id a.2.

(** What holds of every item of [assigned_teachers]. *)
Definition picked (sch : Scheduler) (a : assignment) : Prop :=
  (exists class_info,
     class_info ∈ sch_classes sch /\ c_id class_info = a.1.1
     /\ a.1.2 ∈ c_requiredSubjects class_info)
  /\ a.2 ∈ sch_teachers sch /\ a.1.2 ∈ t_subjects a.2.

Definition same_pair (class_id : option string) (subject_id : string) (e : Entry)
  : Prop :=
  e_classId e = class_id /\ e_subjectId e = subject_id.

#[global] Instance same_pair_dec class_id subject_id e :
  Decision (same_pair class_id subject_id e).
Proof. unfold same_pair. apply _. Defined.


(** ** A sample school, and requests that go wrong *)

Definition bob : Teacher :=
  {| t_id := Some "teacher-2"; t_name := Some "Bob"; t_subjects := ["math"] |}%string.

Definition class_2 : Class :=
  {| c_id := Some "class-2"; c_name := Some "Class 2";
     c_requiredSubjects := ["math"] |}%string.

Definition room_2 : Room :=
  {| r_id := Some "room-2"; r_name := Some "Room 102" |}%string.

(** Assembly on Monday from 09:15 to 09:45, for every class. *)
Definition assembly : FreePeriod :=
  {| fp_name := Some "Assembly"; fp_startTime := Some "09:15"; fp_duration := Some 30;
     fp_days := ["MONDAY"]; fp_forClasses := ["all"] |}%string.

Definition settings_with (lunch_start : string) (periods : list FreePeriod)
  : SchoolSettings :=
  {| startTime := Some "08:00"%string; endTime := Some "15:00"%string;
     lessonDuration := Some 60; breakDuration := Some 15;
     hasBreakfastBreak := Some false;
     breakfastBreakStartTime := Some "10:00"%string;
     breakfastBreakDuration := Some 25;
     lunchBreakDuration := Some 45;
     lunchBreakStartTime := Some lunch_start;
     lessonsPerDay := Some 6; daysPerWeek := Some 5;
     workingDays := Some ["MONDAY"; "TUESDAY"]%string;
     useRoomConstraints := Some true;
     maxSubjectsPerDay := Some (Some 6); freePeriods := periods |}.

(** Two classes, two teachers of mathematics, two rooms, two hours of
    mathematics a week, a lunch break and an assembly. *)
Definition request_school : Data :=
  {| school_settings := Some (settings_with "12:00" [assembly]);
     teachers := [alice; bob];
     classes := [class_1 ["math"%string]; class_2];
     subjects := [{| s_id := Some "math"; s_name := Some "Mathematics";
                     s_hoursPerWeek := Some 2 |}];
     rooms := [room_1; room_2] |}%string.

(** A solver that reports as optimal the timetable in which the first
    class has the first teacher in the first room and the second class
    the second teacher in the second room, both in the first slot of
    each day; and the teacher-choice booleans that go with it. *)
Definition solver_school : solver :=
  fun _ => (OPTIMAL,
            fun k => bool_decide (k ∈ [(0, 0, 0, 0, 0, 0); (0, 0, 0, 0, 1, 0);
                                       (1, 0, 1, 1, 0, 0); (1, 0, 1, 1, 1, 0)]%nat)).

Definition chosen_school : flag -> bool :=
  fun f => bool_decide (f ∈ [(0, 0, 0); (1, 0, 1)]%nat).

(** The schedule that [generate_schedule] returns. *)
Definition answer (fuel : nat) (cp : solver) (data : Data) (w : world) : Schedule :=
  default {| scheduleId := ""; entries := [] |} (generate_schedule fuel cp data w).


Definition slots_of (fuel : nat) (ss : SchoolSettings) : list slot :=
  match _generate_time_slots fuel ss with
  | Ret slots => slots
  | _ => []
  end.

(** No settings at all; a teacher without an id; a lunch break whose
    start is not a time, with the breakfast break switched off. *)
Definition request_no_settings : Data :=
  {| school_settings := None; teachers := [alice];
     classes := [class_1 ["math"%string]]; subjects := [math]; rooms := [room_1] |}.

Definition request_teacher_without_id : Data :=
  {| school_settings := Some (settings_with "12:00" []);
     teachers := [{| t_id := None; t_name := Some "Alice"; t_subjects := ["math"] |}];
     classes := [class_1 ["math"]]; subjects := [math]; rooms := [room_1] |}%string.

Definition request_bad_lunch : Data :=
  {| school_settings := Some (settings_with "noon" []);
     teachers := [alice]; classes := [class_1 ["math"]];
     subjects := [math]; rooms := [room_1] |}%string.

(** * Properties *)

(** ** Decimal text: printing then parsing *)

Module PyFacts.
Lemma small_cases (P : nat -> Prop) :
  P 0%nat -> P 1%nat -> P 2%nat -> P 3%nat -> P 4%nat -> P 5%nat ->
  P 6%nat -> P 7%nat -> P 8%nat -> P 9%nat ->
  forall k, (k < 10)%nat -> P k.
Proof.
  intros H0 H1 H2 H3 H4 H5 H6 H7 H8 H9 k Hk.
  do 10 (destruct k as [|k]; [assumption|]). lia.
Qed.

Lemma plain_digit_facts c :
  plain_digit c ->
  is_space c = false /\ Ascii.eqb c underscore = false
  /\ Ascii.eqb c ":"%char = false /\ Ascii.eqb c "-"%char = false
  /\ Ascii.eqb c "+"%char = false /\ exists d, digit_of c = Some d /\ 0 <= d < 10.
Proof.
  intros (k & Hk & ->). revert k Hk.
  apply small_cases; (repeat (split; [reflexivity|]));
    eexists; (split; [vm_compute; reflexivity | lia]).
Qed.

Lemma digit_char_value k : (k < 10)%nat -> dval (digit_char k) = Z.of_nat k.
Proof. revert k. apply small_cases; reflexivity. Qed.

Lemma digit_char_mod n : digit_char n = digit_char (n mod 10).
Proof. unfold digit_char. by rewrite Nat.Div0.mod_mod. Qed.

Lemma plain_digit_char n : plain_digit (digit_char n).
Proof.
  exists (n mod 10)%nat. split; [apply Nat.mod_upper_bound; lia | apply digit_char_mod].
Qed.

Lemma nat_digits_acc fuel : forall n acc,
  nat_digits fuel n acc = nat_digits fuel n [] ++ acc.
Proof.
  induction fuel as [|fuel IH]; intros n acc; simpl; [done|].
  destruct (Nat.ltb n 10); [done|].
  rewrite (IH _ (_ :: acc)), (IH _ [_]), <- app_assoc. done.
Qed.

Lemma nat_digits_plain fuel : forall n, Forall plain_digit (nat_digits fuel n []).
Proof.
  induction fuel as [|fuel IH]; intros n; simpl; [constructor|].
  destruct (Nat.ltb n 10).
  - repeat constructor. apply plain_digit_char.
  - rewrite nat_digits_acc. apply Forall_app. split; [apply IH|].
    repeat constructor. apply plain_digit_char.
Qed.

Lemma nat_digits_nonempty fuel n : nat_digits (S fuel) n [] <> [].
Proof.
  simpl. destruct (Nat.ltb n 10); [done|].
  rewrite nat_digits_acc. by destruct (nat_digits fuel _ []).
Qed.

Lemma digits_number_snoc acc ds c :
  digits_number acc (ds ++ [c]) = 10 * digits_number acc ds + dval c.
Proof. unfold digits_number. by rewrite foldl_app. Qed.

Lemma nat_digits_number fuel : forall n,
  (n < fuel)%nat -> digits_number 0 (nat_digits fuel n []) = Z.of_nat n.
Proof.
  induction fuel as [|fuel IH]; intros n Hn; [lia|]. cbn [nat_digits].
  destruct (Nat.ltb_spec n 10) as [Hlt|Hge].
  - unfold digits_number. simpl. rewrite digit_char_mod, digit_char_value.
    + rewrite Nat.mod_small by done. lia.
    + apply Nat.mod_upper_bound. lia.
  - rewrite nat_digits_acc, digits_number_snoc, IH.
    + rewrite digit_char_mod, digit_char_value by (apply Nat.mod_upper_bound; lia).
      pose proof (Nat.div_mod_eq n 10). lia.
    + assert (n / 10 < n)%nat by (apply Nat.div_lt; lia). lia.
Qed.

Lemma str_nat_plain n : Forall plain_digit (str_nat n).
Proof. apply nat_digits_plain. Qed.

Lemma str_nat_number n : digits_number 0 (str_nat n) = Z.of_nat n.
Proof. apply nat_digits_number. lia. Qed.

Lemma str_nat_nonempty n : str_nat n <> [].
Proof. apply nat_digits_nonempty. Qed.

Lemma digits_value_plain ds : forall acc b,
  Forall plain_digit ds -> (ds <> [] \/ b = true) ->
  digits_value ds acc b = Some (digits_number acc ds).
Proof.
  induction ds as [|c ds IH]; intros acc b Hds Hne; simpl.
  - destruct Hne as [?| ->]; done.
  - inversion Hds as [|? ? Hc Hds']; subst.
    destruct (plain_digit_facts c Hc) as (_ & -> & _ & _ & _ & d & Hd & _).
    rewrite Hd. rewrite IH by (done || by right).
    unfold digits_number at 2. simpl. unfold dval. by rewrite Hd.
Qed.

Lemma lstrip_plain ds : Forall plain_digit ds -> lstrip ds = ds.
Proof.
  destruct 1 as [|c ds Hc _]; [done|]. simpl.
  by destruct (plain_digit_facts c Hc) as (-> & _).
Qed.

Lemma strip_plain ds : Forall plain_digit ds -> strip ds = ds.
Proof.
  intros Hds. unfold strip. rewrite (lstrip_plain ds Hds).
  rewrite lstrip_plain by by apply Forall_rev.
  apply rev_involutive.
Qed.

Lemma int_of_chars_plain ds :
  Forall plain_digit ds -> ds <> [] ->
  int_of_chars ds = Ret (digits_number 0 ds).
Proof.
  intros Hds Hne. unfold int_of_chars. rewrite strip_plain by done.
  destruct ds as [|c ds]; [done|].
  inversion Hds as [|? ? Hc _]; subst.
  destruct (plain_digit_facts c Hc) as (_ & _ & _ & -> & -> & _).
  rewrite digits_value_plain by (done || by left). done.
Qed.

Lemma format_02d_plain z : 0 <= z -> Forall plain_digit (format_02d z).
Proof.
  intros Hz. unfold format_02d.
  destruct (Z.ltb_spec z 0); [lia|].
  destruct (Z.ltb_spec z 10); [|apply str_nat_plain].
  constructor; [|apply str_nat_plain].
  exists 0%nat. split; [lia | reflexivity].
Qed.

Lemma format_02d_nonempty z : format_02d z <> [].
Proof.
  unfold format_02d. destruct (z <? 0); [done|].
  destruct (z <? 10); [done | apply str_nat_nonempty].
Qed.

Lemma int_of_chars_format z : 0 <= z -> int_of_chars (format_02d z) = Ret z.
Proof.
  intros Hz. rewrite int_of_chars_plain;
    [| by apply format_02d_plain | apply format_02d_nonempty].
  f_equal. unfold format_02d.
  destruct (Z.ltb_spec z 0); [lia|].
  destruct (Z.ltb_spec z 10).
  - unfold digits_number. simpl. fold (digits_number 0 (str_nat (Z.to_nat z))).
    rewrite str_nat_number. lia.
  - rewrite str_nat_number. lia.
Qed.

Lemma split_on_plain ds :
  Forall plain_digit ds -> split_on ":"%char ds = [ds].
Proof.
  induction 1 as [|c ds Hc _ IH]; [done|]. simpl.
  destruct (plain_digit_facts c Hc) as (_ & _ & -> & _). by rewrite IH.
Qed.

Lemma split_on_colon a b :
  Forall plain_digit a -> Forall plain_digit b ->
  split_on ":"%char (a ++ ":"%char :: b) = [a; b].
Proof.
  intros Ha Hb. induction Ha as [|c a Hc _ IH]; simpl.
  - by rewrite split_on_plain.
  - destruct (plain_digit_facts c Hc) as (_ & _ & -> & _). by rewrite IH.
Qed.

End PyFacts.

(** Formatting a time of day and reading it back. *)
Lemma time_to_minutes_of_time m :
  0 <= m -> time_to_minutes (minutes_to_time m) = Ret m.
Proof.
  intros Hm. unfold time_to_minutes, minutes_to_time.
  rewrite list_ascii_of_string_of_list_ascii.
  assert (0 <= m / 60) by (apply Z.div_pos; lia).
  assert (0 <= m mod 60 < 60) by (apply Z.mod_pos_bound; lia).
  rewrite PyFacts.split_on_colon by (apply PyFacts.format_02d_plain; lia).
  rewrite !PyFacts.int_of_chars_format by lia. simpl.
  f_equal. rewrite (Z.div_mod m 60) at 3 by lia. lia.
Qed.

Lemma is_digit_plain c : is_digit c = true -> plain_digit c.
Proof.
  unfold is_digit, digit_of. intros H.
  destruct (Nat.leb_spec 48 (nat_of_ascii c)) as [Hlo|]; [|done].
  destruct (Nat.leb_spec (nat_of_ascii c) 57) as [Hhi|]; [|done].
  exists (nat_of_ascii c - 48)%nat. split; [lia|].
  unfold digit_char. rewrite Nat.mod_small by lia.
  replace (48 + (nat_of_ascii c - 48))%nat with (nat_of_ascii c) by lia.
  by rewrite ascii_nat_embedding.
Qed.

Lemma digits_number_nonneg ds : forall acc,
  0 <= acc -> Forall plain_digit ds -> 0 <= digits_number acc ds.
Proof.
  induction ds as [|c ds IH]; intros acc Hacc Hds; [done|].
  inversion Hds as [|? ? Hc Hds']; subst.
  unfold digits_number. simpl. apply IH; [|done].
  destruct (PyFacts.plain_digit_facts c Hc) as (_ & _ & _ & _ & _ & d & Hd & ?).
  unfold dval. rewrite Hd. simpl. lia.
Qed.

(** A well-formed time parses, to a minute count that is not negative. *)
Lemma time_to_minutes_hhmm s :
  is_hhmm s = true -> exists m, time_to_minutes s = Ret m /\ 0 <= m.
Proof.
  unfold is_hhmm, time_to_minutes.
  destruct (list_ascii_of_string s) as [|h1 [|h2 [|c [|m1 [|m2 [|]]]]]]; try done.
  intros H. repeat (apply andb_prop in H as [H ?]).
  apply Ascii.eqb_eq in H2 as ->.
  assert (Forall plain_digit [h1; h2]) as Hh
    by (repeat constructor; by apply is_digit_plain).
  assert (Forall plain_digit [m1; m2]) as Hm
    by (repeat constructor; by apply is_digit_plain).
  change (h1 :: h2 :: ":"%char :: m1 :: [m2]) with ([h1; h2] ++ ":"%char :: [m1; m2]).
  rewrite PyFacts.split_on_colon by done.
  rewrite !PyFacts.int_of_chars_plain by done.
  pose proof (digits_number_nonneg _ 0 ltac:(lia) Hh).
  pose proof (digits_number_nonneg _ 0 ltac:(lia) Hm).
  eexists. split; [reflexivity|]. lia.
Qed.

(** ** The [while] loop *)

Lemma while_more_fuel {S} (cond : S -> bool) (body : S -> S) fuel : forall st r fuel',
  while cond body fuel st = Ret r -> (fuel <= fuel')%nat ->
  while cond body fuel' st = Ret r.
Proof.
  induction fuel as [|fuel IH]; intros st r fuel' Hrun Hle; [done|].
  destruct fuel' as [|fuel']; [lia|]. simpl in *.
  destruct (cond st); [|done]. apply IH; [done | lia].
Qed.

Lemma while_invariant {S} (cond : S -> bool) (body : S -> S) (P : S -> Prop) :
  (forall st, P st -> cond st = true -> P (body st)) ->
  forall fuel st r, P st -> while cond body fuel st = Ret r -> P r /\ cond r = false.
Proof.
  intros Hstep. induction fuel as [|fuel IH]; intros st r HP Hrun; [done|].
  simpl in Hrun. destruct (cond st) eqn:Hc.
  - eapply IH; [|done]. by apply Hstep.
  - by inversion Hrun; subst.
Qed.

Lemma while_not_raise {S} (cond : S -> bool) (body : S -> S) fuel : forall st e,
  while cond body fuel st <> Raise e.
Proof.
  induction fuel as [|fuel IH]; intros st e; [done|]. simpl.
  destruct (cond st); [apply IH | done].
Qed.

(** Each pass moves the cursor forward: to the end of a break window
    that lies ahead, or by a lesson and a break. *)
Lemma loop_body_advances g st :
  1 <= lesson_duration g + break_duration g ->
  fst st < fst (loop_body g st)
  /\ (fst (loop_body g st) = breakfast_end_minutes g
      \/ fst (loop_body g st) = lunch_end_minutes g
      \/ fst (loop_body g st) = fst st + (lesson_duration g + break_duration g)).
Proof.
  intros Hstep. destruct st as [cur acc]. unfold loop_body.
  destruct (has_breakfast_break g && (cur <? breakfast_end_minutes g)
            && (cur + lesson_duration g >? breakfast_start_minutes g))%bool eqn:Hbf.
  { simpl. apply andb_prop in Hbf as [Hbf _]. apply andb_prop in Hbf as [_ Hbf].
    apply Z.ltb_lt in Hbf. auto. }
  destruct ((cur <? lunch_end_minutes g)
            && (cur + lesson_duration g >? lunch_start_minutes g))%bool eqn:Hl.
  { simpl. apply andb_prop in Hl as [Hl _]. apply Z.ltb_lt in Hl. auto. }
  simpl. split; [lia | auto].
Qed.

Lemma loop_terminates g :
  1 <= lesson_duration g + break_duration g ->
  forall fuel st,
    (Z.to_nat (end_minutes g - lesson_duration g - fst st + 1) < fuel)%nat ->
    exists r, while (loop_cond g) (loop_body g) fuel st = Ret r.
Proof.
  intros Hstep. induction fuel as [|fuel IH]; intros st Hfuel; [lia|].
  simpl. destruct (loop_cond g st) eqn:Hc; [|eauto].
  apply IH. unfold loop_cond in Hc. apply Z.leb_le in Hc.
  destruct (loop_body_advances g st Hstep) as [Hadv _]. lia.
Qed.

(** Reading the settings never uses up a budget. *)
Lemma getitem_bind_timeout {A B} (o : option A) (k : A -> outcome B) :
  (x ← getitem o; k x) = Timeout -> exists a, o = Some a /\ k a = Timeout.
Proof. destruct o; [eauto | done]. Qed.

Lemma int_of_chars_not_timeout cs : int_of_chars cs <> Timeout.
Proof. unfold int_of_chars. by repeat case_match. Qed.

Lemma time_to_minutes_not_timeout s : time_to_minutes s <> Timeout.
Proof.
  unfold time_to_minutes. repeat case_match; try done.
  repeat match goal with
  | |- context [int_of_chars ?x] =>
      pose proof (int_of_chars_not_timeout x); destruct (int_of_chars x); simpl
  end; done.
Qed.

Lemma read_grid_not_timeout ss : read_grid ss <> Timeout.
Proof.
  unfold read_grid. intros H.
  repeat match type of H with
  | context [getitem ?o] => destruct o; simpl in H; [|done]
  end.
  repeat match type of H with
  | context [time_to_minutes ?x] =>
      let E := fresh in
      destruct (time_to_minutes x) eqn:E; simpl in H;
      [|done|by apply time_to_minutes_not_timeout in E]
  | context [if ?b then _ else _] => destruct b; simpl in H
  end; discriminate H.
Qed.

(** ** The time grid builder *)

Lemma read_grid_ok ss st et l b hb bs bd ls ld sm em lm :
  startTime ss = Some st -> endTime ss = Some et ->
  lessonDuration ss = Some l -> breakDuration ss = Some b ->
  hasBreakfastBreak ss = Some hb -> breakfastBreakStartTime ss = Some bs ->
  breakfastBreakDuration ss = Some bd ->
  lunchBreakStartTime ss = Some ls -> lunchBreakDuration ss = Some ld ->
  time_to_minutes st = Ret sm -> time_to_minutes et = Ret em ->
  time_to_minutes ls = Ret lm ->
  (hb = true -> exists bm, time_to_minutes bs = Ret bm) ->
  exists g,
    read_grid ss = Ret g
    /\ start_minutes g = sm /\ end_minutes g = em
    /\ lesson_duration g = l /\ break_duration g = b
    /\ has_breakfast_break g = hb
    /\ lunch_start_minutes g = lm /\ lunch_end_minutes g = lm + ld
    /\ (hb = true ->
        time_to_minutes bs = Ret (breakfast_start_minutes g)
        /\ breakfast_end_minutes g = breakfast_start_minutes g + bd).
Proof.
  intros Hst Het Hl Hb Hhb Hbs Hbd Hls Hld Hsm Hem Hlm Hbm.
  unfold read_grid. rewrite Hst, Het, Hl, Hb, Hhb, Hbs, Hbd, Hls, Hld. simpl.
  rewrite Hsm, Hem. simpl. destruct hb.
  - destruct (Hbm eq_refl) as [bm Hbm']. rewrite Hbm'. simpl. rewrite Hlm. simpl.
    eexists. split; [reflexivity|]. simpl. by repeat split.
  - simpl. rewrite Hlm. simpl.
    eexists. split; [reflexivity|]. simpl. by repeat split.
Qed.

Lemma read_grid_durations ss g :
  read_grid ss = Ret g ->
  lessonDuration ss = Some (lesson_duration g)
  /\ breakDuration ss = Some (break_duration g).
Proof.
  unfold read_grid. intros H.
  repeat match type of H with
  | context [getitem ?o] => destruct o; simpl in H; [|done]
  end.
  repeat match type of H with
  | context [time_to_minutes ?x] =>
      destruct (time_to_minutes x); simpl in H; [|done..]
  | context [if ?b then _ else _] => destruct b; simpl in H
  end; by inversion H.
Qed.

(** With the grid read, the builder returns what the loop leaves. *)
Lemma time_slots_of_loop ss g fuel r :
  read_grid ss = Ret g ->
  while (loop_cond g) (loop_body g) fuel (start_minutes g, []) = Ret r ->
  _generate_time_slots fuel ss = Ret (snd r).
Proof.
  intros Hg Hrun. unfold _generate_time_slots, time_slots_try.
  rewrite Hg. simpl. rewrite Hrun. done.
Qed.

(** C10: for settings with [lessonDuration >= 1] and [breakDuration >=
    0], each pass of the slot loop strictly advances the cursor (to the
    end of a break window or by [lessonDuration + breakDuration]), and
    the time grid builder returns a list for every budget from some
    bound on: the loop terminates and the builder is total.  The time
    fields need not even be well formed: a malformed one ends the
    builder in its handler. *)
Theorem time_grid_builder_terminates ss l b :
  lessonDuration ss = Some l -> breakDuration ss = Some b ->
  1 <= l -> 0 <= b ->
  (forall g st, read_grid ss = Ret g -> loop_cond g st = true ->
     fst st < fst (loop_body g st)
     /\ (fst (loop_body g st) = breakfast_end_minutes g
         \/ fst (loop_body g st) = lunch_end_minutes g
         \/ fst (loop_body g st) = fst st + (l + b)))
  /\ exists fuel0 slots, forall fuel,
       (fuel0 <= fuel)%nat -> _generate_time_slots fuel ss = Ret slots.
Proof.
  intros Hl Hb Hl1 Hb0.
  assert (forall g, read_grid ss = Ret g ->
            lesson_duration g = l /\ break_duration g = b) as Hdur.
  { intros g Hg. apply read_grid_durations in Hg as [H1 H2].
    rewrite Hl in H1. rewrite Hb in H2. by inversion H1; inversion H2. }
  split.
  - intros g st Hg _. destruct (Hdur g Hg) as [<- <-].
    apply loop_body_advances. destruct (Hdur g Hg). lia.
  - destruct (read_grid ss) as [g|e|] eqn:Hg.
    + destruct (Hdur g eq_refl) as [Hgl Hgb].
      destruct (loop_terminates g ltac:(lia) (grid_fuel g) (start_minutes g, []))
        as [r Hr]; [unfold grid_fuel; simpl; lia|].
      exists (grid_fuel g), (snd r). intros fuel Hfuel.
      eapply time_slots_of_loop; [done|]. by eapply while_more_fuel.
    + exists 0%nat, default_time_slots. intros fuel _.
      unfold _generate_time_slots, time_slots_try. by rewrite Hg.
    + by apply read_grid_not_timeout in Hg.
Qed.

Lemma ids_of_present {A} (get_id : A -> option string) xs :
  Forall (fun x => is_Some (get_id x)) xs -> exists ids, ids_of get_id xs = Ret ids.
Proof.
  induction 1 as [|x xs [i Hi] _ [ids IH]]; simpl; [by eexists|].
  rewrite Hi. simpl. rewrite IH. simpl. by eexists.
Qed.

(** What a constructed scheduler is made of. *)
Lemma init_inv fuel data sch :
  __init__ fuel data = Ret sch ->
  exists ss,
    school_settings data = Some ss /\ missing_settings ss = []
    /\ sch_settings sch = ss
    /\ useRoomConstraints ss = Some (use_room_constraints sch)
    /\ workingDays ss = Some (days sch)
    /\ _generate_time_slots fuel ss = Ret (time_slots sch)
    /\ sch_teachers sch = teachers data /\ sch_classes sch = classes data
    /\ sch_subjects sch = subjects data /\ sch_rooms sch = rooms data
    /\ ids_of t_id (teachers data) = Ret (teacher_ids sch)
    /\ ids_of c_id (classes data) = Ret (class_ids sch)
    /\ ids_of s_id (subjects data) = Ret (subject_ids sch)
    /\ ids_of r_id (rooms data) = Ret (room_ids sch)
    /\ subject_indices sch = index_dict 0 (subject_ids sch) ∅
    /\ assignment_vars sch = [].
Proof.
  unfold __init__. destruct (school_settings data) as [ss|]; [|done].
  destruct (bool_decide (missing_settings ss = [])) eqn:Hmiss; [|done].
  apply bool_decide_eq_true in Hmiss. simpl. intros H.
  destruct (useRoomConstraints ss) as [ur|] eqn:Hur; simpl in H; [|done].
  destruct (workingDays ss) as [wd|] eqn:Hwd; simpl in H; [|done].
  destruct (_generate_time_slots fuel ss) as [slots| |] eqn:Hslots;
    simpl in H; [|done..].
  destruct (ids_of t_id (teachers data)) eqn:Ht; simpl in H; [|done..].
  destruct (ids_of c_id (classes data)) eqn:Hc; simpl in H; [|done..].
  destruct (ids_of s_id (subjects data)) eqn:Hs; simpl in H; [|done..].
  destruct (ids_of r_id (rooms data)) eqn:Hr; simpl in H; [|done..].
  unfold mret, outcome_ret in H. inversion H; subst; simpl.
  exists ss. by repeat split.
Qed.

Lemma init_time_slots fuel data sch :
  __init__ fuel data = Ret sch ->
  exists ss, school_settings data = Some ss
             /\ _generate_time_slots fuel ss = Ret (time_slots sch).
Proof.
  intros H. apply init_inv in H as (ss & ? & _ & _ & _ & _ & ? & _). eauto.
Qed.

(** The loop keeps the cursor at or after the start of the day and emits
    good slots only. *)
Lemma loop_body_good g st :
  0 <= start_minutes g -> 0 <= lesson_duration g ->
  0 <= lesson_duration g + break_duration g ->
  start_minutes g <= fst st /\ Forall (good_slot g) (snd st) ->
  loop_cond g st = true ->
  start_minutes g <= fst (loop_body g st) /\ Forall (good_slot g) (snd (loop_body g st)).
Proof.
  intros Hs Hl Hlb [Hcur Hacc] Hc. destruct st as [cur acc]; simpl in *.
  unfold loop_cond in Hc. simpl in Hc. apply Z.leb_le in Hc.
  unfold loop_body.
  destruct (has_breakfast_break g && (cur <? breakfast_end_minutes g)
            && (cur + lesson_duration g >? breakfast_start_minutes g))%bool eqn:Hbf.
  { simpl. split; [|done].
    apply andb_prop in Hbf as [Hbf _]. apply andb_prop in Hbf as [_ Hbf].
    apply Z.ltb_lt in Hbf. lia. }
  destruct ((cur <? lunch_end_minutes g)
            && (cur + lesson_duration g >? lunch_start_minutes g))%bool eqn:Hlu.
  { simpl. split; [|done]. apply andb_prop in Hlu as [Hlu _].
    apply Z.ltb_lt in Hlu. lia. }
  simpl. split; [lia|]. apply Forall_app. split; [done|].
  constructor; [|constructor].
  exists cur, (cur + lesson_duration g). simpl.
  rewrite !time_to_minutes_of_time by lia.
  repeat split; try done; try lia.
  - intros (x & Hx1 & Hx2). apply andb_false_iff in Hlu as [Hlu|Hlu].
    + apply Z.ltb_ge in Hlu. lia.
    + rewrite Z.gtb_ltb in Hlu. apply Z.ltb_ge in Hlu. lia.
  - intros Hhb (x & Hx1 & Hx2). rewrite Hhb in Hbf. simpl in Hbf.
    apply andb_false_iff in Hbf as [Hbf|Hbf].
    + apply Z.ltb_ge in Hbf. lia.
    + rewrite Z.gtb_ltb in Hbf. apply Z.ltb_ge in Hbf. lia.
Qed.

Lemma read_grid_with_breakfast ss g bs bd :
  read_grid ss = Ret g -> has_breakfast_break g = false ->
  read_grid (with_breakfast ss bs bd) = Ret g.
Proof.
  unfold read_grid. simpl. intros H Hhb.
  repeat match type of H with
  | context [getitem ?o] => destruct o; simpl in H; [|done]
  end.
  simpl.
  repeat match type of H with
  | context [time_to_minutes ?x] =>
      destruct (time_to_minutes x); simpl in H; [|done..]
  | context [if ?b then _ else _] => destruct b; simpl in H
  end; simpl; [|done].
  unfold mret, outcome_ret in H. inversion H; subst. done.
Qed.

(** C5: for settings whose four time fields are well-formed [HH:MM]
    texts and whose four durations are positive, the time grid builder
    returns a list, and every slot of it is one lesson long, lies within
    the school day, shares no minute with the lunch window, and, when
    [hasBreakfastBreak] is true, none with the breakfast window.  When
    [hasBreakfastBreak] is false the breakfast fields do not matter: any
    other breakfast start and duration give the same list. *)
Theorem time_slots_respect_breaks ss st et bs ls l b bd ld hb :
  startTime ss = Some st -> endTime ss = Some et ->
  breakfastBreakStartTime ss = Some bs -> lunchBreakStartTime ss = Some ls ->
  lessonDuration ss = Some l -> breakDuration ss = Some b ->
  breakfastBreakDuration ss = Some bd -> lunchBreakDuration ss = Some ld ->
  hasBreakfastBreak ss = Some hb ->
  is_hhmm st = true -> is_hhmm et = true ->
  is_hhmm bs = true -> is_hhmm ls = true ->
  0 < l -> 0 < b -> 0 < bd -> 0 < ld ->
  exists g slots,
    time_to_minutes st = Ret (start_minutes g)
    /\ time_to_minutes et = Ret (end_minutes g)
    /\ time_to_minutes ls = Ret (lunch_start_minutes g)
    /\ lunch_end_minutes g = lunch_start_minutes g + ld
    /\ lesson_duration g = l
    /\ has_breakfast_break g = hb
    /\ (hb = true ->
        time_to_minutes bs = Ret (breakfast_start_minutes g)
        /\ breakfast_end_minutes g = breakfast_start_minutes g + bd)
    /\ (forall fuel, (grid_fuel g <= fuel)%nat ->
          _generate_time_slots fuel ss = Ret slots)
    /\ (forall sl, sl ∈ slots ->
          exists sa sb,
            time_to_minutes (fst sl) = Ret sa /\ time_to_minutes (snd sl) = Ret sb
            /\ sb - sa = l
            /\ start_minutes g <= sa /\ sb <= end_minutes g
            /\ ~ overlaps sa sb (lunch_start_minutes g) (lunch_start_minutes g + ld)
            /\ (hb = true ->
                ~ overlaps sa sb (breakfast_start_minutes g)
                    (breakfast_start_minutes g + bd)))
    /\ (hb = false -> forall bs' bd' fuel,
          (grid_fuel g <= fuel)%nat ->
          _generate_time_slots fuel (with_breakfast ss bs' bd') = Ret slots).
Proof.
  intros Hst Het Hbs Hls Hl Hb Hbd Hld Hhb Wst Wet Wbs Wls Pl Pb Pbd Pld.
  destruct (time_to_minutes_hhmm st Wst) as (sm & Hsm & Hsm0).
  destruct (time_to_minutes_hhmm et Wet) as (em & Hem & _).
  destruct (time_to_minutes_hhmm bs Wbs) as (bm & Hbm & _).
  destruct (time_to_minutes_hhmm ls Wls) as (lm & Hlm & _).
  destruct (read_grid_ok ss st et l b hb bs bd ls ld sm em lm)
    as (g & Hg & Gs & Ge & Gl & Gb & Ghb & Gls & Gle & Gbf); try done; [by eauto|].
  destruct (loop_terminates g ltac:(lia) (grid_fuel g) (start_minutes g, []))
    as [r Hr]; [unfold grid_fuel; simpl; lia|].
  assert (forall fuel, (grid_fuel g <= fuel)%nat ->
            while (loop_cond g) (loop_body g) fuel (start_minutes g, []) = Ret r)
    as Hrun by (intros; by eapply while_more_fuel).
  assert (Forall (good_slot g) (snd r)) as Hgood.
  { eapply (while_invariant (loop_cond g) (loop_body g)
              (fun st => start_minutes g <= fst st /\ Forall (good_slot g) (snd st)));
      [| |exact Hr].
    - intros. apply loop_body_good; (done || lia).
    - simpl. split; [lia | constructor]. }
  exists g, (snd r). rewrite Gs, Ge, Gls. split_and!; try done.
  - intros fuel Hfuel. eapply time_slots_of_loop; [done | by apply Hrun].
  - intros sl Hsl. rewrite Forall_forall in Hgood.
    destruct (Hgood sl Hsl) as (sa & sb & H1 & H2 & H3 & H4 & H5 & H6 & H7).
    exists sa, sb. rewrite Gs, Ge, Gl, Gls, Gle, Ghb in *.
    split_and!; try done.
    intros Hhbt. destruct (Gbf Hhbt) as [_ <-]. by apply H7.
  - intros Hhbf bs' bd' fuel Hfuel.
    eapply time_slots_of_loop; [|by apply Hrun].
    apply read_grid_with_breakfast; [done | congruence].
Qed.

(** ** The validator *)

Lemma not_enough_rooms_reported data :
  (length (rooms data) < length (classes data))%nat ->
  NotEnoughRooms (length (rooms data)) (length (classes data))
  ∈ validation_issues data.
Proof.
  intros Hlt. unfold validation_issues.
  repeat (apply elem_of_app; right).
  apply Nat.ltb_lt in Hlt. rewrite Hlt. simpl. apply list_elem_of_here.
Qed.

(** C7: the validator is asked to report "not enough rooms" only when
    room constraints are enabled.  On the request with
    [useRoomConstraints = false], no room and one class, the code reports
    it all the same: the comparison of the two lengths is not guarded by
    the flag, unlike the "No rooms provided" check before it. *)
Theorem not_enough_rooms_without_room_constraints :
  (school_settings request_without_rooms ≫= useRoomConstraints) = Some false
  /\ validate_constraints request_without_rooms
     = (false,
        ["Not enough rooms provided (0) for the number of classes (1)."%string])
  /\ NotEnoughRooms 0 1 ∈ validation_issues request_without_rooms
  /\ NoRooms ∉ validation_issues request_without_rooms.
Proof.
  split; [reflexivity|]. split; [vm_compute; reflexivity|].
  assert (validation_issues request_without_rooms = [NotEnoughRooms 0 1]) as ->
    by (vm_compute; reflexivity).
  split; [apply list_elem_of_here|].
  intros H. apply list_elem_of_singleton in H. discriminate.
Qed.

(** ** [generate_schedule] *)

Lemma prefix_append p s : String.prefix p (p +:+ s) = true.
Proof.
  induction p as [|c p IH]; simpl; [by destruct s|].
  destruct (ascii_dec c c); [done | congruence].
Qed.

Lemma fresh_id_prefix p w : String.prefix p (fst (fresh_id p w)) = true.
Proof. unfold fresh_id. simpl. apply prefix_append. Qed.

Lemma solve_inv cp sch b sch' :
  solve cp sch = Ret (b, sch') ->
  let sch1 := with_vars sch (_create_variables sch) in
  (exists cs, _add_all_constraints sch1 = Ret cs)
  /\ sch' = with_answer sch1 (cp sch1)
  /\ b = status_found (sch_status sch').
Proof.
  unfold solve. intros H. simpl.
  destruct (_add_all_constraints _) as [cs| |] eqn:Hcs; simpl in H; [|done..].
  unfold mret, outcome_ret in H. inversion H; subst. eauto.
Qed.

Lemma mock_schedule_id sch w :
  scheduleId (fst (_generate_mock_schedule sch w)) = fst (fresh_id mock_prefix w).
Proof.
  unfold _generate_mock_schedule, mock_prefix.
  destruct (fresh_id _ w) as [sid w0].
  destruct (pick_teachers sch w0) as [ats w1].
  destruct (shuffle _ w1) as [sl w2].
  by destruct (foldl _ _ ats).
Qed.

Lemma generate_try_mock fuel cp data w sch sch' :
  __init__ fuel data = Ret sch -> solve cp sch = Ret (false, sch') ->
  generate_try fuel cp data w
  = (Ret (fst (_generate_mock_schedule sch' w)), snd (_generate_mock_schedule sch' w)).
Proof.
  intros Hi Hs. unfold generate_try. rewrite Hi. simpl. rewrite Hs.
  by destruct (_generate_mock_schedule sch' w).
Qed.

(** C2: whenever the solver's status is neither OPTIMAL nor FEASIBLE,
    [generate_schedule] returns the schedule of the fallback generator,
    and its [scheduleId] starts with "mock-schedule-". *)
Theorem fallback_when_no_solution fuel cp data w sch b sch' :
  __init__ fuel data = Ret sch ->
  solve cp sch = Ret (b, sch') ->
  status_found (sch_status sch') = false ->
  generate_schedule fuel cp data w = Some (fst (_generate_mock_schedule sch' w))
  /\ String.prefix "mock-schedule-"
       (scheduleId (fst (_generate_mock_schedule sch' w))) = true.
Proof.
  intros Hi Hs Hst.
  destruct (solve_inv _ _ _ _ Hs) as (_ & _ & Hb). rewrite Hst in Hb. subst b.
  split.
  - unfold generate_schedule. by rewrite (generate_try_mock _ _ _ _ _ _ Hi Hs).
  - rewrite mock_schedule_id. apply fresh_id_prefix.
Qed.

(** C3, as stated, fails: with a start time that is not [HH:MM] a
    [ValueError] is raised while the schedule is generated, inside the
    time grid builder, and [generate_schedule] still returns a generated
    schedule with an entry, not an error object. *)
Lemma builder_exception_is_not_an_error_schedule :
  school_settings request_bad_start = Some settings_bad_start
  /\ time_slots_try 10 settings_bad_start = Raise ValueError
  /\ exists schedule,
       generate_schedule 10 solver_one_lesson request_bad_start
         (world_of (fun _ => 0%nat)) = Some schedule
       /\ String.prefix "error-schedule-" (scheduleId schedule) = false
       /\ String.prefix "generated-schedule-" (scheduleId schedule) = true
       /\ length (entries schedule) = 1%nat.
Proof.
  split; [reflexivity|]. split; [vm_compute; reflexivity|].
  eexists. split; [vm_compute; reflexivity|].
  split; [vm_compute; reflexivity|]. split; vm_compute; reflexivity.
Qed.

(** *** An empty time grid *)








(** *** Two runs on the same request *)

Lemma entry_of_key_tuple sch k mk :
  entry_of_key sch k = Ret mk ->
  forall u1 u2, entry_tuple (mk u1) = entry_tuple (mk u2).
Proof.
  unfold entry_of_key. destruct k as [[[[[c s] t] r] d] ts]. intros H.
  repeat match type of H with
  | context [getitem ?o] => destruct o; simpl in H; [|done]
  end.
  destruct (negb _).
  - destruct (class_name_of _ _ _); simpl in H; [|done..].
    unfold mret, outcome_ret in H. by inversion H.
  - unfold mret, outcome_ret in H. by inversion H.
Qed.

(** The extraction loop does not look at the random sources, except to
    draw the entry ids. *)
Lemma extract_entries_up_to_ids sch ks : forall acc1 acc2 w1 w2,
  entry_tuple <$> acc1 = entry_tuple <$> acc2 ->
  match extract_entries sch ks acc1 w1, extract_entries sch ks acc2 w2 with
  | (Ret es1, _), (Ret es2, _) => entry_tuple <$> es1 = entry_tuple <$> es2
  | (Raise _, _), (Raise _, _) => True
  | (Timeout, _), (Timeout, _) => True
  | _, _ => False
  end.
Proof.
  induction ks as [|k ks IH]; intros acc1 acc2 w1 w2 Hacc; simpl; [done|].
  destruct (value sch k); [|by apply IH].
  destruct (entry_of_key sch k) as [mk| |] eqn:Hk; [|done..].
  apply IH. rewrite !fmap_app, Hacc. simpl.
  by rewrite (entry_of_key_tuple _ _ _ Hk (uuids w1 (uuid_count w1))
                (uuids w2 (uuid_count w2))).
Qed.

Lemma prefix_kinds p :
  p ∈ [generated_prefix; mock_prefix; error_prefix] ->
  forall w1 w2,
    exists q, q ∈ [generated_prefix; mock_prefix; error_prefix]
              /\ String.prefix q (fst (fresh_id p w1)) = true
              /\ String.prefix q (fst (fresh_id p w2)) = true.
Proof. intros Hp w1 w2. exists p. split; [done|]. split; apply fresh_id_prefix. Qed.

(** C8, as the code has it: with the solver a fixed function of the
    model, two runs on the same request that do not end in the fallback
    generator (the solver reports OPTIMAL or FEASIBLE, or an exception
    is raised) return the same schedule up to the random identifiers,
    whatever the state of the random sources.  The fallback generator
    draws its teachers, slot order and rooms from numpy's global
    generator, so nothing is promised for it. *)
Theorem runs_agree_without_fallback fuel cp data w1 w2 :
  (forall sch b sch',
     __init__ fuel data = Ret sch -> solve cp sch = Ret (b, sch') -> b = true) ->
  same_up_to_ids (generate_schedule fuel cp data w1)
                 (generate_schedule fuel cp data w2).
Proof.
  intros Hfound. unfold generate_schedule, generate_try.
  destruct (__init__ fuel data) as [sch|e|] eqn:Hi; simpl; [| |done].
  2:{ split; [done|]. apply (prefix_kinds error_prefix). set_solver. }
  destruct (solve cp sch) as [[b sch']|e|] eqn:Hs; simpl; [| |done].
  2:{ split; [done|]. apply (prefix_kinds error_prefix). set_solver. }
  assert (b = true) as -> by by eapply Hfound.
  destruct (solve_inv _ _ _ _ Hs) as (_ & _ & Hb).
  unfold extract_solution. rewrite <- Hb. simpl.
  pose proof (extract_entries_up_to_ids sch' (assignment_vars sch') [] []
                (uuid4 w1).2 (uuid4 w2).2 eq_refl) as Hex.
  simpl in Hex. revert Hex.
  repeat match goal with
  | |- context [extract_entries ?a ?b ?c ?d] =>
      destruct (extract_entries a b c d) as [[?|?|] ?]
  end; try done; simpl; intros Hex.
  - split; [done|]. apply (prefix_kinds generated_prefix). set_solver.
  - split; [done|]. apply (prefix_kinds error_prefix). set_solver.
Qed.

(** C8, as stated, fails: when the solver gives up, two runs on the
    same request with the same solver return different lessons for two
    states of numpy's generator. *)
Lemma fallback_runs_differ :
  exists s1 s2,
    generate_schedule 10 solver_unknown request_two_days (world_of (fun _ => 0%nat))
    = Some s1
    /\ generate_schedule 10 solver_unknown request_two_days (world_of (fun _ => 1%nat))
       = Some s2
    /\ ~ Permutation (entry_tuple <$> entries s1) (entry_tuple <$> entries s2).
Proof.
  eexists _, _. split; [vm_compute; reflexivity|].
  split; [vm_compute; reflexivity|].
  vm_compute. intros H. apply Permutation_length_1 in H. discriminate.
Qed.

(** ** The fallback generator *)

Lemma apart_sym e1 e2 : apart e1 e2 -> apart e2 e1.
Proof.
  intros (H1 & H2 & H3). split_and!; intros (? & ? & ?);
    [apply H1 | apply H2 | apply H3]; split_and!; congruence.
Qed.

Lemma all_apart_snoc es e :
  all_apart es -> (forall e1, e1 ∈ es -> apart e1 e) -> all_apart (es ++ [e]).
Proof.
  intros Hes He i j e1 e2 Hij H1 H2.
  destruct (decide (j < length es)%nat) as [Hj|Hj].
  - rewrite lookup_app_l in H1 by lia. rewrite lookup_app_l in H2 by lia.
    exact (Hes i j e1 e2 Hij H1 H2).
  - assert (j = length es) as ->.
    { apply lookup_lt_Some in H2. rewrite length_app in H2. simpl in H2. lia. }
    rewrite lookup_app_l in H1 by lia.
    rewrite lookup_app_r, Nat.sub_diag in H2 by lia. simpl in H2.
    inversion H2; subst. apply He. by eapply list_elem_of_lookup_2.
Qed.

(** What the absence of a clash with an existing entry means. *)
Lemma clashes_false sch day time_slot teacher class_id subject_id existing :
  clashes sch day time_slot teacher class_id subject_id existing = false ->
  ~ (e_day existing = day /\ e_startTime existing = fst time_slot
     /\ e_teacherId existing = t_id teacher)
  /\ ~ (e_day existing = day /\ e_startTime existing = fst time_slot
        /\ e_classId existing = class_id)
  /\ ~ (e_classId existing = class_id /\ e_day existing = day
        /\ e_subjectId existing = subject_id).
Proof.
  unfold clashes. intros H.
  destruct (String.eqb (e_day existing) day
            && String.eqb (e_startTime existing) (fst time_slot)
            && bool_decide (e_teacherId existing = t_id teacher))%bool eqn:H1;
    [done|].
  destruct (String.eqb (e_day existing) day
            && String.eqb (e_startTime existing) (fst time_slot)
            && bool_decide (e_classId existing = class_id))%bool eqn:H2;
    [done|].
  destruct (String.eqb (e_day existing) day
            && bool_decide (e_classId existing = class_id)
            && String.eqb (e_subjectId existing) subject_id)%bool eqn:H3;
    [done|].
  clear H. split_and!; intros (Ha & Hb & Hc).
  - rewrite <- Ha, <- Hb, <- Hc, !String.eqb_refl in H1.
    by rewrite bool_decide_eq_true_2 in H1.
  - rewrite <- Ha, <- Hb, <- Hc, !String.eqb_refl in H2.
    by rewrite bool_decide_eq_true_2 in H2.
  - rewrite <- Ha, <- Hb, <- Hc, !String.eqb_refl in H3.
    by rewrite bool_decide_eq_true_2 in H3.
Qed.

Lemma valid_slot_true sch day time_slot teacher class_id subject_id es :
  valid_slot sch day time_slot teacher class_id subject_id es = true ->
  forall e, e ∈ es ->
    clashes sch day time_slot teacher class_id subject_id e = false.
Proof.
  induction es as [|e0 es IH]; simpl; intros Hv e He; [by inversion He|].
  destruct (clashes _ _ _ _ _ _ e0) eqn:Hc; [done|].
  apply elem_of_cons in He as [->|He]; [done | by apply IH].
Qed.

Lemma fill_slots_apart sch teacher class_id subject_id slots :
  forall slot_idx hours st,
    all_apart (fst st) ->
    all_apart (fst (fill_slots sch teacher class_id subject_id slot_idx slots hours st)).
Proof.
  induction slots as [|[day time_slot] slots IH]; intros slot_idx hours st Hst;
    simpl; [done|].
  destruct (hours <=? 0); [done|].
  destruct st as [es w].
  destruct (valid_slot sch day time_slot teacher class_id subject_id es) eqn:Hv;
    [|by apply IH].
  destruct (match sch_rooms sch with
            | [] => _
            | r0 :: _ => _
            end) as [room_id w1].
  apply IH. simpl. apply all_apart_snoc; [done|].
  intros e1 He1.
  pose proof (valid_slot_true _ _ _ _ _ _ _ Hv e1 He1) as Hc.
  apply clashes_false in Hc. exact Hc.
Qed.

Lemma fill_pair_apart sch available_slots st a :
  all_apart (fst st) -> all_apart (fst (fill_pair sch available_slots st a)).
Proof.
  intros Hst. unfold fill_pair. destruct a as [[class_id subject_id] teacher].
  repeat case_match; try done. by apply fill_slots_apart.
Qed.

Lemma mock_schedule_apart sch w :
  all_apart (entries (fst (_generate_mock_schedule sch w))).
Proof.
  unfold _generate_mock_schedule.
  destruct (fresh_id _ w) as [sid w0].
  destruct (pick_teachers sch w0) as [ats w1].
  destruct (shuffle _ w1) as [sl w2].
  assert (forall st, all_apart (fst st) ->
            all_apart (fst (foldl (fill_pair sch sl) st ats))) as Hfold.
  { induction ats as [|a ats IH]; intros st Hst; simpl; [done|].
    apply IH. by apply fill_pair_apart. }
  specialize (Hfold ([], w2)).
  destruct (foldl _ _ ats) as [es w3]. simpl in *. apply Hfold.
  intros i j e1 e2 _ H. by rewrite lookup_nil in H.
Qed.

(** C6: in every schedule that the fallback generator returns, two
    entries at different positions never share (day, startTime,
    teacherId), never share (day, startTime, classId), never share
    (classId, day, subjectId), and, were they to share (classId, day,
    subjectId), would not start in neighbouring slots of the grid. *)
Theorem fallback_entries_do_not_clash sch w i j e1 e2 :
  i <> j ->
  entries (fst (_generate_mock_schedule sch w)) !! i = Some e1 ->
  entries (fst (_generate_mock_schedule sch w)) !! j = Some e2 ->
  ~ (e_day e1 = e_day e2 /\ e_startTime e1 = e_startTime e2
     /\ e_teacherId e1 = e_teacherId e2)
  /\ ~ (e_day e1 = e_day e2 /\ e_startTime e1 = e_startTime e2
        /\ e_classId e1 = e_classId e2)
  /\ ~ (e_classId e1 = e_classId e2 /\ e_day e1 = e_day e2
        /\ e_subjectId e1 = e_subjectId e2)
  /\ (e_classId e1 = e_classId e2 /\ e_day e1 = e_day e2
      /\ e_subjectId e1 = e_subjectId e2 ->
      ~ adjacent_starts sch (e_startTime e1) (e_startTime e2)).
Proof.
  intros Hij H1 H2.
  assert (apart e1 e2) as (Ha & Hb & Hc).
  { destruct (decide (i < j)%nat).
    - by eapply (mock_schedule_apart sch w i j).
    - apply apart_sym. eapply (mock_schedule_apart sch w j i); [lia | done..]. }
  split_and!; [exact Ha | exact Hb | exact Hc |].
  intros Hsame. by destruct (Hc Hsame).
Qed.

(** ** The decision variables *)

Lemma adds_dict_set k0 : adds (dict_set k0) (fun k => k = k0).
Proof.
  intros vars. unfold dict_set. destruct (decide (k0 ∈ vars)) as [Hin|Hout]; split.
  - done.
  - intros k. split; [auto | intros [?| ->]; done].
  - intros Hnd. apply NoDup_app. split_and!; [done | | apply NoDup_singleton].
    intros x Hx Hx'. apply list_elem_of_singleton in Hx'. by subst.
  - intros k. rewrite elem_of_app, list_elem_of_singleton. done.
Qed.

Lemma adds_skip : adds (fun vars => vars) (fun _ => False).
Proof. intros vars. split; [done | intros k; tauto]. Qed.

Lemma adds_ext f P Q : adds f P -> (forall k, P k <-> Q k) -> adds f Q.
Proof.
  intros Hf HPQ vars. destruct (Hf vars) as [Hnd Hin]. split; [done|].
  intros k. rewrite Hin, HPQ. done.
Qed.

Lemma adds_foldl {A} (step : list key -> A -> list key) (P : A -> key -> Prop) xs :
  (forall x, adds (fun vars => step vars x) (P x)) ->
  adds (fun vars => foldl step vars xs) (fun k => exists x, x ∈ xs /\ P x k).
Proof.
  intros Hstep. induction xs as [|x xs IH]; intros vars; simpl.
  - split; [done|]. intros k. split; [auto|]. intros [?|(x & Hx & _)]; [done|].
    by apply elem_of_nil in Hx.
  - destruct (Hstep x vars) as [Hnd1 Hin1].
    destruct (IH (step vars x)) as [Hnd2 Hin2]. split; [auto|].
    intros k. rewrite Hin2, Hin1. split.
    + intros [[?|?]|(y & Hy & ?)]; [by left | right..].
      * exists x. split; [apply list_elem_of_here | done].
      * exists y. split; [by apply list_elem_of_further | done].
    + intros [?|(y & Hy & ?)]; [by left; left|].
      apply elem_of_cons in Hy as [->|Hy]; [by left; right|].
      right. by exists y.
Qed.

Lemma adds_create_for_room sch c s r valid :
  adds (create_for_room sch c s r valid)
    (fun k => exists d ts t,
       (d < length (days sch))%nat /\ (ts < length (time_slots sch))%nat
       /\ t ∈ valid /\ k = (c, s, t, r, d, ts)).
Proof.
  unfold create_for_room.
  eapply adds_ext.
  - apply (adds_foldl _ (fun d k => exists ts t,
             (ts < length (time_slots sch))%nat /\ t ∈ valid
             /\ k = (c, s, t, r, d, ts))).
    intros d. eapply adds_ext.
    + apply (adds_foldl _ (fun ts k => exists t, t ∈ valid /\ k = (c, s, t, r, d, ts))).
      intros ts. eapply adds_ext.
      * apply (adds_foldl _ (fun t k => k = (c, s, t, r, d, ts))).
        intros t. apply adds_dict_set.
      * intros k. simpl. done.
    + intros k. simpl. split.
      * intros (ts & Hts & t & ? & ?). apply elem_of_seq in Hts.
        exists ts, t. split_and!; (done || lia).
      * intros (ts & t & ? & ? & ?). exists ts. split; [apply elem_of_seq; lia|].
        by exists t.
  - intros k. simpl. split.
    + intros (d & Hd & ts & t & ? & ? & ?). apply elem_of_seq in Hd.
      exists d, ts, t. split_and!; (done || lia).
    + intros (d & ts & t & ? & ? & ? & ?). exists d. split; [apply elem_of_seq; lia|].
      by exists ts, t.
Qed.

Lemma adds_create_for_subject sch c s_id :
  adds (create_for_subject sch c s_id) (key_of_pair sch c s_id).
Proof.
  unfold create_for_subject, key_of_pair.
  destruct (subject_indices sch !! s_id) as [s|] eqn:Hs.
  2:{ eapply adds_ext; [apply adds_skip|]. intros k. simpl. split; [done|].
      by intros (? & ? & ? & ? & ? & _ & ? & _). }
  destruct (bool_decide (valid_teachers 0 s_id (sch_teachers sch) = [])) eqn:Hv.
  { apply bool_decide_eq_true in Hv. rewrite Hv.
    eapply adds_ext; [apply adds_skip|]. intros k. simpl. split; [done|].
    intros (? & ? & ? & ? & ? & _ & _ & Ht & _). by apply elem_of_nil in Ht. }
  destruct (use_room_constraints sch); simpl.
  - eapply adds_ext.
    + apply (adds_foldl _ (fun r k => exists d ts t,
               (d < length (days sch))%nat /\ (ts < length (time_slots sch))%nat
               /\ t ∈ valid_teachers 0 s_id (sch_teachers sch)
               /\ k = (c, s, t, r, d, ts))).
      intros r. apply adds_create_for_room.
    + intros k. simpl. split.
      * intros (r & Hr & d & ts & t & ? & ? & ? & ?). apply elem_of_seq in Hr.
        exists s, t, r, d, ts. split_and!; (done || lia).
      * intros (s' & t & r & d & ts & ? & Hs' & ? & ? & ? & ?).
        inversion Hs'; subst s'. exists r. split; [apply elem_of_seq; lia|].
        by exists d, ts, t.
  - eapply adds_ext; [apply adds_create_for_room|].
    intros k. simpl. split.
    + intros (d & ts & t & ? & ? & ? & ?). by exists s, t, 0%nat, d, ts.
    + intros (s' & t & r & d & ts & ? & Hs' & ? & ? & ? & ?).
      inversion Hs'; subst s' r. by exists d, ts, t.
Qed.

Lemma adds_create_for_classes sch cs : forall c,
  adds (create_for_classes sch c cs) (key_of_classes sch c cs).
Proof.
  induction cs as [|class_info cs IH]; intros c vars; simpl.
  - split; [done|]. intros k. split; [auto|].
    intros [?|(i & ? & ? & Hi & _)]; [done|]. by rewrite lookup_nil in Hi.
  - pose proof (adds_foldl (fun vars s_id => create_for_subject sch c s_id vars)
                  (fun s_id => key_of_pair sch c s_id)
                  (c_requiredSubjects class_info)
                  (fun s_id => adds_create_for_subject sch c s_id) vars)
      as [Hnd1 Hin1].
    destruct (IH (S c) (foldl (fun vars s_id => create_for_subject sch c s_id vars)
                          vars (c_requiredSubjects class_info))) as [Hnd2 Hin2].
    split; [auto|]. intros k. rewrite Hin2, Hin1. unfold key_of_classes. split.
    + intros [[?|(s_id & ? & ?)]|(i & ci & s_id & ? & ? & Hk)]; [by left|right..].
      * exists 0%nat, class_info, s_id. rewrite Nat.add_0_r. by split_and!.
      * exists (S i), ci, s_id. split_and!; [done..|].
        by replace (c + S i)%nat with (S c + i)%nat by lia.
    + intros [?|(i & ci & s_id & Hi & ? & Hk)]; [by left; left|].
      destruct i as [|i]; simpl in Hi.
      * inversion Hi; subst ci. rewrite Nat.add_0_r in Hk. left. right. by exists s_id.
      * right. exists i, ci, s_id. split_and!; [done..|].
        by replace (S c + i)%nat with (c + S i)%nat by lia.
Qed.

(** The dictionary after [_create_variables], for a fresh scheduler. *)
Lemma create_variables_spec sch :
  assignment_vars sch = [] ->
  NoDup (_create_variables sch)
  /\ forall k, k ∈ _create_variables sch <-> key_of_classes sch 0 (sch_classes sch) k.
Proof.
  intros Hvars. unfold _create_variables. rewrite Hvars.
  destruct (adds_create_for_classes sch (sch_classes sch) 0%nat []) as [Hnd Hin].
  split; [apply Hnd, NoDup_nil_2|].
  intros k. rewrite Hin. split; [intros [H|H]; [by apply elem_of_nil in H | done] | auto].
Qed.

(** ** The variables gathered for one (class, subject) pair *)

Ltac elem_of_loops H :=
  repeat (apply list_elem_of_bind in H as (? & H & ?));
  case_decide; [apply list_elem_of_singleton in H | by apply elem_of_nil in H].




Lemma sum_vars_count val ks :
  sum_vars val ks = Z.of_nat (length (filter (fun k => val k = true) ks)).
Proof.
  induction ks as [|k ks IH]; [done|]. simpl. rewrite IH, filter_cons.
  unfold Value. destruct (val k); simpl; lia.
Qed.


(** ** Index maps *)

Lemma ids_of_lookup {A} (get_id : A -> option string) xs : forall ids,
  ids_of get_id xs = Ret ids -> forall i, ids !! i = xs !! i ≫= get_id.
Proof.
  induction xs as [|x xs IH]; simpl; intros ids H i.
  - unfold mret, outcome_ret in H. inversion H. by rewrite !lookup_nil.
  - destruct (get_id x) as [v|] eqn:Hx; simpl in H; [|done].
    destruct (ids_of get_id xs) as [rest| |]; simpl in H; [|done..].
    unfold mret, outcome_ret in H. inversion H; subst.
    destruct i as [|i]; simpl; [done | by apply IH].
Qed.

Lemma ids_of_length {A} (get_id : A -> option string) xs : forall ids,
  ids_of get_id xs = Ret ids -> length ids = length xs.
Proof.
  induction xs as [|x xs IH]; simpl; intros ids H.
  - unfold mret, outcome_ret in H. by inversion H.
  - destruct (get_id x); simpl in H; [|done].
    destruct (ids_of get_id xs) as [rest| |]; simpl in H; [|done..].
    unfold mret, outcome_ret in H. inversion H; subst. simpl. by rewrite (IH rest).
Qed.

Lemma index_dict_lookup ids : forall i (d : gmap string nat) x n,
  index_dict i ids d !! x = Some n ->
  d !! x = Some n \/ ((i <= n)%nat /\ ids !! (n - i)%nat = Some x).
Proof.
  induction ids as [|y ids IH]; simpl; intros i d x n H; [by left|].
  apply IH in H as [H|[Hle H]].
  - destruct (decide (y = x)) as [->|Hne].
    + rewrite lookup_insert_eq in H. inversion H; subst. right.
      split; [lia|]. by rewrite Nat.sub_diag.
    + rewrite lookup_insert_ne in H by done. by left.
  - right. split; [lia|]. by replace (n - i)%nat with (S (n - S i)) by lia.
Qed.

(** An index found in [subject_indices] points at a subject with that id. *)
Lemma subject_index_sound (sids : list string) x n :
  index_dict 0 sids ∅ !! x = Some n -> sids !! n = Some x.
Proof.
  intros H. apply index_dict_lookup in H as [H|[_ H]].
  - by rewrite lookup_empty in H.
  - by rewrite Nat.sub_0_r in H.
Qed.



(** ** Extraction *)






(** ** Weekly hours in the extracted schedule *)


(** When [_add_all_constraints] returns, each builder has returned. *)
Lemma add_all_constraints_ret sch cs :
  _add_all_constraints sch = Ret cs ->
  cs = _add_subject_hours_constraint sch ++ _add_teacher_consistency_constraint sch
  /\ post (_add_subject_hours_constraint sch) = Ret tt
  /\ post (_add_teacher_consistency_constraint sch) = Ret tt
  /\ _add_break_constraints sch = Ret tt
  /\ _add_daily_lessons_constraints sch = Ret tt
  /\ _add_free_period_constraints sch = Ret tt.
Proof.
  unfold _add_all_constraints. intros H.
  destruct (post (_add_subject_hours_constraint sch)) as [[]| |];
    simpl in H; [|done..].
  destruct (post (_add_teacher_consistency_constraint sch)) as [[]| |];
    simpl in H; [|done..].
  destruct (_add_break_constraints sch) as [[]| |]; simpl in H; [|done..].
  destruct (_add_daily_lessons_constraints sch) as [[]| |]; simpl in H; [|done..].
  destruct (_add_free_period_constraints sch) as [[]| |]; simpl in H; [|done..].
  unfold mret, outcome_ret in H. by inversion H.
Qed.

Lemma add_all_constraints_inv sch cs :
  _add_all_constraints sch = Ret cs ->
  cs = _add_subject_hours_constraint sch ++ _add_teacher_consistency_constraint sch.
Proof. intros H. by apply add_all_constraints_ret in H as [? _]. Qed.








(** The other conditions of the statement above are needed as well.
    The validator accepts each of these requests and the solver's answer
    is optimal and satisfies the posted equations; a class without a
    name (room constraints off) makes the extraction raise, and two
    classes with one id are counted together. *)
Example unnamed_class_loses_the_schedule :
  validation_issues request_unnamed_class = []
  /\ sound_on solver_one_lesson (built 10 request_unnamed_class)
  /\ generate_schedule 10 solver_one_lesson request_unnamed_class
       (world_of (fun _ => 0%nat))
     = Some {| scheduleId := "error-schedule-00000001"; entries := [] |}.
Proof.
  split; [vm_compute; reflexivity|]. split; [|vm_compute; reflexivity].
  intros cs Hcs. apply add_all_constraints_inv in Hcs. subst cs.
  intros _. vm_compute. reflexivity.
Qed.

Example twin_classes_are_counted_together :
  validation_issues request_twin_classes = []
  /\ sound_on solver_two_lessons (built 10 request_twin_classes)
  /\ exists schedule,
       generate_schedule 10 solver_two_lessons request_twin_classes
         (world_of (fun _ => 0%nat)) = Some schedule
       /\ lessons_of schedule "class-1" "math" = 2%nat
       /\ s_hoursPerWeek math = Some 1.
Proof.
  split; [vm_compute; reflexivity|]. split.
  { intros cs Hcs. apply add_all_constraints_inv in Hcs. subst cs.
    intros _. vm_compute. reflexivity. }
  eexists. split; [vm_compute; reflexivity|]. split; [vm_compute|]; reflexivity.
Qed.

(** ** The theorems at sample requests *)



Lemma fallback_when_no_solution_witness :
  generate_schedule 10 solver_unknown request_two_days (world_of (fun _ => 0%nat))
  = Some (fst (_generate_mock_schedule
                 (solved solver_unknown (built 10 request_two_days))
                 (world_of (fun _ => 0%nat))))
  /\ String.prefix "mock-schedule-"
       (scheduleId (fst (_generate_mock_schedule
                           (solved solver_unknown (built 10 request_two_days))
                           (world_of (fun _ => 0%nat))))) = true.
Proof.
  apply (fallback_when_no_solution 10 solver_unknown request_two_days
           (world_of (fun _ => 0%nat)) (built 10 request_two_days) false).
  - vm_compute. reflexivity.
  - vm_compute. reflexivity.
  - vm_compute. reflexivity.
Defined.


Lemma time_slots_respect_breaks_witness :
  exists g slots,
    time_to_minutes "08:00" = Ret (start_minutes g)
    /\ time_to_minutes "15:00" = Ret (end_minutes g)
    /\ time_to_minutes "12:00" = Ret (lunch_start_minutes g)
    /\ lunch_end_minutes g = lunch_start_minutes g + 45
    /\ lesson_duration g = 60
    /\ has_breakfast_break g = true
    /\ (true = true ->
        time_to_minutes "10:00" = Ret (breakfast_start_minutes g)
        /\ breakfast_end_minutes g = breakfast_start_minutes g + 25)
    /\ (forall fuel, (grid_fuel g <= fuel)%nat ->
          _generate_time_slots fuel
            (settings_of "08:00" "15:00" 60 ["MONDAY"; "TUESDAY"] true)%string
          = Ret slots)
    /\ (forall sl, sl ∈ slots ->
          exists sa sb,
            time_to_minutes (fst sl) = Ret sa /\ time_to_minutes (snd sl) = Ret sb
            /\ sb - sa = 60
            /\ start_minutes g <= sa /\ sb <= end_minutes g
            /\ ~ overlaps sa sb (lunch_start_minutes g) (lunch_start_minutes g + 45)
            /\ (true = true ->
                ~ overlaps sa sb (breakfast_start_minutes g)
                    (breakfast_start_minutes g + 25)))
    /\ (true = false -> forall bs' bd' fuel,
          (grid_fuel g <= fuel)%nat ->
          _generate_time_slots fuel
            (with_breakfast
               (settings_of "08:00" "15:00" 60 ["MONDAY"; "TUESDAY"] true)%string
               bs' bd')
          = Ret slots).
Proof.
  apply (time_slots_respect_breaks
           (settings_of "08:00" "15:00" 60 ["MONDAY"; "TUESDAY"] true)%string
           "08:00" "15:00" "10:00" "12:00" 60 15 25 45 true);
    (reflexivity || lia).
Defined.

Lemma fallback_entries_do_not_clash_witness :
  exists e1 e2,
    entries (fst (_generate_mock_schedule (built 10 request_two_hours)
                    (world_of (fun _ => 0%nat)))) !! 0%nat = Some e1
    /\ entries (fst (_generate_mock_schedule (built 10 request_two_hours)
                       (world_of (fun _ => 0%nat)))) !! 1%nat = Some e2
    /\ ~ (e_day e1 = e_day e2 /\ e_startTime e1 = e_startTime e2
          /\ e_teacherId e1 = e_teacherId e2)
    /\ ~ (e_day e1 = e_day e2 /\ e_startTime e1 = e_startTime e2
          /\ e_classId e1 = e_classId e2)
    /\ ~ (e_classId e1 = e_classId e2 /\ e_day e1 = e_day e2
          /\ e_subjectId e1 = e_subjectId e2)
    /\ (e_classId e1 = e_classId e2 /\ e_day e1 = e_day e2
        /\ e_subjectId e1 = e_subjectId e2 ->
        ~ adjacent_starts (built 10 request_two_hours)
            (e_startTime e1) (e_startTime e2)).
Proof.
  eexists _, _. split; [vm_compute; reflexivity|].
  split; [vm_compute; reflexivity|].
  apply (fallback_entries_do_not_clash (built 10 request_two_hours)
           (world_of (fun _ => 0%nat)) 0%nat 1%nat).
  - lia.
  - vm_compute. reflexivity.
  - vm_compute. reflexivity.
Defined.

Lemma runs_agree_without_fallback_witness :
  same_up_to_ids
    (generate_schedule 10 solver_one_lesson request_two_days (world_of (fun _ => 0%nat)))
    (generate_schedule 10 solver_one_lesson request_two_days (world_of (fun _ => 1%nat))).
Proof.
  apply (runs_agree_without_fallback 10 solver_one_lesson request_two_days).
  intros sch b sch' _ Hs.
  destruct (solve_inv _ _ _ _ Hs) as (_ & -> & ->). reflexivity.
Defined.

Lemma time_grid_builder_terminates_witness :
  exists fuel0 slots, forall fuel,
    (fuel0 <= fuel)%nat ->
    _generate_time_slots fuel
      (settings_of "08:00" "15:00" 60 ["MONDAY"; "TUESDAY"] true)%string
    = Ret slots.
Proof.
  apply (time_grid_builder_terminates
           (settings_of "08:00" "15:00" 60 ["MONDAY"; "TUESDAY"] true)%string
           60 15); (reflexivity || lia).
Defined.

(** * Further properties *)

(** ** Times of day: formatting and parsing *)

Lemma lstrip_head c cs : is_space c = false -> lstrip (c :: cs) = c :: cs.
Proof. intros H. simpl. by rewrite H. Qed.

Lemma strip_signed ds :
  Forall plain_digit ds -> ds <> [] -> strip ("-"%char :: ds) = "-"%char :: ds.
Proof.
  intros Hds Hne. unfold strip. rewrite lstrip_head by reflexivity.
  assert (lstrip (rev ("-"%char :: ds)) = rev ("-"%char :: ds)) as ->.
  { simpl. destruct (rev ds) as [|c r] eqn:Hr.
    - apply (f_equal (@rev _)) in Hr. rewrite rev_involutive in Hr. done.
    - assert (plain_digit c) as Hc.
      { apply Forall_rev in Hds. rewrite Hr in Hds. by inversion Hds. }
      simpl. by destruct (PyFacts.plain_digit_facts c Hc) as (-> & _). }
  apply rev_involutive.
Qed.

Lemma int_of_chars_format_any z : int_of_chars (format_02d z) = Ret z.
Proof.
  destruct (Z.ltb_spec z 0) as [Hneg|Hpos]; [|by apply PyFacts.int_of_chars_format].
  unfold format_02d. destruct (Z.ltb_spec z 0); [|lia].
  unfold int_of_chars.
  rewrite strip_signed by (apply PyFacts.str_nat_plain || apply PyFacts.str_nat_nonempty).
  change (Ascii.eqb "-" "-") with true. cbv iota.
  rewrite PyFacts.digits_value_plain
    by (apply PyFacts.str_nat_plain || (left; apply PyFacts.str_nat_nonempty)).
  rewrite PyFacts.str_nat_number. simpl. f_equal. lia.
Qed.

Lemma split_on_colon_free a b :
  Forall (fun c => Ascii.eqb c ":"%char = false) a ->
  split_on ":"%char (a ++ ":"%char :: b) = a :: split_on ":"%char b.
Proof.
  induction 1 as [|c a Hc _ IH]; simpl; [done|]. by rewrite Hc, IH.
Qed.

Lemma format_02d_colon_free z :
  Forall (fun c => Ascii.eqb c ":"%char = false) (format_02d z).
Proof.
  assert (forall n, Forall (fun c => Ascii.eqb c ":"%char = false) (str_nat n)) as Hn.
  { intros n. eapply Forall_impl; [apply PyFacts.str_nat_plain|].
    intros c Hc. by destruct (PyFacts.plain_digit_facts c Hc) as (_ & _ & -> & _). }
  unfold format_02d. destruct (z <? 0); [by constructor|].
  destruct (z <? 10); [by constructor | done].
Qed.

Lemma time_text_read_back h m :
  0 <= m < 60 ->
  time_to_minutes (string_of_list_ascii (format_02d h ++ ":"%char :: format_02d m))
  = Ret (h * 60 + m).
Proof.
  intros Hm. unfold time_to_minutes.
  rewrite list_ascii_of_string_of_list_ascii.
  rewrite split_on_colon_free by apply format_02d_colon_free.
  rewrite PyFacts.split_on_plain by (apply PyFacts.format_02d_plain; lia).
  by rewrite !int_of_chars_format_any.
Qed.


Lemma minutes_to_time_inj m n : minutes_to_time m = minutes_to_time n -> m = n.
Proof.
  intros H. apply (f_equal time_to_minutes) in H. unfold minutes_to_time in H.
  rewrite !time_text_read_back in H by (apply Z.mod_pos_bound; lia).
  inversion H as [Heq].
  pose proof (Z.div_mod m 60 ltac:(lia)). pose proof (Z.div_mod n 60 ltac:(lia)). lia.
Qed.

(** ** The time grid: order, spacing and size *)

Lemma spaced_snoc gap xs z :
  spaced gap xs -> Forall (fun x => x + gap <= z) xs -> spaced gap (xs ++ [z]).
Proof.
  intros Hxs Hz i x y Hx Hy.
  destruct (decide (S i < length xs)%nat) as [Hlt|Hge].
  - rewrite lookup_app_l in Hx by lia. rewrite lookup_app_l in Hy by lia.
    by eapply Hxs.
  - assert (S i = length xs) as Hi.
    { apply lookup_lt_Some in Hy. rewrite length_app in Hy. simpl in Hy. lia. }
    rewrite lookup_app_l in Hx by lia.
    rewrite lookup_app_r, Hi, Nat.sub_diag in Hy by lia. simpl in Hy.
    inversion Hy; subst. rewrite Forall_forall in Hz. apply Hz.
    by eapply list_elem_of_lookup_2.
Qed.

(** The marks of a spaced list grow by at least [gap] a step. *)
Lemma spaced_lookup gap xs : forall i j x y,
  0 <= gap -> spaced gap xs -> (i <= j)%nat ->
  xs !! i = Some x -> xs !! j = Some y ->
  x + Z.of_nat (j - i) * gap <= y.
Proof.
  intros i j x y Hgap Hsp Hij Hx. revert y.
  induction j as [|j IH]; intros y Hy.
  - assert (i = 0)%nat as -> by lia. rewrite Hx in Hy. inversion Hy. simpl. lia.
  - destruct (decide (i = S j)) as [->|Hne].
    + rewrite Hx in Hy. inversion Hy. rewrite Nat.sub_diag. simpl. lia.
    + destruct (xs !! j) as [z|] eqn:Hz.
      2:{ apply lookup_ge_None in Hz. apply lookup_lt_Some in Hy. lia. }
      specialize (IH ltac:(lia) z eq_refl). pose proof (Hsp j z y Hz Hy).
      replace (S j - i)%nat with (S (j - i)) by lia. lia.
Qed.

Lemma spaced_NoDup gap xs : 1 <= gap -> spaced gap xs -> NoDup xs.
Proof.
  intros Hgap Hsp. apply NoDup_alt. intros i j x Hi Hj.
  destruct (Nat.lt_trichotomy i j) as [Hlt|[->|Hlt]]; [|done|].
  - pose proof (spaced_lookup gap xs i j x x ltac:(lia) Hsp ltac:(lia) Hi Hj). nia.
  - pose proof (spaced_lookup gap xs j i x x ltac:(lia) Hsp ltac:(lia) Hj Hi). nia.
Qed.

(** What the loop keeps: the slots emitted so far are those of spaced
    marks inside the day, all a lesson and a break behind the cursor. *)
Lemma loop_body_marks g st :
  1 <= lesson_duration g + break_duration g ->
  (exists marks,
     snd st = slot_at g <$> marks
     /\ spaced (lesson_duration g + break_duration g) marks
     /\ Forall (fun x => start_minutes g <= x
                         /\ x + lesson_duration g <= end_minutes g
                         /\ x + (lesson_duration g + break_duration g) <= fst st) marks
     /\ start_minutes g <= fst st) ->
  loop_cond g st = true ->
  exists marks,
    snd (loop_body g st) = slot_at g <$> marks
    /\ spaced (lesson_duration g + break_duration g) marks
    /\ Forall (fun x => start_minutes g <= x
                        /\ x + lesson_duration g <= end_minutes g
                        /\ x + (lesson_duration g + break_duration g)
                           <= fst (loop_body g st)) marks
    /\ start_minutes g <= fst (loop_body g st).
Proof.
  intros Hgap (marks & Hacc & Hsp & Hall & Hcur) Hc.
  destruct (loop_body_advances g st Hgap) as [Hadv _].
  destruct st as [cur acc]. simpl in *.
  unfold loop_cond in Hc. simpl in Hc. apply Z.leb_le in Hc.
  unfold loop_body in *.
  destruct (has_breakfast_break g && (cur <? breakfast_end_minutes g)
            && (cur + lesson_duration g >? breakfast_start_minutes g))%bool.
  { simpl in *. exists marks. split_and!; [done..| |lia].
    eapply Forall_impl; [exact Hall|]. simpl. intros; lia. }
  destruct ((cur <? lunch_end_minutes g)
            && (cur + lesson_duration g >? lunch_start_minutes g))%bool.
  { simpl in *. exists marks. split_and!; [done..| |lia].
    eapply Forall_impl; [exact Hall|]. simpl. intros; lia. }
  simpl in *. exists (marks ++ [cur]). split_and!.
  - by rewrite fmap_app, Hacc.
  - apply spaced_snoc; [done|]. eapply Forall_impl; [exact Hall|]. simpl. intros; lia.
  - apply Forall_app. split.
    + eapply Forall_impl; [exact Hall|]. simpl. intros; lia.
    + repeat constructor; lia.
  - lia.
Qed.

Lemma time_slots_loop_marks fuel ss g slots :
  read_grid ss = Ret g ->
  1 <= lesson_duration g + break_duration g ->
  _generate_time_slots fuel ss = Ret slots ->
  exists marks,
    slots = slot_at g <$> marks
    /\ spaced (lesson_duration g + break_duration g) marks
    /\ Forall (fun x => start_minutes g <= x
                        /\ x + lesson_duration g <= end_minutes g) marks.
Proof.
  intros Hg Hgap Hslots. unfold _generate_time_slots, time_slots_try in Hslots.
  rewrite Hg in Hslots. simpl in Hslots.
  destruct (while (loop_cond g) (loop_body g) fuel (start_minutes g, []))
    as [r| |] eqn:Hrun; simpl in Hslots; [|by apply while_not_raise in Hrun|done].
  unfold mret, outcome_ret in Hslots. inversion Hslots; subst slots.
  destruct (while_invariant (loop_cond g) (loop_body g)
              (fun st => exists marks,
                 snd st = slot_at g <$> marks
                 /\ spaced (lesson_duration g + break_duration g) marks
                 /\ Forall (fun x => start_minutes g <= x
                                     /\ x + lesson_duration g <= end_minutes g
                                     /\ x + (lesson_duration g + break_duration g)
                                        <= fst st) marks
                 /\ start_minutes g <= fst st)
              (fun st H1 H2 => loop_body_marks g st Hgap H1 H2)
              fuel (start_minutes g, []) r) as [(marks & Hr & Hsp & Hall & _) _];
    [|done|].
  { exists []. simpl. split_and!; [done | | constructor | lia].
    intros i x y Hx. by rewrite lookup_nil in Hx. }
  exists marks. split_and!; [done | done |].
  eapply Forall_impl; [exact Hall|]. simpl. intros; lia.
Qed.

Lemma marks_starts_distinct g gap marks :
  1 <= gap -> spaced gap marks -> NoDup (fst <$> (slot_at g <$> marks)).
Proof.
  intros Hgap Hsp. rewrite <- list_fmap_compose.
  assert (Inj eq eq (fst ∘ slot_at g)) as Hinj
    by (intros x y Hxy; by apply minutes_to_time_inj).
  apply (NoDup_fmap_2 _). by eapply spaced_NoDup.
Qed.



(** ** [generate_schedule]: what makes it answer with an error object *)

Lemma fresh_id_error w :
  fst (fresh_id "error-schedule-" w)
  = ("error-schedule-" +:+ String.substring 0 8 (uuids w (uuid_count w)))%string.
Proof. reflexivity. Qed.

(** X4: a request without school settings, or whose settings lack one
    of the thirteen required keys, is answered with the empty error
    schedule, whatever the solver and without any other draw from the
    random sources. *)
Theorem missing_setting_gives_error_schedule fuel cp data w :
  (school_settings data = None
   \/ exists ss, school_settings data = Some ss /\ missing_settings ss <> []) ->
  generate_schedule fuel cp data w
  = Some {| scheduleId := ("error-schedule-"
                           +:+ String.substring 0 8 (uuids w (uuid_count w)))%string;
            entries := [] |}.
Proof.
  intros H. unfold generate_schedule, generate_try, __init__.
  destruct H as [->|(ss & -> & Hmiss)]; [done|].
  rewrite bool_decide_eq_false_2 by done. done.
Qed.

Lemma ids_of_absent {A} (get_id : A -> option string) xs :
  Exists (fun x => get_id x = None) xs -> ids_of get_id xs = Raise KeyError.
Proof.
  induction 1 as [x xs Hx|x xs _ IH]; simpl.
  - by rewrite Hx.
  - destruct (get_id x); [|done]. simpl. by rewrite IH.
Qed.

Lemma ids_of_outcome {A} (get_id : A -> option string) xs :
  (exists ids, ids_of get_id xs = Ret ids) \/ ids_of get_id xs = Raise KeyError.
Proof.
  induction xs as [|x xs IH]; simpl; [left; by eexists|].
  destruct (get_id x); [|by right]. simpl.
  destruct IH as [[ids ->]| ->]; [left; by eexists | by right].
Qed.

(** X5: when the settings are complete and the time grid is built, a
    teacher, class, subject or room record without an [id] makes the
    constructor raise, and the request is answered with the empty error
    schedule. *)
Theorem missing_id_gives_error_schedule fuel cp data w ss slots :
  school_settings data = Some ss ->
  missing_settings ss = [] ->
  _generate_time_slots fuel ss = Ret slots ->
  (Exists (fun t => t_id t = None) (teachers data)
   \/ Exists (fun c => c_id c = None) (classes data)
   \/ Exists (fun s => s_id s = None) (subjects data)
   \/ Exists (fun r => r_id r = None) (rooms data)) ->
  __init__ fuel data = Raise KeyError
  /\ generate_schedule fuel cp data w
     = Some {| scheduleId := ("error-schedule-"
                              +:+ String.substring 0 8 (uuids w (uuid_count w)))%string;
               entries := [] |}.
Proof.
  intros Hss Hmiss Hslots Hid.
  assert (__init__ fuel data = Raise KeyError) as Hi.
  { unfold __init__. rewrite Hss, Hmiss. simpl.
    unfold missing_settings in Hmiss.
    destruct (useRoomConstraints ss);
      [|by repeat (apply app_eq_nil in Hmiss as [_ Hmiss])].
    destruct (workingDays ss);
      [|repeat (apply app_eq_nil in Hmiss as [? Hmiss]); done].
    simpl. rewrite Hslots. simpl.
    destruct Hid as [H|[H|[H|H]]].
    - by rewrite (ids_of_absent _ _ H).
    - destruct (ids_of_outcome t_id (teachers data)) as [[? ->]| ->]; [simpl|done].
      by rewrite (ids_of_absent _ _ H).
    - destruct (ids_of_outcome t_id (teachers data)) as [[? ->]| ->]; [simpl|done].
      destruct (ids_of_outcome c_id (classes data)) as [[? ->]| ->]; [simpl|done].
      by rewrite (ids_of_absent _ _ H).
    - destruct (ids_of_outcome t_id (teachers data)) as [[? ->]| ->]; [simpl|done].
      destruct (ids_of_outcome c_id (classes data)) as [[? ->]| ->]; [simpl|done].
      destruct (ids_of_outcome s_id (subjects data)) as [[? ->]| ->]; [simpl|done].
      by rewrite (ids_of_absent _ _ H). }
  split; [done|]. unfold generate_schedule, generate_try. by rewrite Hi.
Qed.

Lemma for_each_not_timeout {A} (body : A -> outcome unit) xs :
  (forall x, body x <> Timeout) -> for_each body xs <> Timeout.
Proof.
  intros Hbody. induction xs as [|x xs IH]; simpl; [done|].
  pose proof (Hbody x). destruct (body x); simpl; done.
Qed.

Lemma parse_slot_not_timeout sl : parse_slot sl <> Timeout.
Proof.
  unfold parse_slot.
  pose proof (time_to_minutes_not_timeout (fst sl)).
  pose proof (time_to_minutes_not_timeout (snd sl)).
  destruct (time_to_minutes (fst sl)); simpl; [|done..].
  destruct (time_to_minutes (snd sl)); simpl; done.
Qed.

Lemma add_break_constraints_not_timeout sch : _add_break_constraints sch <> Timeout.
Proof.
  unfold _add_break_constraints. intros H.
  repeat match type of H with
  | context [getitem ?o] => destruct o; simpl in H; [|done]
  end.
  repeat match type of H with
  | context [time_to_minutes ?x] =>
      let E := fresh in
      destruct (time_to_minutes x) eqn:E; simpl in H;
      [|done|by apply time_to_minutes_not_timeout in E]
  end.
  revert H. apply for_each_not_timeout. intros _.
  apply for_each_not_timeout, parse_slot_not_timeout.
Qed.

Lemma add_free_period_constraints_not_timeout sch :
  _add_free_period_constraints sch <> Timeout.
Proof.
  apply for_each_not_timeout. intros period. unfold free_period_body.
  destruct (truthy_str _) as [start|]; [|done].
  pose proof (time_to_minutes_not_timeout start).
  destruct (time_to_minutes start); simpl; [|done..].
  apply for_each_not_timeout. intros day.
  destruct (_ || _)%bool; [|done].
  apply for_each_not_timeout, parse_slot_not_timeout.
Qed.

Lemma bound_of_not_timeout n : bound_of n <> Timeout.
Proof. unfold bound_of. destruct n as [z|]; [|done]. by destruct (is_int64 z). Qed.

Lemma post_not_timeout cs : post cs <> Timeout.
Proof.
  apply for_each_not_timeout. intros [ks rhs].
  pose proof (bound_of_not_timeout (Some rhs)). by destruct (bound_of (Some rhs)).
Qed.

Lemma add_daily_lessons_constraints_not_timeout sch :
  _add_daily_lessons_constraints sch <> Timeout.
Proof.
  apply for_each_not_timeout. intros c. apply for_each_not_timeout. intros d.
  cbv zeta. case_bool_decide; [done|].
  pose proof (bound_of_not_timeout (max_subjects_per_day sch)).
  by destruct (bound_of (max_subjects_per_day sch)).
Qed.

Lemma add_all_constraints_not_timeout sch : _add_all_constraints sch <> Timeout.
Proof.
  unfold _add_all_constraints.
  pose proof (post_not_timeout (_add_subject_hours_constraint sch)).
  pose proof (post_not_timeout (_add_teacher_consistency_constraint sch)).
  pose proof (add_break_constraints_not_timeout sch).
  pose proof (add_daily_lessons_constraints_not_timeout sch).
  pose proof (add_free_period_constraints_not_timeout sch).
  destruct (post (_add_subject_hours_constraint sch)); simpl; [|done..].
  destruct (post (_add_teacher_consistency_constraint sch)); simpl; [|done..].
  destruct (_add_break_constraints sch); simpl; [|done..].
  destruct (_add_daily_lessons_constraints sch); simpl; [|done..].
  destruct (_add_free_period_constraints sch); simpl; done.
Qed.

(** An exception of [_add_break_constraints] makes [_add_all_constraints]
    raise: that one, or the one of a builder called before it. *)
Lemma add_all_constraints_break_raises sch e :
  _add_break_constraints sch = Raise e -> exists e', _add_all_constraints sch = Raise e'.
Proof.
  intros Hb. unfold _add_all_constraints.
  pose proof (post_not_timeout (_add_subject_hours_constraint sch)).
  pose proof (post_not_timeout (_add_teacher_consistency_constraint sch)).
  destruct (post (_add_subject_hours_constraint sch)); simpl; [|by eexists|done].
  destruct (post (_add_teacher_consistency_constraint sch)); simpl; [|by eexists|done].
  rewrite Hb. by eexists.
Qed.

Lemma solve_not_timeout cp sch : solve cp sch <> Timeout.
Proof.
  unfold solve.
  pose proof (add_all_constraints_not_timeout (with_vars sch (_create_variables sch))).
  destruct (_add_all_constraints _); simpl; done.
Qed.

Lemma init_settings_present fuel data sch :
  __init__ fuel data = Ret sch ->
  exists has_bf bs bd ls ld,
    hasBreakfastBreak (sch_settings sch) = Some has_bf
    /\ breakfastBreakStartTime (sch_settings sch) = Some bs
    /\ breakfastBreakDuration (sch_settings sch) = Some bd
    /\ lunchBreakStartTime (sch_settings sch) = Some ls
    /\ lunchBreakDuration (sch_settings sch) = Some ld.
Proof.
  intros Hi. apply init_inv in Hi as (ss & _ & Hmiss & -> & _).
  unfold missing_settings in Hmiss.
  repeat (apply app_eq_nil in Hmiss as [? Hmiss]).
  destruct (hasBreakfastBreak ss), (breakfastBreakStartTime ss),
    (breakfastBreakDuration ss), (lunchBreakStartTime ss), (lunchBreakDuration ss);
    try done.
  by eexists _, _, _, _, _.
Qed.

(** X6: [_add_break_constraints] parses both break start times whatever
    [hasBreakfastBreak] says.  If one of them is not a time, [solve]
    raises and the request is answered with the empty error schedule,
    also when the breakfast break is switched off. *)
Theorem malformed_break_start_gives_error_schedule fuel cp data w sch bs ls e :
  __init__ fuel data = Ret sch ->
  breakfastBreakStartTime (sch_settings sch) = Some bs ->
  lunchBreakStartTime (sch_settings sch) = Some ls ->
  (time_to_minutes bs = Raise e \/ time_to_minutes ls = Raise e) ->
  (exists e', solve cp sch = Raise e')
  /\ generate_schedule fuel cp data w
     = Some {| scheduleId := ("error-schedule-"
                              +:+ String.substring 0 8 (uuids w (uuid_count w)))%string;
               entries := [] |}.
Proof.
  intros Hi Hbs Hls Hbad.
  destruct (init_settings_present _ _ _ Hi)
    as (has_bf & bs' & bd & ls' & ld & Hhb & Hbs' & Hbd & Hls' & Hld).
  assert (exists e', solve cp sch = Raise e') as [e' He'].
  { assert (exists e0, _add_break_constraints (with_vars sch (_create_variables sch))
                       = Raise e0) as [e0 He0].
    { unfold _add_break_constraints. simpl.
      rewrite Hhb, Hbs, Hbd, Hls, Hld. simpl.
      destruct Hbad as [Hb|Hl].
      - rewrite Hb. simpl. by eexists.
      - destruct (time_to_minutes bs) as [?|?|] eqn:Hb; simpl.
        + rewrite Hl. simpl. by eexists.
        + by eexists.
        + by apply time_to_minutes_not_timeout in Hb. }
    destruct (add_all_constraints_break_raises _ _ He0) as [e' He'].
    exists e'. unfold solve. by rewrite He'. }
  split; [by eexists|].
  unfold generate_schedule, generate_try. rewrite Hi. simpl. by rewrite He'.
Qed.

(** ** [generate_schedule] always answers *)

Lemma builder_settles ss :
  (forall l b, lessonDuration ss = Some l -> breakDuration ss = Some b -> 1 <= l + b) ->
  exists fuel0 slots, forall fuel,
    (fuel0 <= fuel)%nat -> _generate_time_slots fuel ss = Ret slots.
Proof.
  intros Hgap. destruct (read_grid ss) as [g|e|] eqn:Hg.
  - destruct (read_grid_durations _ _ Hg) as [Hl Hb].
    destruct (loop_terminates g (Hgap _ _ Hl Hb) (grid_fuel g) (start_minutes g, []))
      as [r Hr]; [unfold grid_fuel; simpl; lia|].
    exists (grid_fuel g), (snd r). intros fuel Hfuel.
    eapply time_slots_of_loop; [done|]. by eapply while_more_fuel.
  - exists 0%nat, default_time_slots. intros fuel _.
    unfold _generate_time_slots, time_slots_try. by rewrite Hg.
  - by apply read_grid_not_timeout in Hg.
Qed.

Lemma init_same_slots fuel1 fuel2 data :
  (forall ss, school_settings data = Some ss ->
     _generate_time_slots fuel1 ss = _generate_time_slots fuel2 ss) ->
  __init__ fuel1 data = __init__ fuel2 data.
Proof.
  intros H. unfold __init__. destruct (school_settings data) as [ss|]; [|done].
  by rewrite (H ss eq_refl).
Qed.

Lemma class_name_of_not_timeout cs class_id dflt :
  class_name_of cs class_id dflt <> Timeout.
Proof.
  induction cs as [|cls cs IH]; simpl; [done|].
  destruct (c_id cls); simpl; [|done].
  destruct (String.eqb _ _); [by destruct (c_name cls) | done].
Qed.

Lemma entry_of_key_not_timeout sch k : entry_of_key sch k <> Timeout.
Proof.
  unfold entry_of_key. destruct k as [[[[[c s] t] r] d] ts]. intros H.
  repeat match type of H with
  | context [getitem ?o] => destruct o; simpl in H; [|done]
  end.
  destruct (negb _); [|done].
  pose proof (class_name_of_not_timeout (sch_classes sch) s0
                ("Class " +:+ str_of_nat c)%string).
  destruct (class_name_of _ _ _); simpl in H; done.
Qed.

Lemma extract_entries_not_timeout sch ks : forall acc w,
  fst (extract_entries sch ks acc w) <> Timeout.
Proof.
  induction ks as [|k ks IH]; intros acc w; simpl; [done|].
  destruct (value sch k); [|apply IH].
  pose proof (entry_of_key_not_timeout sch k).
  destruct (entry_of_key sch k); [apply IH | done..].
Qed.

(** The identifier of whatever the [try] block returns. *)
Lemma generate_try_ret_prefix fuel cp data w schedule w' :
  generate_try fuel cp data w = (Ret schedule, w') ->
  String.prefix "generated-schedule-" (scheduleId schedule) = true
  \/ String.prefix "mock-schedule-" (scheduleId schedule) = true.
Proof.
  unfold generate_try.
  destruct (__init__ fuel data ≫= solve cp) as [[[] sch']|e|]; [| |done..].
  - unfold extract_solution. destruct (negb (status_found (sch_status sch'))).
    + pose proof (mock_schedule_id sch' w) as Hid.
      destruct (_generate_mock_schedule sch' w) as [m w1]. simpl in Hid.
      intros H. inversion H; subst. right. rewrite Hid. apply prefix_append.
    + destruct (fresh_id "generated-schedule-" w) as [sid w0] eqn:Hid.
      destruct (extract_entries sch' (assignment_vars sch') [] w0) as [[es|?|] w1];
        [|done..].
      intros H. inversion H; subst. left. simpl.
      change sid with (fst (sid, w0)). rewrite <- Hid. apply prefix_append.
  - pose proof (mock_schedule_id sch' w) as Hid.
    destruct (_generate_mock_schedule sch' w) as [m w1]. simpl in Hid.
    intros H. inversion H; subst. right. rewrite Hid. apply prefix_append.
Qed.

Lemma generate_try_not_timeout fuel cp data w :
  __init__ fuel data <> Timeout -> fst (generate_try fuel cp data w) <> Timeout.
Proof.
  intros Hi. unfold generate_try.
  destruct (__init__ fuel data) as [sch|e|]; simpl; [|done..].
  pose proof (solve_not_timeout cp sch).
  destruct (solve cp sch) as [[[] sch']|e|]; [| |done..].
  - unfold extract_solution. destruct (negb _).
    + by destruct (_generate_mock_schedule sch' w).
    + destruct (fresh_id "generated-schedule-" w) as [sid w0].
      pose proof (extract_entries_not_timeout sch' (assignment_vars sch') [] w0).
      by destruct (extract_entries sch' (assignment_vars sch') [] w0) as [[?|?|] ?].
  - by destruct (_generate_mock_schedule sch' w).
Qed.

(** X7: for every request whose lesson and break together last at
    least a minute (when both durations are given), and for every solver
    and state of the random sources, [generate_schedule] returns a
    schedule object once the loop budget is large enough, the same one
    for every larger budget: it neither raises nor runs forever.  The
    identifier of that object starts with "generated-schedule-",
    "mock-schedule-" or "error-schedule-". *)
Theorem generate_schedule_always_answers cp data w :
  (forall ss l b,
     school_settings data = Some ss ->
     lessonDuration ss = Some l -> breakDuration ss = Some b -> 1 <= l + b) ->
  exists fuel0 schedule,
    (forall fuel, (fuel0 <= fuel)%nat ->
       generate_schedule fuel cp data w = Some schedule)
    /\ (String.prefix "generated-schedule-" (scheduleId schedule) = true
        \/ String.prefix "mock-schedule-" (scheduleId schedule) = true
        \/ String.prefix "error-schedule-" (scheduleId schedule) = true).
Proof.
  intros Hgap.
  assert (exists fuel0, __init__ fuel0 data <> Timeout
            /\ forall fuel, (fuel0 <= fuel)%nat ->
                 __init__ fuel data = __init__ fuel0 data) as (fuel0 & Hnt & Hsame).
  { destruct (school_settings data) as [ss|] eqn:Hss.
    - destruct (builder_settles ss (fun l b => Hgap ss l b eq_refl))
        as (fuel0 & slots & Hslots).
      exists fuel0. split.
      + unfold __init__. rewrite Hss. destruct (negb _); [done|].
        destruct (useRoomConstraints ss); simpl; [|done].
        destruct (workingDays ss); simpl; [|done].
        rewrite (Hslots fuel0) by lia. simpl.
        destruct (ids_of_outcome t_id (teachers data)) as [[? ->]| ->]; [simpl|done].
        destruct (ids_of_outcome c_id (classes data)) as [[? ->]| ->]; [simpl|done].
        destruct (ids_of_outcome s_id (subjects data)) as [[? ->]| ->]; [simpl|done].
        destruct (ids_of_outcome r_id (rooms data)) as [[? ->]| ->]; [simpl|done].
        done.
      + intros fuel Hfuel. apply init_same_slots. intros ss' Hss'.
        rewrite Hss in Hss'. inversion Hss'; subst ss'.
        by rewrite (Hslots fuel), (Hslots fuel0) by lia.
    - exists 0%nat. split; [unfold __init__; by rewrite Hss|].
      intros fuel _. unfold __init__. by rewrite Hss. }
  assert (forall fuel, (fuel0 <= fuel)%nat ->
            generate_schedule fuel cp data w = generate_schedule fuel0 cp data w)
    as Hgen.
  { intros fuel Hfuel. unfold generate_schedule, generate_try.
    by rewrite (Hsame fuel Hfuel). }
  pose proof (generate_try_not_timeout fuel0 cp data w Hnt) as Hnt'.
  pose proof (generate_try_ret_prefix fuel0 cp data w) as Hpre.
  unfold generate_schedule in *.
  destruct (generate_try fuel0 cp data w) as [[schedule|e|] w'] eqn:Htry; [| |done].
  - exists fuel0, schedule. split; [intros; by rewrite Hgen|].
    destruct (Hpre schedule w' eq_refl); auto.
  - eexists fuel0, _. split; [intros; by rewrite Hgen|].
    right. right. apply prefix_append.
Qed.

(** ** The validator, said declaratively *)

Lemma when_nil cond i : when cond i = [] <-> cond = false.
Proof. unfold when. by destruct cond. Qed.

Lemma concat_imap_nil {A B} (f : nat -> A -> list B) (l : list A) :
  concat (imap f l) = [] <-> forall i x, l !! i = Some x -> f i x = [].
Proof.
  revert f. induction l as [|y l IH]; intros f; simpl.
  - split; [|done]. intros _ i x Hx. by rewrite lookup_nil in Hx.
  - rewrite app_nil, IH. split.
    + intros [H0 HS] [|i] x Hx; simpl in Hx; [by inversion Hx; subst | by apply HS].
    + intros H. split; [by apply (H 0%nat) | intros i x Hx; by apply (H (S i))].
Qed.

Lemma list_bind_nil {A B} (f : A -> list B) (l : list A) :
  l ≫= f = [] <-> Forall (fun x => f x = []) l.
Proof.
  induction l as [|x l IH]; simpl; [done|].
  change ((x :: l) ≫= f) with (f x ++ (l ≫= f)). rewrite app_nil, IH.
  split; [intros []; by constructor | by inversion 1].
Qed.

Lemma falsy_str_false o : falsy_str o = false <-> filled o.
Proof.
  unfold falsy_str, truthy_str, filled. destruct o as [s|]; simpl.
  - destruct (String.eqb_spec s ""); split; try done.
    + intros (s' & Hs' & Hne). by inversion Hs'; subst.
    + intros _. by exists s.
  - split; [done | by intros (? & ? & _)].
Qed.

Lemma falsy_int_false o : falsy_int o = false <-> exists z, o = Some z /\ z <> 0.
Proof.
  unfold falsy_int. destruct o as [z|]; simpl.
  - destruct (Z.eqb_spec z 0); split; try done.
    + intros (z' & Hz' & Hne). by inversion Hz'; subst.
    + intros _. by exists z.
  - split; [done | by intros (? & ? & _)].
Qed.

Lemma falsy_list_false {A} (l : list A) : falsy_list l = false <-> l <> [].
Proof. by destruct l. Qed.

Lemma known_subject_ids_spec data subj_id :
  subj_id ∈ known_subject_ids (subjects data) <-> in_catalogue data subj_id.
Proof.
  unfold known_subject_ids, in_catalogue.
  rewrite elem_of_list_to_set, list_elem_of_omap. unfold truthy_str. split.
  - intros (subject & Hin & Hid). exists subject. split; [done|].
    destruct (s_id subject) as [i|]; [|done].
    destruct (String.eqb_spec i ""); [done|]. by inversion Hid; subst.
  - intros (subject & Hin & Hid & Hne). exists subject. split; [done|].
    rewrite Hid. by destruct (String.eqb_spec subj_id "").
Qed.

Lemma references_nil data name xs (mk : string -> string -> issue) :
  (subj_id ← xs;
   when (bool_decide (subj_id ∉ known_subject_ids (subjects data))) (mk name subj_id))
  = [] <-> Forall (in_catalogue data) xs.
Proof.
  rewrite list_bind_nil. apply Forall_proper; [|done]. intros subj_id.
  rewrite when_nil, bool_decide_eq_false, <- known_subject_ids_spec.
  split; [apply dec_stable | by intros ? ?].
Qed.

Lemma school_hours_issues_nil ss :
  school_hours_issues ss = [] <->
  exists s e,
    time_to_minutes (default "08:00"%string (startTime ss)) = Ret s
    /\ time_to_minutes (default "15:00"%string (endTime ss)) = Ret e /\ s < e.
Proof.
  unfold school_hours_issues.
  destruct (time_to_minutes (default "08:00"%string (startTime ss))) as [s|?|];
    simpl; [|split; [done | by intros (? & ? & ? & _)]..].
  destruct (time_to_minutes (default "15:00"%string (endTime ss))) as [e|?|];
    simpl; [|split; [done | by intros (? & ? & _ & ? & _)]..].
  rewrite when_nil, Z.leb_gt. split.
  - intros. by exists s, e.
  - intros (s' & e' & Hs & He & ?). by inversion Hs; inversion He; subst.
Qed.

Lemma settings_issues_nil ss : settings_issues ss = [] <-> settings_in_order ss.
Proof.
  unfold settings_issues, settings_in_order.
  rewrite !app_nil, !when_nil, !falsy_str_false, falsy_int_false,
    concat_imap_nil, school_hours_issues_nil.
  split.
  - intros ((st & Hst & Hst0) & (et & Het & Het0) & Hl & Hmax & Hfp & s & e & Hs & He & Hlt).
    rewrite Hst, Het in *. simpl in *. split_and!; [done| | |by exists st, et, s, e].
    + intros m Hm. rewrite Hm in Hmax. by apply Z.ltb_ge.
    + apply Forall_lookup. intros i p Hp. specialize (Hfp i p Hp).
      unfold free_period_issues in Hfp.
      rewrite !app_nil, !when_nil, !falsy_str_false, !falsy_list_false in Hfp.
      tauto.
  - intros (Hl & Hmax & Hfp & st & et & s & e & Hst & Hst0 & Het & Het0 & Hs & He & Hlt).
    rewrite Hst, Het. simpl. split_and!; [by exists st | by exists et | done | | |].
    + destruct (maxSubjectsPerDay ss) as [[m|]|]; [|done..]. apply Z.ltb_ge. by apply Hmax.
    + intros i p Hp. rewrite Forall_lookup in Hfp. specialize (Hfp i p Hp).
      unfold free_period_issues.
      rewrite !app_nil, !when_nil, !falsy_str_false, !falsy_list_false. tauto.
    + by exists s, e.
Qed.

(** X8: the validator reports no issue exactly for the requests that
    are in order: settings present with a start, an end after the start,
    a non-zero lesson duration, no negative [maxSubjectsPerDay] and
    complete free periods; at least one teacher, class and subject;
    every teacher, class and subject with a non-empty id; every teacher
    and class with a non-empty subject list that names catalogue
    subjects only; every subject with non-zero [hoursPerWeek]; and at
    least as many rooms as classes.  The other required settings, the
    room ids and the break times are not looked at. *)
Theorem validator_accepts_iff_in_order data :
  validation_issues data = [] <-> in_order data.
Proof.
  unfold validation_issues, in_order.
  rewrite !app_nil, !when_nil, !concat_imap_nil, !falsy_list_false.
  rewrite bool_decide_eq_false, Nat.ltb_ge.
  split.
  - intros (Hss & Ht & Hc & Hs & Hrooms & Hset & Hti & Hci & Hsi & Hcr & Htr & Hlen).
    destruct (school_settings data) as [ss|] eqn:Ess; [|done].
    split_and!; try done.
    + exists ss. split; [done|]. by apply settings_issues_nil.
    + apply Forall_lookup. intros i t Hit.
      specialize (Hti i t Hit). specialize (Htr i t Hit).
      unfold teacher_issues in Hti.
      rewrite !app_nil, !when_nil, falsy_str_false, falsy_list_false in Hti.
      unfold teacher_reference_issues in Htr. apply references_nil in Htr. tauto.
    + apply Forall_lookup. intros i c Hic.
      specialize (Hci i c Hic). specialize (Hcr i c Hic).
      unfold class_issues in Hci.
      rewrite !app_nil, !when_nil, falsy_str_false, falsy_list_false in Hci.
      unfold class_reference_issues in Hcr. apply references_nil in Hcr. tauto.
    + apply Forall_lookup. intros i s His. specialize (Hsi i s His).
      unfold subject_issues in Hsi.
      by rewrite !app_nil, !when_nil, falsy_str_false, falsy_int_false in Hsi.
  - intros ((ss & Ess & Hset) & Ht & Hc & Hs & Hti & Hci & Hsi & Hlen).
    rewrite Ess. rewrite Forall_lookup in Hti. rewrite Forall_lookup in Hci.
    rewrite Forall_lookup in Hsi.
    split_and!; try done.
    + apply andb_false_iff. right. apply falsy_list_false.
      intros Hr. rewrite Hr in Hlen. destruct (classes data); [done | simpl in Hlen; lia].
    + by apply settings_issues_nil.
    + intros i t Hit. destruct (Hti i t Hit) as (? & ? & ?). unfold teacher_issues.
      by rewrite !app_nil, !when_nil, falsy_str_false, falsy_list_false.
    + intros i c Hic. destruct (Hci i c Hic) as (? & ? & ?). unfold class_issues.
      by rewrite !app_nil, !when_nil, falsy_str_false, falsy_list_false.
    + intros i s His. specialize (Hsi i s His). unfold subject_issues.
      by rewrite !app_nil, !when_nil, falsy_str_false, falsy_int_false.
    + intros i c Hic. destruct (Hci i c Hic) as (? & ? & ?).
      unfold class_reference_issues. by apply references_nil.
    + intros i t Hit. destruct (Hti i t Hit) as (? & ? & ?).
      unfold teacher_reference_issues. by apply references_nil.
Qed.

(** ** The entries of a generated schedule *)

Lemma extract_entries_keys sch ks : forall acc w es w',
  extract_entries sch ks acc w = (Ret es, w') ->
  exists new,
    es = acc ++ new
    /\ Forall2 (written_for sch) (filter (fun k => value sch k = true) ks) new.
Proof.
  induction ks as [|k ks IH]; intros acc w es w' H; simpl in H.
  - inversion H; subst. exists []. by rewrite app_nil_r.
  - rewrite filter_cons. destruct (value sch k) eqn:Hv.
    + destruct (entry_of_key sch k) as [mk| |] eqn:Hk; [|done..].
      apply IH in H as (new & -> & Hnew).
      exists (mk (uuids w (uuid_count w)) :: new). rewrite <- app_assoc.
      split; [done|]. rewrite decide_True by done.
      constructor; [|done]. exists mk. split; [done|].
      unfold entry_of_key in Hk. destruct k as [[[[[c s] t] r] d] ts].
      repeat match type of Hk with
      | context [getitem ?o] => destruct o; simpl in Hk; [|done]
      end.
      destruct (negb _).
      * destruct (class_name_of _ _ _); simpl in Hk; [|done..].
        unfold mret, outcome_ret in Hk. by inversion Hk.
      * unfold mret, outcome_ret in Hk. by inversion Hk.
    + rewrite decide_False by done. by apply IH in H.
Qed.

(** The fields of an entry, read off its key. *)
Lemma written_for_fields sch c s t r d ts e :
  written_for sch (c, s, t, r, d, ts) e ->
  class_ids sch !! c = e_classId e
  /\ subject_ids sch !! s = Some (e_subjectId e)
  /\ teacher_ids sch !! t = e_teacherId e
  /\ days sch !! d = Some (e_day e)
  /\ time_slots sch !! ts = Some (e_startTime e, e_endTime e)
  /\ (exists room_id, room_ids sch !! r = Some room_id
        /\ if use_room_constraints sch then e_roomId e = room_id
           else Some (e_roomId e) = e_classId e).
Proof.
  intros (mk & Hk & He). unfold entry_of_key in Hk.
  destruct (class_ids sch !! c) as [cid|]; simpl in Hk; [|done].
  destruct (subject_ids sch !! s) as [sid|]; simpl in Hk; [|done].
  destruct (teacher_ids sch !! t) as [tid|]; simpl in Hk; [|done].
  destruct (room_ids sch !! r) as [rid|]; simpl in Hk; [|done].
  destruct (days sch !! d) as [day|]; simpl in Hk; [|done].
  destruct (time_slots sch !! ts) as [[a b]|]; simpl in Hk; [|done].
  destruct (use_room_constraints sch); simpl in Hk.
  - unfold mret, outcome_ret in Hk. inversion Hk; subst mk. rewrite He. simpl.
    split_and!; try done. by exists rid.
  - destruct (class_name_of _ _ _); simpl in Hk; [|done..].
    unfold mret, outcome_ret in Hk. inversion Hk; subst mk. rewrite He. simpl.
    split_and!; try done. by exists rid.
Qed.

(** Whenever the solver has found a solution, the entries returned are
    written for chosen variables, each variable once; an exception
    during the extraction leaves no entry. *)
Lemma generated_entries_keys fuel cp data w sch sch' schedule :
  __init__ fuel data = Ret sch ->
  solve cp sch = Ret (true, sch') ->
  generate_schedule fuel cp data w = Some schedule ->
  exists ks, keys_of_entries sch' ks (entries schedule).
Proof.
  intros Hi Hs Hgen.
  destruct (solve_inv _ _ _ _ Hs) as (_ & Hsch' & Hfound).
  assert (NoDup (assignment_vars sch')) as Hnd.
  { rewrite Hsch'. simpl. apply create_variables_spec.
    by apply init_inv in Hi as (? & _ & _ & _ & _ & _ & _ & _ & _ & _ & _ & _
                                  & _ & _ & _ & _ & ?). }
  unfold generate_schedule, generate_try in Hgen. rewrite Hi in Hgen. simpl in Hgen.
  rewrite Hs in Hgen. unfold extract_solution in Hgen.
  rewrite <- Hfound in Hgen. simpl in Hgen.
  destruct (extract_entries sch' (assignment_vars sch') [] _) as [[es|e|] w1] eqn:Hex;
    [| |done].
  - inversion Hgen; subst schedule. simpl.
    apply extract_entries_keys in Hex as (new & -> & Hnew). simpl.
    exists (filter (fun k => value sch' k = true) (assignment_vars sch')).
    split_and!; [by apply NoDup_filter | | done].
    intros k Hk. apply list_elem_of_filter in Hk. tauto.
  - inversion Hgen; subst schedule. simpl. exists [].
    split_and!; [apply NoDup_nil_2 | | constructor].
    intros k Hk. by apply elem_of_nil in Hk.
Qed.

(** X9: when the solver has found a solution and the answer is not the
    error schedule, the entries of the returned schedule are, in the
    order of the variables, one entry for each chosen variable: no
    chosen lesson is dropped and none is written twice. *)
Theorem generated_schedule_lists_every_chosen_variable
    fuel cp data w sch sch' schedule :
  __init__ fuel data = Ret sch ->
  solve cp sch = Ret (true, sch') ->
  generate_schedule fuel cp data w = Some schedule ->
  String.prefix "error-schedule-" (scheduleId schedule) = false ->
  Forall2 (written_for sch')
    (filter (fun k => value sch' k = true) (assignment_vars sch'))
    (entries schedule).
Proof.
  intros Hi Hs Hgen Hkind.
  destruct (solve_inv _ _ _ _ Hs) as (_ & _ & Hfound).
  unfold generate_schedule, generate_try in Hgen. rewrite Hi in Hgen. simpl in Hgen.
  rewrite Hs in Hgen. unfold extract_solution in Hgen.
  rewrite <- Hfound in Hgen. simpl in Hgen.
  destruct (extract_entries sch' (assignment_vars sch') [] _) as [[es|e|] w1] eqn:Hex;
    [| |done].
  - inversion Hgen; subst schedule. simpl.
    by apply extract_entries_keys in Hex as (new & -> & Hnew).
  - inversion Hgen; subst schedule.
    pose proof (fresh_id_prefix "error-schedule-" w1) as Hp.
    simpl in Hkind, Hp. by rewrite Hp in Hkind.
Qed.

Lemma valid_teachers_teaches s_id ts : forall i t,
  t ∈ valid_teachers i s_id ts ->
  exists teacher, ts !! (t - i)%nat = Some teacher /\ (i <= t)%nat
                  /\ s_id ∈ t_subjects teacher.
Proof.
  induction ts as [|teacher ts IH]; simpl; intros i t H; [by apply elem_of_nil in H|].
  destruct (decide (s_id ∈ t_subjects teacher)) as [Hs|Hs].
  - apply elem_of_cons in H as [->|H].
    + exists teacher. rewrite Nat.sub_diag. by split_and!.
    + apply IH in H as (teacher' & Hl & Hle & Ht). exists teacher'.
      replace (t - i)%nat with (S (t - S i)) by lia. split_and!; [done | lia | done].
  - apply IH in H as (teacher' & Hl & Hle & Ht). exists teacher'.
    replace (t - i)%nat with (S (t - S i)) by lia. split_and!; [done | lia | done].
Qed.

(** What is known of a variable of the model, whatever the rooms. *)
Lemma variable_origin fuel data sch c s t r d ts :
  __init__ fuel data = Ret sch ->
  (c, s, t, r, d, ts) ∈ _create_variables sch ->
  exists class_info sid teacher subject,
    classes data !! c = Some class_info
    /\ sid ∈ c_requiredSubjects class_info
    /\ subject_indices sch !! sid = Some s
    /\ subject_ids sch !! s = Some sid
    /\ subjects data !! s = Some subject /\ s_id subject = Some sid
    /\ teachers data !! t = Some teacher /\ sid ∈ t_subjects teacher
    /\ (if use_room_constraints sch then (r < length (rooms data))%nat else r = 0%nat)
    /\ (d < length (days sch))%nat /\ (ts < length (time_slots sch))%nat.
Proof.
  intros Hi Hk.
  destruct (init_inv _ _ _ Hi) as (ss & _ & _ & _ & _ & _ & _ & Ht & Hc & Hs & Hr
                                   & _ & _ & Is & _ & Hidx & Hvars).
  apply (create_variables_spec sch Hvars) in Hk
    as (i & class_info & sid & Hcls & Hreq & s' & t' & r' & d' & ts' & Heq & Hsub
        & Hvalid & Hroom & Hd & Hts).
  inversion Heq; subst s' t' r' d' ts'. simpl in *. subst c.
  rewrite Hc in Hcls. rewrite Ht in Hvalid. rewrite Hr in Hroom.
  apply valid_teachers_teaches in Hvalid as (teacher & Hteacher & _ & Hteach).
  rewrite Nat.sub_0_r in Hteacher.
  assert (subject_ids sch !! s = Some sid) as Hsid
    by (rewrite Hidx in Hsub; by apply subject_index_sound).
  pose proof (ids_of_lookup _ _ _ Is s) as Hlook. rewrite Hsid in Hlook.
  destruct (subjects data !! s) as [subject|] eqn:Hsubj; [|done].
  exists class_info, sid, teacher, subject. by split_and!.
Qed.

(** X10: whatever valuation a solver returns with an OPTIMAL or FEASIBLE
    status, every entry of the returned schedule is a lesson of the
    request: on a working day, in a slot of the grid, for a class that
    requires the subject, with a teacher whose subjects contain it, the
    subject being in the catalogue. *)
Theorem generated_entries_are_lessons fuel cp data w sch sch' schedule e :
  __init__ fuel data = Ret sch ->
  solve cp sch = Ret (true, sch') ->
  generate_schedule fuel cp data w = Some schedule ->
  e ∈ entries schedule ->
  lesson_of_request data sch e.
Proof.
  intros Hi Hs Hgen He.
  destruct (generated_entries_keys _ _ _ _ _ _ _ Hi Hs Hgen) as (ks & _ & Hks & Hwr).
  destruct (solve_inv _ _ _ _ Hs) as (_ & Hsch' & _).
  apply list_elem_of_lookup in He as [i He].
  destruct (Forall2_lookup_r _ _ _ _ _ Hwr He) as (k & Hk & Hw).
  destruct (Hks k (list_elem_of_lookup_2 _ _ _ Hk)) as [Hvar _].
  destruct k as [[[[[c s] t] r] d] ts].
  rewrite Hsch' in Hvar. simpl in Hvar.
  destruct (variable_origin _ _ _ _ _ _ _ _ _ Hi Hvar)
    as (class_info & sid & teacher & subject & Hcls & Hreq & _ & Hsid & Hsubj & Hsubjid
        & Hteacher & Hteach & Hr & _).
  apply written_for_fields in Hw as (Hc & Hsu & Ht & Hd & Hts & rid & Hrid & Hroom).
  rewrite Hsch' in Hc, Hsu, Ht, Hd, Hts, Hrid, Hroom. simpl in *.
  destruct (init_inv _ _ _ Hi) as (ss & _ & _ & _ & _ & _ & _ & _ & _ & _ & _
                                   & It & Ic & _ & Ir & _).
  rewrite Hsid in Hsu. inversion Hsu; subst sid.
  unfold lesson_of_request. split_and!.
  - by eapply list_elem_of_lookup_2.
  - by eapply list_elem_of_lookup_2.
  - exists class_info. split_and!; [by eapply list_elem_of_lookup_2 | | done].
    by rewrite <- Hc, (ids_of_lookup _ _ _ Ic), Hcls.
  - exists teacher. split_and!; [by eapply list_elem_of_lookup_2 | | done].
    by rewrite <- Ht, (ids_of_lookup _ _ _ It), Hteacher.
  - exists subject. split; [by eapply list_elem_of_lookup_2 | done].
  - destruct (use_room_constraints sch); [|done]. subst rid.
    pose proof (ids_of_lookup _ _ _ Ir r) as Hlook. rewrite Hrid in Hlook.
    destruct (rooms data !! r) as [room|] eqn:Hroom; [|done].
    exists room. split; [by eapply list_elem_of_lookup_2 | done].
Qed.

(** ** Which decision variables exist *)

Lemma index_dict_last ids : forall i (d : gmap string nat) x n,
  index_dict i ids d !! x = Some n <->
  ((i <= n)%nat /\ last_index ids x (n - i))
  \/ (d !! x = Some n /\ x ∉ ids).
Proof.
  induction ids as [|y ids IH]; simpl; intros i d x n.
  { split; [intros H; right; split; [done | apply not_elem_of_nil]|].
    intros [[_ [H _]]|[H _]]; [by rewrite lookup_nil in H | done]. }
  rewrite IH. unfold last_index. split.
  - intros [(Hle & Hl & Hlast)|[Hd Hnotin]].
    + left. split; [lia|]. replace (n - i)%nat with (S (n - S i)) by lia.
      split; [done|]. intros m Hm. destruct m as [|m]; [lia|]. simpl.
      apply Hlast. lia.
    + destruct (decide (y = x)) as [->|Hne].
      * rewrite lookup_insert_eq in Hd. inversion Hd; subst n. left.
        split; [lia|]. rewrite Nat.sub_diag. split; [done|].
        intros m Hm. destruct m as [|m]; [lia|]. simpl. intros Hx.
        apply Hnotin. by eapply list_elem_of_lookup_2.
      * rewrite lookup_insert_ne in Hd by done. right. split; [done|].
        intros Hin. apply elem_of_cons in Hin as [->|Hin]; done.
  - intros [(Hle & Hl & Hlast)|[Hd Hnotin]].
    + destruct (n - i)%nat as [|j] eqn:Hj.
      * simpl in Hl. inversion Hl; subst y. right.
        assert (n = i) as -> by lia. rewrite lookup_insert_eq. split; [done|].
        intros Hin. apply list_elem_of_lookup in Hin as [m Hm].
        apply (Hlast (S m)); [lia | done].
      * simpl in Hl. left. split; [lia|]. replace (n - S i)%nat with j by lia.
        split; [done|]. intros m Hm. apply (Hlast (S m)). lia.
    + right. apply not_elem_of_cons in Hnotin as [Hne Hnotin].
      rewrite lookup_insert_ne by done. done.
Qed.

Lemma subject_index_last (sids : list string) x n :
  index_dict 0 sids ∅ !! x = Some n <-> last_index sids x n.
Proof.
  rewrite index_dict_last. rewrite Nat.sub_0_r. split.
  - intros [[_ H]|[H _]]; [done | by rewrite lookup_empty in H].
  - intros H. left. split; [lia | done].
Qed.

Lemma valid_teachers_iff s_id ts : forall i t,
  t ∈ valid_teachers i s_id ts <->
  (i <= t)%nat
  /\ exists teacher, ts !! (t - i)%nat = Some teacher /\ s_id ∈ t_subjects teacher.
Proof.
  intros i t. split.
  { intros H. apply valid_teachers_teaches in H as (teacher & ? & ? & ?). eauto. }
  revert i t. induction ts as [|teacher0 ts IH]; intros i t (Hle & teacher & Hl & Hs);
    [by rewrite lookup_nil in Hl|].
  simpl. destruct (t - i)%nat as [|j] eqn:Hj.
  - simpl in Hl. inversion Hl; subst teacher0. rewrite decide_True by done.
    assert (t = i) as -> by lia. apply list_elem_of_here.
  - simpl in Hl.
    assert (t ∈ valid_teachers (S i) s_id ts) as Hin.
    { apply IH. split; [lia|]. exists teacher. by replace (t - S i)%nat with j by lia. }
    case_decide; [by apply elem_of_cons; right | done].
Qed.

(** A key of the loops of [_create_variables] is a possible lesson of
    the request, and conversely. *)
Lemma possible_lesson_key fuel data sch k :
  __init__ fuel data = Ret sch ->
  key_of_classes sch 0 (sch_classes sch) k <-> possible_lesson data sch k.
Proof.
  intros Hi.
  destruct (init_inv _ _ _ Hi) as (ss & _ & _ & _ & _ & _ & _ & Et & Ec & _ & Er
                                   & _ & _ & _ & _ & Hidx & _).
  destruct k as [[[[[c s] t] r] d] ts].
  unfold key_of_classes, key_of_pair, possible_lesson. rewrite Ec, Et, Er, Hidx.
  split.
  - intros (i & class_info & sid & Hcls & Hreq & s' & t' & r' & d' & ts' & Heq & Hsub
            & Hvalid & Hroom & Hd & Hts).
    inversion Heq; subst. simpl in *.
    apply valid_teachers_iff in Hvalid as (_ & teacher & Hteacher & Hteach).
    rewrite Nat.sub_0_r in Hteacher. apply subject_index_last in Hsub.
    exists class_info, sid, teacher. by split_and!.
  - intros (class_info & sid & teacher & Hcls & Hreq & Hlast & Hteacher & Hteach
            & Hroom & Hd & Hts).
    exists c, class_info, sid. split_and!; [done..|].
    exists s, t, r, d, ts. split_and!; try done.
    + by apply subject_index_last.
    + apply valid_teachers_iff. split; [lia|]. exists teacher.
      by rewrite Nat.sub_0_r.
Qed.

(** X21: the decision variables that [_create_variables] makes for a
    constructed scheduler are exactly the possible lessons of the
    request, each once: a class, a subject it requires, a teacher whose
    subjects contain that subject, a room (room 0 alone when room
    constraints are off), a working day and a slot.  When two catalogue
    subjects carry the same id, variables exist for the last one
    only. *)
Theorem variables_are_the_possible_lessons fuel data sch :
  __init__ fuel data = Ret sch ->
  NoDup (_create_variables sch)
  /\ forall k, k ∈ _create_variables sch <-> possible_lesson data sch k.
Proof.
  intros Hi.
  destruct (init_inv _ _ _ Hi) as (ss & _ & _ & _ & _ & _ & _ & _ & _ & _ & _
                                   & _ & _ & _ & _ & _ & Hvars).
  destruct (create_variables_spec sch Hvars) as [Hnd Hin].
  split; [done|]. intros k. rewrite Hin. by apply (possible_lesson_key fuel).
Qed.

(** ** At most one lesson at a time *)

Lemma gather_elem vars n1 n2 n3 mk k :
  k ∈ gather vars n1 n2 n3 mk <->
  k ∈ vars /\ exists a b c,
    (a < n1)%nat /\ (b < n2)%nat /\ (c < n3)%nat /\ k = mk a b c.
Proof.
  unfold gather. split.
  - intros H. elem_of_loops H. subst k.
    repeat match goal with H : _ ∈ seq _ _ |- _ => apply elem_of_seq in H end.
    split; [done|]. eexists _, _, _. split_and!; [| | |reflexivity]; lia.
  - intros (Hk & a & b & c & ? & ? & ? & ->).
    apply list_elem_of_bind. exists a. split; [|apply elem_of_seq; lia].
    apply list_elem_of_bind. exists b. split; [|apply elem_of_seq; lia].
    apply list_elem_of_bind. exists c. split; [|apply elem_of_seq; lia].
    cbv beta. rewrite decide_True by done. apply list_elem_of_here.
Qed.

Lemma two_members_length {A} (l : list A) x y :
  x ∈ l -> y ∈ l -> x <> y -> (2 <= length l)%nat.
Proof.
  intros Hx Hy Hxy. apply elem_of_Permutation in Hx as [l' Hl].
  rewrite Hl in Hy. apply elem_of_cons in Hy as [->|Hy]; [done|].
  rewrite Hl. destruct l'; [by apply elem_of_nil in Hy | simpl; lia].
Qed.

Lemma sum_vars_two val ks k1 k2 :
  k1 ∈ ks -> k2 ∈ ks -> k1 <> k2 -> val k1 = true -> val k2 = true ->
  2 <= sum_vars val ks.
Proof.
  intros H1 H2 Hne V1 V2. rewrite sum_vars_count.
  assert (2 <= length (filter (fun k => val k = true) ks))%nat; [|lia].
  apply (two_members_length _ k1 k2); [| |done]; by apply list_elem_of_filter.
Qed.

Lemma keeps_bind {A} val (l : list A) (f : A -> list bound) x :
  keeps val (l ≫= f) -> x ∈ l -> keeps val (f x).
Proof.
  unfold keeps. induction l as [|y l IH]; intros H Hx; [by apply elem_of_nil in Hx|].
  change ((y :: l) ≫= f) with (f y ++ (l ≫= f)) in H.
  rewrite forallb_app in H. apply andb_true_iff in H as [Hy Hl].
  apply elem_of_cons in Hx as [->|Hx]; [done | by apply IH].
Qed.

Lemma at_most_one_chosen val group k1 k2 :
  k1 ∈ group -> k2 ∈ group -> val k1 = true -> val k2 = true ->
  keeps val (at_most_one group) -> k1 = k2.
Proof.
  intros H1 H2 V1 V2. unfold keeps, at_most_one.
  destruct (decide (k1 = k2)) as [|Hne]; [done|].
  case_bool_decide as Hnil; [subst group; by apply elem_of_nil in H1|].
  simpl. rewrite andb_true_r. intros Hle. apply Z.leb_le in Hle.
  pose proof (sum_vars_two val group k1 k2 H1 H2 Hne V1 V2). lia.
Qed.

Lemma default_starts_distinct : NoDup (fst <$> default_time_slots).
Proof. apply (bool_decide_unpack _). by vm_compute. Qed.

(** The slots of a constructed scheduler start at different times. *)
Lemma init_starts_distinct fuel data sch :
  __init__ fuel data = Ret sch ->
  (forall l b, lessonDuration (sch_settings sch) = Some l ->
               breakDuration (sch_settings sch) = Some b -> 1 <= l + b) ->
  NoDup (fst <$> time_slots sch).
Proof.
  intros Hi Hgap.
  destruct (init_inv _ _ _ Hi) as (ss & _ & _ & Hss & _ & _ & Hslots & _).
  rewrite Hss in Hgap.
  destruct (read_grid ss) as [g|e|] eqn:Hg.
  - destruct (read_grid_durations _ _ Hg) as [Hl Hb].
    destruct (time_slots_loop_marks _ _ _ _ Hg (Hgap _ _ Hl Hb) Hslots)
      as (marks & Hmarks & Hsp & _).
    rewrite Hmarks. exact (marks_starts_distinct g _ marks (Hgap _ _ Hl Hb) Hsp).
  - unfold _generate_time_slots, time_slots_try in Hslots. rewrite Hg in Hslots.
    simpl in Hslots. inversion Hslots. apply default_starts_distinct.
  - by apply read_grid_not_timeout in Hg.
Qed.

Lemma entries_apart_keys sch ks es i j e1 e2 :
  keys_of_entries sch ks es ->
  i <> j -> es !! i = Some e1 -> es !! j = Some e2 ->
  exists k1 k2,
    k1 <> k2
    /\ k1 ∈ assignment_vars sch /\ k2 ∈ assignment_vars sch
    /\ value sch k1 = true /\ value sch k2 = true
    /\ written_for sch k1 e1 /\ written_for sch k2 e2.
Proof.
  intros (Hnd & Hks & Hwr) Hij H1 H2.
  destruct (Forall2_lookup_r _ _ _ _ _ Hwr H1) as (k1 & Hk1 & Hw1).
  destruct (Forall2_lookup_r _ _ _ _ _ Hwr H2) as (k2 & Hk2 & Hw2).
  exists k1, k2.
  destruct (Hks k1 (list_elem_of_lookup_2 _ _ _ Hk1)) as [? ?].
  destruct (Hks k2 (list_elem_of_lookup_2 _ _ _ Hk2)) as [? ?].
  split_and!; try done.
  intros ->. apply Hij. exact (NoDup_lookup _ _ _ _ Hnd Hk1 Hk2).
Qed.

Lemma variable_in_range fuel data sch c s t r d ts :
  __init__ fuel data = Ret sch ->
  rooms data <> [] ->
  (c, s, t, r, d, ts) ∈ _create_variables sch ->
  (c < length (sch_classes sch))%nat /\ (s < length (sch_subjects sch))%nat
  /\ (t < length (sch_teachers sch))%nat /\ (r < length (sch_rooms sch))%nat
  /\ (d < length (days sch))%nat /\ (ts < length (time_slots sch))%nat.
Proof.
  intros Hi Hrooms Hk.
  destruct (variable_origin _ _ _ _ _ _ _ _ _ Hi Hk)
    as (class_info & sid & teacher & subject & Hcls & _ & _ & _ & Hsubj & _
        & Hteacher & _ & Hr & Hd & Hts).
  destruct (init_inv _ _ _ Hi) as (ss & _ & _ & _ & _ & _ & _ & Et & Ec & Es & Er & _).
  rewrite Et, Ec, Es, Er.
  apply lookup_lt_Some in Hcls, Hsubj, Hteacher.
  split_and!; try done.
  destruct (use_room_constraints sch); [done|]. subst r.
  destruct (rooms data); [done | simpl; lia].
Qed.

Lemma lookup_index_eq {A} (l : list A) i j (o : option A) :
  NoDup l -> (i < length l)%nat -> l !! i = o -> l !! j = o -> i = j.
Proof.
  intros Hnd Hi H1 H2. apply lookup_lt_is_Some in Hi as [x Hx].
  rewrite Hx in H1. subst o. by eapply NoDup_lookup.
Qed.

Lemma slot_index_eq (slots : list slot) i j a b1 b2 :
  NoDup (fst <$> slots) ->
  slots !! i = Some (a, b1) -> slots !! j = Some (a, b2) -> i = j.
Proof.
  intros Hnd H1 H2. apply (NoDup_lookup _ _ _ a Hnd); rewrite list_lookup_fmap.
  - unfold slot in *. by rewrite H1.
  - unfold slot in *. by rewrite H2.
Qed.

(** Two different entries of a generated schedule at the same day and
    start are written for two different chosen variables with the same
    day index and slot index. *)
Lemma same_time_keys fuel cp data w sch sch' schedule i j e1 e2 :
  __init__ fuel data = Ret sch ->
  solve cp sch = Ret (true, sch') ->
  generate_schedule fuel cp data w = Some schedule ->
  told_apart data sch ->
  i <> j -> entries schedule !! i = Some e1 -> entries schedule !! j = Some e2 ->
  e_day e1 = e_day e2 ->
  exists c1 s1 t1 r1 c2 s2 t2 r2 d ts1 ts2,
    (c1, s1, t1, r1, d, ts1) <> (c2, s2, t2, r2, d, ts2)
    /\ (e_startTime e1 = e_startTime e2 -> ts1 = ts2)
    /\ Forall (fun k => k ∈ assignment_vars sch' /\ value sch' k = true)
         [(c1, s1, t1, r1, d, ts1); (c2, s2, t2, r2, d, ts2)]
    /\ written_for sch' (c1, s1, t1, r1, d, ts1) e1
    /\ written_for sch' (c2, s2, t2, r2, d, ts2) e2
    /\ (c1 < length (sch_classes sch'))%nat /\ (c2 < length (sch_classes sch'))%nat
    /\ (s1 < length (sch_subjects sch'))%nat /\ (s2 < length (sch_subjects sch'))%nat
    /\ (t1 < length (sch_teachers sch'))%nat /\ (t2 < length (sch_teachers sch'))%nat
    /\ (r1 < length (sch_rooms sch'))%nat /\ (r2 < length (sch_rooms sch'))%nat
    /\ (d < length (days sch'))%nat
    /\ (ts1 < length (time_slots sch'))%nat /\ (ts2 < length (time_slots sch'))%nat.
Proof.
  intros Hi Hs Hgen (Hrooms & Hdays & Hgap) Hij H1 H2 Hday.
  destruct (generated_entries_keys _ _ _ _ _ _ _ Hi Hs Hgen) as (ks & Hks).
  destruct (entries_apart_keys _ _ _ _ _ _ _ Hks Hij H1 H2)
    as (k1 & k2 & Hne & Hv1 & Hv2 & Hval1 & Hval2 & Hw1 & Hw2).
  destruct (solve_inv _ _ _ _ Hs) as (_ & Hsch' & _).
  destruct k1 as [[[[[c1 s1] t1] r1] d1] ts1], k2 as [[[[[c2 s2] t2] r2] d2] ts2].
  pose proof Hv1 as Hv1'. pose proof Hv2 as Hv2'.
  rewrite Hsch' in Hv1', Hv2'. simpl in Hv1', Hv2'.
  destruct (variable_in_range _ _ _ _ _ _ _ _ _ Hi Hrooms Hv1')
    as (Rc1 & Rs1 & Rt1 & Rr1 & Rd1 & Rts1).
  destruct (variable_in_range _ _ _ _ _ _ _ _ _ Hi Hrooms Hv2')
    as (Rc2 & Rs2 & Rt2 & Rr2 & Rd2 & Rts2).
  destruct (written_for_fields _ _ _ _ _ _ _ _ Hw1) as (_ & _ & _ & Hd1 & Hts1 & _).
  destruct (written_for_fields _ _ _ _ _ _ _ _ Hw2) as (_ & _ & _ & Hd2 & Hts2 & _).
  assert (days sch' = days sch /\ time_slots sch' = time_slots sch
          /\ sch_classes sch' = sch_classes sch /\ sch_subjects sch' = sch_subjects sch
          /\ sch_teachers sch' = sch_teachers sch /\ sch_rooms sch' = sch_rooms sch)
    as (Ed & Ets & Ec & Es & Et & Er) by (by rewrite Hsch').
  rewrite Ed in Hd1, Hd2. rewrite Ets in Hts1, Hts2.
  assert (d1 = d2) as <-.
  { rewrite Hday in Hd1. exact (NoDup_lookup _ _ _ _ Hdays Hd1 Hd2). }
  exists c1, s1, t1, r1, c2, s2, t2, r2, d1, ts1, ts2.
  rewrite Ed, Ets, Ec, Es, Et, Er.
  split_and!; try done.
  - intros Hstart. rewrite Hstart in Hts1.
    exact (slot_index_eq _ _ _ _ _ _ (init_starts_distinct _ _ _ Hi Hgap) Hts1 Hts2).
  - by repeat constructor.
Qed.

Ltac in_group :=
  apply gather_elem; split; [done|];
  eexists _, _, _; split_and!; [| | |reflexivity]; done.

Lemma solved_fields cp sch sch' b :
  solve cp sch = Ret (b, sch') ->
  days sch' = days sch /\ time_slots sch' = time_slots sch
  /\ sch_classes sch' = sch_classes sch /\ sch_subjects sch' = sch_subjects sch
  /\ sch_teachers sch' = sch_teachers sch /\ sch_rooms sch' = sch_rooms sch
  /\ teacher_ids sch' = teacher_ids sch /\ class_ids sch' = class_ids sch
  /\ subject_ids sch' = subject_ids sch /\ room_ids sch' = room_ids sch
  /\ use_room_constraints sch' = use_room_constraints sch
  /\ sch_settings sch' = sch_settings sch /\ free_periods sch' = free_periods sch
  /\ assignment_vars sch' = _create_variables sch.
Proof.
  intros Hs. destruct (solve_inv _ _ _ _ Hs) as (_ & -> & _). by split_and!.
Qed.

(** X11: when the valuation returned with an OPTIMAL or FEASIBLE status
    keeps the bounds of the first loop nest of
    [_add_teacher_availability_constraints], and teacher ids and working
    days are pairwise different, no two entries of the returned schedule
    have the same teacher, day and start time. *)
Theorem teacher_has_one_lesson_at_a_time fuel cp data w sch sch' schedule :
  __init__ fuel data = Ret sch ->
  solve cp sch = Ret (true, sch') ->
  keeps (value sch') (teacher_slot_constraints sch') ->
  told_apart data sch ->
  NoDup (teacher_ids sch) ->
  generate_schedule fuel cp data w = Some schedule ->
  no_two (fun e1 e2 => same_time e1 e2 /\ e_teacherId e1 = e_teacherId e2)
    (entries schedule).
Proof.
  intros Hi Hs Hkeep Hapart Hids Hgen i j e1 e2 Hij H1 H2 [[Hday Hstart] Hteacher].
  destruct (same_time_keys _ _ _ _ _ _ _ _ _ _ _ Hi Hs Hgen Hapart Hij H1 H2 Hday)
    as (c1 & s1 & t1 & r1 & c2 & s2 & t2 & r2 & d & ts1 & ts2 & Hne & Hts & Hch
        & Hw1 & Hw2 & Rc1 & Rc2 & Rs1 & Rs2 & Rt1 & Rt2 & Rr1 & Rr2 & Rd & Rts1 & Rts2).
  specialize (Hts Hstart). subst ts2.
  apply Forall_cons in Hch as [[Hv1 Hval1] Hch].
  apply Forall_cons in Hch as [[Hv2 Hval2] _].
  destruct (written_for_fields _ _ _ _ _ _ _ _ Hw1) as (_ & _ & Ht1 & _).
  destruct (written_for_fields _ _ _ _ _ _ _ _ Hw2) as (_ & _ & Ht2 & _).
  destruct (solved_fields _ _ _ _ Hs)
    as (_ & _ & _ & _ & Et & _ & Eti & _).
  destruct (init_inv _ _ _ Hi) as (ss & _ & _ & _ & _ & _ & _ & Et0 & _ & _ & _
                                   & It & _).
  assert (t1 = t2) as <-.
  { rewrite Eti in Ht1, Ht2. rewrite Hteacher in Ht1.
    eapply lookup_index_eq; [exact Hids | | eassumption | eassumption].
    rewrite (ids_of_length _ _ _ It), <- Et0, <- Et. done. }
  apply Hne.
  apply (at_most_one_chosen (value sch')
           (gather (assignment_vars sch') (length (sch_classes sch'))
              (length (sch_subjects sch')) (length (sch_rooms sch'))
              (fun c s r => (c, s, t1, r, d, ts1)))); [in_group | in_group | done..|].
  unfold teacher_slot_constraints in Hkeep.
  apply (keeps_bind _ _ _ t1) in Hkeep; [|apply elem_of_seq; lia].
  apply (keeps_bind _ _ _ d) in Hkeep; [|apply elem_of_seq; lia].
  apply (keeps_bind _ _ _ ts1) in Hkeep; [|apply elem_of_seq; lia].
  exact Hkeep.
Qed.

(** X12: when the valuation keeps the bounds of [_add_class_constraints]
    and class ids and working days are pairwise different, no two
    entries of the returned schedule have the same class, day and start
    time. *)
Theorem class_has_one_lesson_at_a_time fuel cp data w sch sch' schedule :
  __init__ fuel data = Ret sch ->
  solve cp sch = Ret (true, sch') ->
  keeps (value sch') (_add_class_constraints sch') ->
  told_apart data sch ->
  NoDup (class_ids sch) ->
  generate_schedule fuel cp data w = Some schedule ->
  no_two (fun e1 e2 => same_time e1 e2 /\ e_classId e1 = e_classId e2)
    (entries schedule).
Proof.
  intros Hi Hs Hkeep Hapart Hids Hgen i j e1 e2 Hij H1 H2 [[Hday Hstart] Hclass].
  destruct (same_time_keys _ _ _ _ _ _ _ _ _ _ _ Hi Hs Hgen Hapart Hij H1 H2 Hday)
    as (c1 & s1 & t1 & r1 & c2 & s2 & t2 & r2 & d & ts1 & ts2 & Hne & Hts & Hch
        & Hw1 & Hw2 & Rc1 & Rc2 & Rs1 & Rs2 & Rt1 & Rt2 & Rr1 & Rr2 & Rd & Rts1 & Rts2).
  specialize (Hts Hstart). subst ts2.
  apply Forall_cons in Hch as [[Hv1 Hval1] Hch].
  apply Forall_cons in Hch as [[Hv2 Hval2] _].
  destruct (written_for_fields _ _ _ _ _ _ _ _ Hw1) as (Hc1 & _).
  destruct (written_for_fields _ _ _ _ _ _ _ _ Hw2) as (Hc2 & _).
  destruct (solved_fields _ _ _ _ Hs)
    as (_ & _ & Ec & _ & _ & _ & _ & Eci & _).
  destruct (init_inv _ _ _ Hi) as (ss & _ & _ & _ & _ & _ & _ & _ & Ec0 & _ & _
                                   & _ & Ic & _).
  assert (c1 = c2) as <-.
  { rewrite Eci in Hc1, Hc2. rewrite Hclass in Hc1.
    eapply lookup_index_eq; [exact Hids | | eassumption | eassumption].
    rewrite (ids_of_length _ _ _ Ic), <- Ec0, <- Ec. done. }
  apply Hne.
  apply (at_most_one_chosen (value sch')
           (gather (assignment_vars sch') (length (sch_subjects sch'))
              (length (sch_teachers sch')) (length (sch_rooms sch'))
              (fun s t r => (c1, s, t, r, d, ts1)))); [in_group | in_group | done..|].
  unfold _add_class_constraints in Hkeep.
  apply (keeps_bind _ _ _ c1) in Hkeep; [|apply elem_of_seq; lia].
  apply (keeps_bind _ _ _ d) in Hkeep; [|apply elem_of_seq; lia].
  apply (keeps_bind _ _ _ ts1) in Hkeep; [|apply elem_of_seq; lia].
  exact Hkeep.
Qed.

(** X13: with room constraints on, when the valuation keeps the bounds
    of [_add_room_constraints] and room ids and working days are
    pairwise different, no two entries of the returned schedule have the
    same room, day and start time. *)
Theorem room_has_one_lesson_at_a_time fuel cp data w sch sch' schedule :
  __init__ fuel data = Ret sch ->
  use_room_constraints sch = true ->
  solve cp sch = Ret (true, sch') ->
  keeps (value sch') (_add_room_constraints sch') ->
  told_apart data sch ->
  NoDup (room_ids sch) ->
  generate_schedule fuel cp data w = Some schedule ->
  no_two (fun e1 e2 => same_time e1 e2 /\ e_roomId e1 = e_roomId e2)
    (entries schedule).
Proof.
  intros Hi Hflag Hs Hkeep Hapart Hids Hgen i j e1 e2 Hij H1 H2 [[Hday Hstart] Hroom].
  destruct (same_time_keys _ _ _ _ _ _ _ _ _ _ _ Hi Hs Hgen Hapart Hij H1 H2 Hday)
    as (c1 & s1 & t1 & r1 & c2 & s2 & t2 & r2 & d & ts1 & ts2 & Hne & Hts & Hch
        & Hw1 & Hw2 & Rc1 & Rc2 & Rs1 & Rs2 & Rt1 & Rt2 & Rr1 & Rr2 & Rd & Rts1 & Rts2).
  specialize (Hts Hstart). subst ts2.
  apply Forall_cons in Hch as [[Hv1 Hval1] Hch].
  apply Forall_cons in Hch as [[Hv2 Hval2] _].
  destruct (written_for_fields _ _ _ _ _ _ _ _ Hw1)
    as (_ & _ & _ & _ & _ & rid1 & Hr1 & Hrid1).
  destruct (written_for_fields _ _ _ _ _ _ _ _ Hw2)
    as (_ & _ & _ & _ & _ & rid2 & Hr2 & Hrid2).
  destruct (solved_fields _ _ _ _ Hs)
    as (_ & _ & _ & _ & _ & Er & _ & _ & _ & Eri & Eflag & _).
  rewrite Eflag, Hflag in Hrid1, Hrid2. subst rid1 rid2.
  destruct (init_inv _ _ _ Hi) as (ss & _ & _ & _ & _ & _ & _ & _ & _ & _ & Er0
                                   & _ & _ & _ & Ir & _).
  assert (r1 = r2) as <-.
  { rewrite Eri in Hr1, Hr2. rewrite Hroom in Hr1.
    eapply lookup_index_eq; [exact Hids | | eassumption | eassumption].
    rewrite (ids_of_length _ _ _ Ir), <- Er0, <- Er. done. }
  apply Hne.
  apply (at_most_one_chosen (value sch')
           (gather (assignment_vars sch') (length (sch_classes sch'))
              (length (sch_subjects sch')) (length (sch_teachers sch'))
              (fun c s t => (c, s, t, r1, d, ts1)))); [in_group | in_group | done..|].
  unfold _add_room_constraints in Hkeep.
  apply (keeps_bind _ _ _ r1) in Hkeep; [|apply elem_of_seq; lia].
  apply (keeps_bind _ _ _ d) in Hkeep; [|apply elem_of_seq; lia].
  apply (keeps_bind _ _ _ ts1) in Hkeep; [|apply elem_of_seq; lia].
  exact Hkeep.
Qed.

(** X14: when the valuation keeps the bounds of the first loop nest of
    [_add_no_repeat_subject_constraint] and class ids and working days
    are pairwise different, no two entries of the returned schedule have
    the same class, day and subject, for a subject whose id is not
    empty. *)
Theorem subject_once_a_day fuel cp data w sch sch' schedule :
  __init__ fuel data = Ret sch ->
  solve cp sch = Ret (true, sch') ->
  keeps (value sch') (once_a_day_constraints sch') ->
  told_apart data sch ->
  NoDup (class_ids sch) ->
  generate_schedule fuel cp data w = Some schedule ->
  no_two (fun e1 e2 => e_day e1 = e_day e2 /\ e_classId e1 = e_classId e2
                       /\ e_subjectId e1 = e_subjectId e2
                       /\ e_subjectId e1 <> ""%string)
    (entries schedule).
Proof.
  intros Hi Hs Hkeep Hapart Hids Hgen i j e1 e2 Hij H1 H2
    (Hday & Hclass & Hsubject & Hfilled).
  destruct (same_time_keys _ _ _ _ _ _ _ _ _ _ _ Hi Hs Hgen Hapart Hij H1 H2 Hday)
    as (c1 & s1 & t1 & r1 & c2 & s2 & t2 & r2 & d & ts1 & ts2 & Hne & _ & Hch
        & Hw1 & Hw2 & Rc1 & Rc2 & Rs1 & Rs2 & Rt1 & Rt2 & Rr1 & Rr2 & Rd & Rts1 & Rts2).
  apply Forall_cons in Hch as [[Hv1 Hval1] Hch].
  apply Forall_cons in Hch as [[Hv2 Hval2] _].
  destruct (written_for_fields _ _ _ _ _ _ _ _ Hw1) as (Hc1 & Hs1 & _).
  destruct (written_for_fields _ _ _ _ _ _ _ _ Hw2) as (Hc2 & Hs2 & _).
  destruct (solved_fields _ _ _ _ Hs)
    as (_ & _ & Ec & _ & _ & _ & _ & Eci & Esi & _ & _ & _ & _ & Evars).
  destruct (init_inv _ _ _ Hi) as (ss & _ & _ & _ & _ & _ & _ & _ & Ec0 & _ & _
                                   & _ & Ic & _).
  assert (c1 = c2) as <-.
  { rewrite Eci in Hc1, Hc2. rewrite Hclass in Hc1.
    eapply lookup_index_eq; [exact Hids | | eassumption | eassumption].
    rewrite (ids_of_length _ _ _ Ic), <- Ec0, <- Ec. done. }
  pose proof Hs1 as Hsub.
  assert (s1 = s2) as <-.
  { pose proof Hv1 as Hv1'. pose proof Hv2 as Hv2'. rewrite Evars in Hv1', Hv2'.
    destruct (variable_origin _ _ _ _ _ _ _ _ _ Hi Hv1')
      as (_ & sid1 & _ & _ & _ & _ & Hidx1 & Hsid1 & _).
    destruct (variable_origin _ _ _ _ _ _ _ _ _ Hi Hv2')
      as (_ & sid2 & _ & _ & _ & _ & Hidx2 & Hsid2 & _).
    rewrite Esi in Hs1, Hs2. rewrite Hsid1 in Hs1. rewrite Hsid2 in Hs2.
    inversion Hs1. inversion Hs2. subst sid1 sid2. rewrite Hsubject in Hidx1.
    rewrite Hidx1 in Hidx2. by inversion Hidx2. }
  apply Hne.
  apply (at_most_one_chosen (value sch')
           (gather (assignment_vars sch') (length (sch_teachers sch'))
              (length (sch_rooms sch')) (length (time_slots sch'))
              (fun t r ts => (c1, s1, t, r, d, ts)))); [in_group | in_group | done..|].
  unfold once_a_day_constraints in Hkeep.
  apply (keeps_bind _ _ _ c1) in Hkeep; [|apply elem_of_seq; lia].
  apply (keeps_bind _ _ _ d) in Hkeep; [|apply elem_of_seq; lia].
  apply (keeps_bind _ _ _ s1) in Hkeep; [|apply elem_of_seq; lia].
  cbv beta in Hkeep. rewrite Hsub in Hkeep. simpl in Hkeep.
  destruct (String.eqb (e_subjectId e1) "") eqn:Heq; [|exact Hkeep].
  by apply String.eqb_eq in Heq.
Qed.

(** ** One teacher for a class and a subject *)

Lemma forallb_elem {A} (p : A -> bool) l x :
  forallb p l = true -> x ∈ l -> p x = true.
Proof.
  induction l as [|y l IH]; simpl; intros H Hx; [by apply elem_of_nil in Hx|].
  apply andb_true_iff in H as [Hy Hl].
  apply elem_of_cons in Hx as [->|Hx]; [done | by apply IH].
Qed.

Lemma existsb_elem {A} (p : A -> bool) l x :
  x ∈ l -> p x = true -> existsb p l = true.
Proof.
  induction l as [|y l IH]; simpl; intros Hx Hp; [by apply elem_of_nil in Hx|].
  apply elem_of_cons in Hx as [->|Hx]; [by rewrite Hp|].
  rewrite IH by done. apply orb_true_r.
Qed.

Lemma elem_of_concat_imap {A B} (f : nat -> A -> list B) l i y x :
  l !! i = Some y -> x ∈ f i y -> x ∈ concat (imap f l).
Proof.
  revert f i. induction l as [|z l IH]; intros f i Hl Hx; [done|].
  simpl. apply elem_of_app. destruct i as [|i]; simpl in Hl.
  - left. by inversion Hl; subst.
  - right. by apply (IH (f ∘ S) i).
Qed.

Lemma variable_pair fuel data sch c s t r d ts :
  __init__ fuel data = Ret sch ->
  (c, s, t, r, d, ts) ∈ _create_variables sch ->
  exists class_info sid,
    sch_classes sch !! c = Some class_info
    /\ sid ∈ c_requiredSubjects class_info
    /\ subject_indices sch !! sid = Some s
    /\ subject_ids sch !! s = Some sid
    /\ t ∈ valid_teachers 0 sid (sch_teachers sch).
Proof.
  intros Hi Hk.
  destruct (init_inv _ _ _ Hi) as (ss & _ & _ & _ & _ & _ & _ & _ & _ & _ & _
                                   & _ & _ & _ & _ & Hidx & Hvars).
  apply (create_variables_spec sch Hvars) in Hk
    as (i & class_info & sid & Hcls & Hreq & s' & t' & r' & d' & ts' & Heq & Hsub
        & Hvalid & _).
  inversion Heq; subst s' t' r' d' ts'. simpl in *. subst c.
  exists class_info, sid. split_and!; try done.
  rewrite Hidx in Hsub. by apply subject_index_sound.
Qed.

Lemma entry_key sch ks es e :
  keys_of_entries sch ks es -> e ∈ es ->
  exists k, k ∈ assignment_vars sch /\ value sch k = true /\ written_for sch k e.
Proof.
  intros (_ & Hks & Hwr) He. apply list_elem_of_lookup in He as [i He].
  destruct (Forall2_lookup_r _ _ _ _ _ Hwr He) as (k & Hk & Hw).
  exists k. destruct (Hks k (list_elem_of_lookup_2 _ _ _ Hk)). by split_and!.
Qed.

(** X15: when the valuation and the teacher-choice booleans returned
    with an OPTIMAL or FEASIBLE status meet what
    [_add_teacher_consistency_constraint] posts, and class ids are
    pairwise different, all entries of the returned schedule with the
    same class and subject have the same teacher. *)
Theorem one_teacher_for_a_class_and_subject fuel cp data w sch sch' schedule chosen :
  __init__ fuel data = Ret sch ->
  solve cp sch = Ret (true, sch') ->
  forallb (meets (value sch') chosen) (teacher_choice_constraints sch') = true ->
  rooms data <> [] ->
  NoDup (class_ids sch) ->
  generate_schedule fuel cp data w = Some schedule ->
  forall e1 e2,
    e1 ∈ entries schedule -> e2 ∈ entries schedule ->
    e_classId e1 = e_classId e2 -> e_subjectId e1 = e_subjectId e2 ->
    e_teacherId e1 = e_teacherId e2.
Proof.
  intros Hi Hs Hmeets Hrooms Hids Hgen e1 e2 He1 He2 Hclass Hsubject.
  destruct (generated_entries_keys _ _ _ _ _ _ _ Hi Hs Hgen) as (ks & Hks).
  destruct (entry_key _ _ _ _ Hks He1) as (k1 & Hv1 & Hval1 & Hw1).
  destruct (entry_key _ _ _ _ Hks He2) as (k2 & Hv2 & Hval2 & Hw2).
  destruct k1 as [[[[[c1 s1] t1] r1] d1] ts1], k2 as [[[[[c2 s2] t2] r2] d2] ts2].
  destruct (written_for_fields _ _ _ _ _ _ _ _ Hw1) as (Hc1 & Hs1 & Ht1 & _).
  destruct (written_for_fields _ _ _ _ _ _ _ _ Hw2) as (Hc2 & Hs2 & Ht2 & _).
  destruct (solved_fields _ _ _ _ Hs)
    as (Ed & Ets & Ec & Es & Et & Er & Eti & Eci & Esi & _ & _ & _ & _ & Evars).
  destruct (init_inv _ _ _ Hi) as (ss & _ & _ & _ & _ & _ & _ & _ & Ec0 & _ & _
                                   & _ & Ic & _).
  pose proof Hv1 as Hv1'. pose proof Hv2 as Hv2'. rewrite Evars in Hv1', Hv2'.
  destruct (variable_in_range _ _ _ _ _ _ _ _ _ Hi Hrooms Hv1')
    as (Rc1 & _ & _ & Rr1 & Rd1 & Rts1).
  destruct (variable_in_range _ _ _ _ _ _ _ _ _ Hi Hrooms Hv2')
    as (_ & _ & _ & Rr2 & Rd2 & Rts2).
  destruct (variable_pair _ _ _ _ _ _ _ _ _ Hi Hv1')
    as (class_info & sid1 & Hcls & Hreq & Hidx1 & Hsid1 & Hvalid1).
  destruct (variable_pair _ _ _ _ _ _ _ _ _ Hi Hv2')
    as (_ & sid2 & _ & _ & Hidx2 & Hsid2 & Hvalid2).
  assert (c1 = c2) as <-.
  { rewrite Eci in Hc1, Hc2. rewrite Hclass in Hc1.
    eapply lookup_index_eq; [exact Hids | | eassumption | eassumption].
    rewrite (ids_of_length _ _ _ Ic), <- Ec0. done. }
  rewrite Esi in Hs1, Hs2. rewrite Hsid1 in Hs1. rewrite Hsid2 in Hs2.
  inversion Hs1. inversion Hs2. subst sid1 sid2. rewrite <- Hsubject in *.
  assert (s1 = s2) as <- by (rewrite Hidx1 in Hidx2; by inversion Hidx2).
  destruct (decide (t1 = t2)) as [<-|Hne]; [by rewrite <- Ht1, <- Ht2|].
  exfalso.
  apply list_elem_of_lookup in Hreq as [j Hj].
  set (group t := gather (assignment_vars sch') (length (sch_rooms sch'))
                    (length (days sch')) (length (time_slots sch'))
                    (fun r d ts => (c1, s1, t, r, d, ts))).
  assert ((c1, s1, t1, r1, d1, ts1) ∈ group t1) as Hg1.
  { unfold group. rewrite Ed, Ets, Er. in_group. }
  assert ((c1, s1, t2, r2, d2, ts2) ∈ group t2) as Hg2.
  { unfold group. rewrite Ed, Ets, Er. in_group. }
  assert (forall cc, cc ∈ teacher_choice_for sch' c1 j (e_subjectId e1) ->
                     meets (value sch') chosen cc = true) as Hall.
  { intros cc Hcc. apply (forallb_elem _ _ _ Hmeets).
    unfold teacher_choice_constraints. rewrite Ec.
    eapply elem_of_concat_imap; [exact Hcls|].
    eapply elem_of_concat_imap; [exact Hj | exact Hcc]. }
  unfold teacher_choice_for in Hall.
  assert (subject_indices sch' = subject_indices sch) as Ei
    by (by destruct (solve_inv _ _ _ _ Hs) as (_ & -> & _)).
  rewrite Ei, Hidx1, Et in Hall. fold (group) in Hall.
  case_bool_decide as Hnil; [rewrite Hnil in Hvalid1; by apply elem_of_nil in Hvalid1|].
  assert (forall cc,
            cc ∈ (MaxEquality (c1, j, t1) (group t1)
                  :: ((fun k => ZeroUnless k (c1, j, t1)) <$> group t1)
                  ++ (other_t ← valid_teachers 0 (e_subjectId e1) (sch_teachers sch);
                      if decide (other_t <> t1)
                      then (fun k => ZeroIf k (c1, j, t1)) <$> group other_t
                      else [])) ->
            meets (value sch') chosen cc = true) as Hall1.
  { intros cc Hcc. apply Hall. apply elem_of_cons. right.
    apply list_elem_of_bind. exists t1. split; [|done].
    cbv beta zeta. fold (group t1).
    case_bool_decide as Hnil1; [rewrite Hnil1 in Hg1; by apply elem_of_nil in Hg1|].
    exact Hcc. }
  assert (chosen (c1, j, t1) = true) as Hchosen.
  { pose proof (Hall1 (MaxEquality (c1, j, t1) (group t1))
                  ltac:(apply list_elem_of_here)) as Hmax.
    change (Bool.eqb (chosen (c1, j, t1)) (existsb (value sch') (group t1)) = true)
      in Hmax.
    rewrite (existsb_elem (value sch') _ _ Hg1 Hval1) in Hmax.
    by destruct (chosen (c1, j, t1)). }
  assert (meets (value sch') chosen (ZeroIf (c1, s1, t2, r2, d2, ts2) (c1, j, t1))
          = true) as Hzero.
  { apply Hall1. apply elem_of_cons. right. apply elem_of_app. right.
    apply list_elem_of_bind. exists t2. split; [|done].
    rewrite decide_True by done.
    apply list_elem_of_fmap. by exists (c1, s1, t2, r2, d2, ts2). }
  change (negb (chosen (c1, j, t1)) || negb (value sch' (c1, s1, t2, r2, d2, ts2))
          = true) in Hzero.
  rewrite Hchosen, Hval2 in Hzero. done.
Qed.

(** ** Breaks and free periods *)

Lemma collect_elem {A B} (body : A -> outcome (list B)) xs : forall zs x,
  collect body xs = Ret zs -> x ∈ xs ->
  exists ys, body x = Ret ys /\ forall k, k ∈ ys -> k ∈ zs.
Proof.
  induction xs as [|y xs IH]; intros zs x H Hx; [by apply elem_of_nil in Hx|].
  simpl in H. destruct (body y) as [ys| |] eqn:Hy; simpl in H; [|done..].
  destruct (collect body xs) as [zs'| |] eqn:Hc; simpl in H; [|done..].
  unfold mret, outcome_ret in H. inversion H; subst zs.
  apply elem_of_cons in Hx as [->|Hx].
  - exists ys. split; [done|]. intros k Hk. apply elem_of_app. by left.
  - destruct (IH zs' x eq_refl Hx) as (ys' & Hb & Hsub). exists ys'. split; [done|].
    intros k Hk. apply elem_of_app. right. by apply Hsub.
Qed.

Lemma elem_of_imap_pair {A} (l : list A) i x :
  l !! i = Some x -> (i, x) ∈ imap pair l.
Proof. intros H. by apply (elem_of_lookup_imap_2 pair). Qed.

(** The collecting loops raise exactly when the loops of the same shape
    that only evaluate do. *)
Lemma for_each_collect_seq {A B} (body : outcome unit) (g : nat -> outcome (list B))
    (xs : list A) :
  (forall d, body = (_ ← g d; mret tt)) ->
  forall n, for_each (fun _ => body) xs = (_ ← collect g (seq n (length xs)); mret tt).
Proof.
  intros Hb. induction xs as [|x xs IH]; intros n; [done|].
  simpl. rewrite (IH (S n)), (Hb n).
  destruct (g n); simpl; [|done..].
  by destruct (collect g (seq (S n) (length xs))).
Qed.

Lemma for_each_collect_imap {A B} (f : A -> outcome unit)
    (g : nat * A -> outcome (list B)) (xs : list A) :
  (forall i x, f x = (_ ← g (i, x); mret tt)) ->
  forall h : nat -> nat,
    for_each f xs = (_ ← collect g (imap (fun i x => (h i, x)) xs); mret tt).
Proof.
  intros Hf. induction xs as [|x xs IH]; intros h; [done|].
  simpl. rewrite (IH (h ∘ S)), (Hf (h 0%nat) x).
  destruct (g (h 0%nat, x)); simpl; [|done..].
  by destruct (collect g _).
Qed.

Lemma break_zeros_raises sch :
  _add_break_constraints sch = (_ ← break_zeros sch; mret tt).
Proof.
  unfold _add_break_constraints, break_zeros.
  destruct (hasBreakfastBreak _) as [hb|]; simpl; [|done].
  destruct (breakfastBreakStartTime _) as [bs|]; simpl; [|done].
  destruct (breakfastBreakDuration _) as [bd|]; simpl; [|done].
  destruct (lunchBreakStartTime _) as [ls|]; simpl; [|done].
  destruct (lunchBreakDuration _) as [ld|]; simpl; [|done].
  destruct (time_to_minutes bs) as [b| |]; simpl; [|done..].
  destruct (time_to_minutes ls) as [l| |]; simpl; [|done..].
  apply for_each_collect_seq. intros d.
  apply (for_each_collect_imap parse_slot _ (time_slots sch)) with (h := id).
  intros ts sl. unfold parse_slot.
  destruct (time_to_minutes sl.1); simpl; [|done..].
  by destruct (time_to_minutes sl.2).
Qed.

Lemma free_period_zeros_raises sch :
  _add_free_period_constraints sch = (_ ← free_period_zeros sch; mret tt).
Proof.
  unfold _add_free_period_constraints, free_period_zeros.
  induction (free_periods sch) as [|period ps IH]; [done|].
  simpl. rewrite IH.
  assert (free_period_body sch period = (_ ← free_period_zeros_of sch period; mret tt))
    as ->.
  { unfold free_period_body, free_period_zeros_of.
    destruct (truthy_str _) as [period_start|]; [|done].
    destruct (time_to_minutes period_start) as [p| |]; simpl; [|done..].
    apply (for_each_collect_imap _ _ (days sch)) with (h := id).
    intros d day. unfold on_day. destruct (_ || _); [|done].
    apply (for_each_collect_imap parse_slot _ (time_slots sch)) with (h := id).
    intros ts sl. unfold parse_slot.
    destruct (time_to_minutes sl.1); simpl; [|done..].
    by destruct (time_to_minutes sl.2). }
  destruct (free_period_zeros_of sch period); simpl; [|done..].
  by destruct (collect _ ps).
Qed.

Lemma solved_zeros cp sch sch' b :
  solve cp sch = Ret (b, sch') ->
  (exists ks, break_zeros sch' = Ret ks)
  /\ (exists ks, free_period_zeros sch' = Ret ks).
Proof.
  intros Hs. destruct (solve_inv _ _ _ _ Hs) as ([cs Hcs] & Hsch' & _).
  apply add_all_constraints_ret in Hcs as (_ & _ & _ & Hb & _ & Hf).
  rewrite break_zeros_raises in Hb. rewrite free_period_zeros_raises in Hf.
  assert (break_zeros sch' = break_zeros (with_vars sch (_create_variables sch)))
    as -> by (by rewrite Hsch').
  assert (free_period_zeros sch'
          = free_period_zeros (with_vars sch (_create_variables sch)))
    as -> by (by rewrite Hsch').
  destruct (break_zeros _) as [ks1| |]; simpl in Hb; [|done..].
  destruct (free_period_zeros _) as [ks2| |]; simpl in Hf; [|done..].
  eauto.
Qed.

(** An entry of a generated schedule with its chosen variable and the
    ranges of the indices. *)
Lemma entry_variable fuel cp data w sch sch' schedule e :
  __init__ fuel data = Ret sch ->
  solve cp sch = Ret (true, sch') ->
  generate_schedule fuel cp data w = Some schedule ->
  rooms data <> [] ->
  e ∈ entries schedule ->
  exists c s t r d ts,
    (c, s, t, r, d, ts) ∈ assignment_vars sch'
    /\ value sch' (c, s, t, r, d, ts) = true
    /\ written_for sch' (c, s, t, r, d, ts) e
    /\ (c < length (sch_classes sch'))%nat /\ (s < length (sch_subjects sch'))%nat
    /\ (t < length (sch_teachers sch'))%nat /\ (r < length (sch_rooms sch'))%nat
    /\ (d < length (days sch'))%nat /\ (ts < length (time_slots sch'))%nat.
Proof.
  intros Hi Hs Hgen Hrooms He.
  destruct (generated_entries_keys _ _ _ _ _ _ _ Hi Hs Hgen) as (ks & Hks).
  destruct (entry_key _ _ _ _ Hks He) as (k & Hv & Hval & Hw).
  destruct k as [[[[[c s] t] r] d] ts].
  destruct (solved_fields _ _ _ _ Hs)
    as (Ed & Ets & Ec & Es & Et & Er & _ & _ & _ & _ & _ & _ & _ & Evars).
  pose proof Hv as Hv'. rewrite Evars in Hv'.
  destruct (variable_in_range _ _ _ _ _ _ _ _ _ Hi Hrooms Hv') as (? & ? & ? & ? & ? & ?).
  exists c, s, t, r, d, ts. rewrite Ed, Ets, Ec, Es, Et, Er. by split_and!.
Qed.

Lemma class_slot_keys_elem sch c s t r d ts :
  (c, s, t, r, d, ts) ∈ assignment_vars sch ->
  (s < length (sch_subjects sch))%nat -> (t < length (sch_teachers sch))%nat ->
  (r < length (sch_rooms sch))%nat ->
  (c, s, t, r, d, ts) ∈ class_slot_keys sch c d ts.
Proof. intros. unfold class_slot_keys. in_group. Qed.

Lemma meets_window_false a b start duration :
  meets_window a b start (start + duration) = false -> clear_of a b start duration.
Proof. unfold meets_window, clear_of. lia. Qed.

Lemma zeroed_elem (val : key -> bool) ks k :
  forallb (fun k => negb (val k)) ks = true -> k ∈ ks -> val k = true -> False.
Proof.
  intros H Hk Hv. apply (forallb_elem _ _ _ H) in Hk. by rewrite Hv in Hk.
Qed.

(** X16: when the valuation gives zero to the variables that
    [_add_break_constraints] forces to zero, no entry of the returned
    schedule meets the lunch break, nor the breakfast break when the
    settings have one, whether the slots were computed or are the
    default ones. *)
Theorem lessons_keep_clear_of_breaks fuel cp data w sch sch' schedule :
  __init__ fuel data = Ret sch ->
  solve cp sch = Ret (true, sch') ->
  zeroed (value sch') (break_zeros sch') ->
  rooms data <> [] ->
  generate_schedule fuel cp data w = Some schedule ->
  forall e, e ∈ entries schedule ->
    entry_clear_of (lunch_window (sch_settings sch)) e
    /\ entry_clear_of (breakfast_window (sch_settings sch)) e.
Proof.
  intros Hi Hs Hzero Hrooms Hgen e He.
  destruct (entry_variable _ _ _ _ _ _ _ _ Hi Hs Hgen Hrooms He)
    as (c & s & t & r & d & ts & Hv & Hval & Hw & Rc & Rs & Rt & Rr & Rd & Rts).
  destruct (written_for_fields _ _ _ _ _ _ _ _ Hw) as (_ & _ & _ & _ & Hslot & _).
  destruct (solved_zeros _ _ _ _ Hs) as [[ks Hks] _].
  specialize (Hzero ks Hks).
  destruct (solved_fields _ _ _ _ Hs)
    as (_ & _ & _ & _ & _ & _ & _ & _ & _ & _ & _ & Ess & _).
  rewrite <- Ess. unfold break_zeros in Hks.
  destruct (hasBreakfastBreak _) as [hb|] eqn:Ehb; simpl in Hks; [|done].
  destruct (breakfastBreakStartTime _) as [bs|] eqn:Ebs; simpl in Hks; [|done].
  destruct (breakfastBreakDuration _) as [bd|] eqn:Ebd; simpl in Hks; [|done].
  destruct (lunchBreakStartTime _) as [ls|] eqn:Els; simpl in Hks; [|done].
  destruct (lunchBreakDuration _) as [ld|] eqn:Eld; simpl in Hks; [|done].
  destruct (time_to_minutes bs) as [bstart| |] eqn:Hbs; simpl in Hks; [|done..].
  destruct (time_to_minutes ls) as [lstart| |] eqn:Hls; simpl in Hks; [|done..].
  destruct (collect_elem _ _ _ d Hks) as (ys & Hd & Hsub1); [apply elem_of_seq; lia|].
  destruct (collect_elem _ _ _ (ts, (e_startTime e, e_endTime e)) Hd)
    as (zs & Hbody & Hsub2); [by apply elem_of_imap_pair|].
  simpl in Hbody.
  destruct (time_to_minutes (e_startTime e)) as [a| |] eqn:Ha; simpl in Hbody; [|done..].
  destruct (time_to_minutes (e_endTime e)) as [b| |] eqn:Hb; simpl in Hbody; [|done..].
  assert (zs = (if hb && meets_window a b bstart (bstart + bd)
                then slot_keys sch' d ts else [])
               ++ (if meets_window a b lstart (lstart + ld)
                   then slot_keys sch' d ts else [])) as Hzs
    by (unfold mret, outcome_ret in Hbody; by inversion Hbody).
  clear Hbody.
  assert ((c, s, t, r, d, ts) ∈ slot_keys sch' d ts) as Hin.
  { unfold slot_keys. apply list_elem_of_bind. exists c.
    split; [by apply class_slot_keys_elem | apply elem_of_seq; lia]. }
  split.
  - intros start duration (text & Htext & Hparse & Hdur).
    exists a, b. split_and!; [done..|].
    rewrite Els in Htext. inversion Htext; subst text.
    rewrite Hls in Hparse. inversion Hparse; subst start.
    rewrite Eld in Hdur. inversion Hdur; subst duration.
    apply meets_window_false.
    destruct (meets_window a b lstart (lstart + ld)) eqn:Hm; [|done].
    exfalso. apply (zeroed_elem _ _ (c, s, t, r, d, ts) Hzero); [|done].
    apply Hsub1, Hsub2. rewrite Hzs. apply elem_of_app. right. exact Hin.
  - intros start duration (Hflag & text & Htext & Hparse & Hdur).
    exists a, b. split_and!; [done..|].
    rewrite Ehb in Hflag. inversion Hflag; subst hb.
    rewrite Ebs in Htext. inversion Htext; subst text.
    rewrite Hbs in Hparse. inversion Hparse; subst start.
    rewrite Ebd in Hdur. inversion Hdur; subst duration.
    apply meets_window_false.
    destruct (meets_window a b bstart (bstart + bd)) eqn:Hm; [|done].
    exfalso. apply (zeroed_elem _ _ (c, s, t, r, d, ts) Hzero); [|done].
    apply Hsub1, Hsub2. rewrite Hzs. apply elem_of_app. left. exact Hin.
Qed.

(** X17: when the valuation gives zero to the variables that
    [_add_free_period_constraints] forces to zero, no entry of the
    returned schedule meets a free period that is on its day and for its
    class. *)
Theorem lessons_keep_clear_of_free_periods fuel cp data w sch sch' schedule :
  __init__ fuel data = Ret sch ->
  solve cp sch = Ret (true, sch') ->
  zeroed (value sch') (free_period_zeros sch') ->
  rooms data <> [] ->
  generate_schedule fuel cp data w = Some schedule ->
  forall e period,
    e ∈ entries schedule -> period ∈ free_periods sch -> concerns period e ->
    entry_clear_of (period_window period) e.
Proof.
  intros Hi Hs Hzero Hrooms Hgen e period He Hperiod [Hday Hfor].
  destruct (entry_variable _ _ _ _ _ _ _ _ Hi Hs Hgen Hrooms He)
    as (c & s & t & r & d & ts & Hv & Hval & Hw & Rc & Rs & Rt & Rr & Rd & Rts).
  destruct (written_for_fields _ _ _ _ _ _ _ _ Hw)
    as (Hclass & _ & _ & Hd & Hslot & _).
  destruct (solved_zeros _ _ _ _ Hs) as [_ [ks Hks]].
  specialize (Hzero ks Hks).
  destruct (solved_fields _ _ _ _ Hs)
    as (_ & _ & Ec & _ & _ & _ & _ & Eci & _ & _ & _ & _ & Efp & _).
  destruct (init_inv _ _ _ Hi) as (ss & _ & _ & _ & _ & _ & _ & _ & Ec0 & _ & _
                                   & _ & Ic & _).
  apply lookup_lt_is_Some in Rc as [class_info Hcls].
  assert (c_id class_info = e_classId e) as Hid.
  { rewrite <- Hclass, Eci. pose proof (ids_of_lookup _ _ _ Ic c) as Hl.
    rewrite Ec, Ec0 in Hcls. by rewrite Hcls in Hl. }
  unfold free_period_zeros in Hks. rewrite Efp in Hks.
  destruct (collect_elem _ _ _ period Hks Hperiod) as (ps & Hp & Hsub0).
  unfold free_period_zeros_of in Hp.
  intros start duration (text & Htext & Hparse & ->).
  rewrite Htext in Hp. rewrite Hparse in Hp. simpl in Hp.
  apply list_elem_of_lookup_2 in Hd as Hd'.
  destruct (collect_elem _ _ _ (d, e_day e) Hp) as (ys & Hday' & Hsub1);
    [by apply elem_of_imap_pair|].
  simpl in Hday'. rewrite Hday in Hday'.
  destruct (collect_elem _ _ _ (ts, (e_startTime e, e_endTime e)) Hday')
    as (zs & Hbody & Hsub2); [by apply elem_of_imap_pair|].
  simpl in Hbody.
  destruct (time_to_minutes (e_startTime e)) as [a| |] eqn:Ha; simpl in Hbody; [|done..].
  destruct (time_to_minutes (e_endTime e)) as [b| |] eqn:Hb; simpl in Hbody; [|done..].
  assert (zs = if meets_window a b start (start + default 60 (fp_duration period))
               then '(c, class_info) ← imap pair (sch_classes sch');
                    if affected period class_info
                    then class_slot_keys sch' c d ts else []
               else []) as Hzs
    by (unfold mret, outcome_ret in Hbody; by inversion Hbody).
  clear Hbody.
  exists a, b. split_and!; [done..|].
  apply meets_window_false.
  destruct (meets_window a b start (start + default 60 (fp_duration period))) eqn:Hm;
    [|done].
  exfalso. apply (zeroed_elem _ _ (c, s, t, r, d, ts) Hzero); [|done].
  apply Hsub0, Hsub1, Hsub2. rewrite Hzs.
  apply list_elem_of_bind. exists (c, class_info).
  split; [|by apply elem_of_imap_pair].
  assert (affected period class_info = true) as ->.
  { unfold affected. rewrite Hid. apply orb_true_iff.
    destruct Hfor as [Hall|(class_id & -> & Hin)].
    - left. by apply bool_decide_eq_true.
    - right. by apply bool_decide_eq_true. }
  by apply class_slot_keys_elem.
Qed.

(** ** The fallback generator *)

Lemma random_interval_bound max w : (fst (random_interval max w) <= max)%nat.
Proof.
  unfold random_interval. simpl.
  pose proof (Nat.mod_upper_bound (draws w (draw_count w)) (S max)). lia.
Qed.

Lemma choice_elem {A} (dflt : A) xs w : xs <> [] -> fst (choice dflt xs w) ∈ xs.
Proof.
  intros Hxs. unfold choice.
  pose proof (random_interval_bound (length xs - 1) w) as Hi.
  destruct (random_interval (length xs - 1) w) as [i w']. simpl in *.
  destruct (xs !! i) as [x|] eqn:Hx.
  - simpl. by eapply list_elem_of_lookup_2.
  - apply lookup_ge_None in Hx. destruct xs; [done | simpl in *; lia].
Qed.

Lemma swap_Permutation {A} (xs : list A) i j : swap xs i j ≡ₚ xs.
Proof.
  unfold swap. destruct (xs !! i) as [a|] eqn:Ha; [|done].
  destruct (xs !! j) as [b|] eqn:Hb; [|done].
  by apply Permutation_insert_swap.
Qed.

Lemma shuffle_from_Permutation {A} i : forall (xs : list A) w,
  fst (shuffle_from i xs w) ≡ₚ xs.
Proof.
  induction i as [|i IH]; intros xs w; simpl; [done|].
  destruct (random_interval (S i) w) as [j w'].
  rewrite IH. apply swap_Permutation.
Qed.

Lemma shuffle_Permutation {A} (xs : list A) w : fst (shuffle xs w) ≡ₚ xs.
Proof. apply shuffle_from_Permutation. Qed.

Lemma all_slots_elem sch day sl :
  (day, sl) ∈ all_slots sch -> day ∈ days sch /\ sl ∈ time_slots sch.
Proof.
  unfold all_slots. intros H.
  apply list_elem_of_bind in H as (day' & H & Hday).
  apply list_elem_of_bind in H as (sl' & H & Hsl).
  apply list_elem_of_singleton in H. by inversion H; subst.
Qed.

(** *** First stage: the teacher of each pair *)

Lemma assign_elem class_id subject_id teacher d a :
  a ∈ assign class_id subject_id teacher d ->
  a = (class_id, subject_id, teacher) \/ a ∈ d.
Proof.
  induction d as [|[[c s] t] d IH]; simpl; intros H.
  - apply list_elem_of_singleton in H. by left.
  - case_bool_decide as Heq.
    + destruct Heq as [-> ->]. apply elem_of_cons in H as [->|H]; [by left|].
      right. by apply elem_of_cons; right.
    + apply elem_of_cons in H as [->|H]; [right; apply list_elem_of_here|].
      destruct (IH H) as [?|?]; [by left | right; by apply elem_of_cons; right].
Qed.

Lemma assign_keys class_id subject_id teacher d k :
  k ∈ fst <$> assign class_id subject_id teacher d ->
  k = (class_id, subject_id) \/ k ∈ fst <$> d.
Proof.
  intros H. apply list_elem_of_fmap in H as (a & -> & Ha).
  apply assign_elem in Ha as [->|Ha]; [by left|].
  right. apply list_elem_of_fmap. by exists a.
Qed.

Lemma assign_NoDup class_id subject_id teacher d :
  NoDup (fst <$> d) -> NoDup (fst <$> assign class_id subject_id teacher d).
Proof.
  induction d as [|[[c s] t] d IH]; simpl; intros Hd.
  - apply NoDup_singleton.
  - apply NoDup_cons in Hd as [Hnotin Hd]. case_bool_decide as Heq.
    + simpl. by apply NoDup_cons.
    + simpl. apply NoDup_cons. split; [|by apply IH].
      intros Hin. apply assign_keys in Hin as [Hk|Hin]; [|done].
      inversion Hk; subst. by apply Heq.
Qed.

Lemma pick_teacher_inv sch class_info subject_id st :
  class_info ∈ sch_classes sch ->
  subject_id ∈ c_requiredSubjects class_info ->
  NoDup (fst <$> fst st) /\ Forall (picked sch) (fst st) ->
  NoDup (fst <$> fst (pick_teacher sch (c_id class_info) st subject_id))
  /\ Forall (picked sch) (fst (pick_teacher sch (c_id class_info) st subject_id)).
Proof.
  intros Hcls Hreq [Hnd Hall]. unfold pick_teacher. destruct st as [ats w].
  destruct (subject_indices sch !! subject_id); [|done].
  case_bool_decide as Hvalid; [done|].
  pose proof (choice_elem no_teacher _ w Hvalid) as Hin.
  destruct (choice no_teacher _ w) as [teacher w']. simpl in *.
  apply list_elem_of_filter in Hin as [Hteach Hin].
  split; [by apply assign_NoDup|].
  apply Forall_forall. intros a Ha. apply assign_elem in Ha as [->|Ha].
  - split; [|done]. by exists class_info.
  - by apply (proj1 (Forall_forall _ _) Hall).
Qed.

Lemma pick_teachers_inv sch w :
  NoDup (fst <$> fst (pick_teachers sch w))
  /\ Forall (picked sch) (fst (pick_teachers sch w)).
Proof.
  unfold pick_teachers.
  assert (forall cs st,
            (forall c, c ∈ cs -> c ∈ sch_classes sch) ->
            NoDup (fst <$> fst st) /\ Forall (picked sch) (fst st) ->
            let st' := foldl (fun st class_info =>
                                foldl (pick_teacher sch (c_id class_info)) st
                                  (c_requiredSubjects class_info)) st cs in
            NoDup (fst <$> fst st') /\ Forall (picked sch) (fst st')) as Houter.
  { induction cs as [|class_info cs IH]; intros st Hcs Hst; simpl; [done|].
    apply IH; [intros c Hc; apply Hcs; by apply elem_of_cons; right|].
    assert (forall subs st,
              (forall s, s ∈ subs -> s ∈ c_requiredSubjects class_info) ->
              NoDup (fst <$> fst st) /\ Forall (picked sch) (fst st) ->
              let st' := foldl (pick_teacher sch (c_id class_info)) st subs in
              NoDup (fst <$> fst st') /\ Forall (picked sch) (fst st')) as Hinner.
    { induction subs as [|subject_id subs IHs]; intros st0 Hsubs Hst0; simpl; [done|].
      apply IHs; [intros s0 Hs0; apply Hsubs; by apply elem_of_cons; right|].
      apply pick_teacher_inv; [|apply Hsubs|done]; [apply Hcs|]; apply list_elem_of_here. }
    by apply Hinner. }
  apply Houter; [done|]. simpl. split; [apply NoDup_nil_2 | constructor].
Qed.

(** *** Second stage: the slots of each pair *)

Lemma fill_slots_spec sch teacher class_id subject_id slots :
  forall slot_idx hours es w,
    exists new,
      fst (fill_slots sch teacher class_id subject_id slot_idx slots hours (es, w))
      = es ++ new
      /\ Z.of_nat (length new) <= Z.max 0 hours
      /\ Forall (fun e => made_for (class_id, subject_id, teacher) e
                          /\ (e_day e, (e_startTime e, e_endTime e)) ∈ slots) new.
Proof.
  induction slots as [|[day time_slot] slots IH]; intros slot_idx hours es w; simpl.
  { exists []. rewrite app_nil_r. split_and!; [done | simpl; lia | constructor]. }
  destruct (hours <=? 0) eqn:Hh.
  { exists []. rewrite app_nil_r. split_and!; [done | simpl; lia | constructor]. }
  apply Z.leb_gt in Hh.
  destruct (valid_slot sch day time_slot teacher class_id subject_id es).
  - destruct (match sch_rooms sch with
              | [] => _
              | r0 :: _ => _
              end) as [room_id w1].
    simpl.
    match goal with
    | |- context [fill_slots _ _ _ _ _ _ _ (es ++ [?entry], ?w2)] =>
        destruct (IH (S slot_idx) (hours - 1) (es ++ [entry]) w2)
          as (new & Hnew & Hlen & Hall);
        exists (entry :: new)
    end.
    rewrite Hnew, <- app_assoc. split_and!; [done | simpl length; lia |].
    constructor.
    + split; [done|]. simpl. destruct time_slot. apply list_elem_of_here.
    + eapply Forall_impl; [exact Hall|]. simpl. intros e [? ?].
      split; [done | by apply elem_of_cons; right].
  - destruct (IH (S slot_idx) hours es w) as (new & Hnew & Hlen & Hall).
    exists new. split_and!; [done..|].
    eapply Forall_impl; [exact Hall|]. simpl. intros e [? ?].
    split; [done | by apply elem_of_cons; right].
Qed.

Lemma fill_pair_spec sch slots es w a :
  exists new,
    fst (fill_pair sch slots (es, w) a) = es ++ new
    /\ Z.of_nat (length new) <= Z.max 0 (hours_of sch a.1.2)
    /\ Forall (fun e => made_for a e
                        /\ (e_day e, (e_startTime e, e_endTime e)) ∈ slots) new.
Proof.
  destruct a as [[class_id subject_id] teacher]. unfold fill_pair, hours_of. simpl.
  destruct (list_find _ (sch_subjects sch)) as [[i subject]|].
  2:{ exists []. rewrite app_nil_r. split_and!; [done | simpl; lia | constructor]. }
  destruct (_ <=? 0).
  { exists []. rewrite app_nil_r. split_and!; [done | simpl; lia | constructor]. }
  destruct (list_find _ (sch_classes sch)) as [[j cls]|].
  2:{ exists []. rewrite app_nil_r. split_and!; [done | simpl; lia | constructor]. }
  apply fill_slots_spec.
Qed.

Lemma length_filter_none {A} (P : A -> Prop) `{!forall x, Decision (P x)} (l : list A) :
  (forall x, x ∈ l -> ~ P x) -> length (filter P l) = 0%nat.
Proof.
  induction l as [|x l IH]; intros Hno; [done|].
  rewrite filter_cons, decide_False by (apply Hno; apply list_elem_of_here).
  apply IH. intros y Hy. apply Hno. by apply elem_of_cons; right.
Qed.

Lemma fill_pairs_spec sch slots ats : forall es w,
  exists new,
    fst (foldl (fill_pair sch slots) (es, w) ats) = es ++ new
    /\ Forall (fun e => exists a, a ∈ ats /\ made_for a e
                                  /\ (e_day e, (e_startTime e, e_endTime e)) ∈ slots
                                  /\ 0 < hours_of sch (e_subjectId e)) new
    /\ (NoDup (fst <$> ats) ->
        forall class_id subject_id,
          Z.of_nat (length (filter (same_pair class_id subject_id) new))
          <= Z.max 0 (hours_of sch subject_id)).
Proof.
  induction ats as [|a ats IH]; intros es w; simpl.
  { exists []. rewrite app_nil_r. split_and!; [done | constructor |].
    intros _ class_id subject_id. simpl. lia. }
  destruct (fill_pair_spec sch slots es w a) as (new1 & H1 & Hlen1 & Hall1).
  destruct (fill_pair sch slots (es, w) a) as [es1 w1] eqn:Hfp. simpl in H1. subst es1.
  destruct (IH (es ++ new1) w1) as (new2 & H2 & Hall2 & Hcount2).
  exists (new1 ++ new2). rewrite H2, <- app_assoc. split_and!; [done | |].
  - apply Forall_app. split.
    + apply Forall_forall. intros e He.
      destruct (proj1 (Forall_forall _ _) Hall1 e He) as [Hmade Hslot].
      exists a. split_and!; [apply list_elem_of_here | done..|].
      destruct Hmade as (_ & -> & _).
      destruct new1; [by apply elem_of_nil in He | simpl in Hlen1; lia].
    + eapply Forall_impl; [exact Hall2|]. simpl.
      intros e (a' & Ha' & ?). exists a'. split; [by apply elem_of_cons; right | done].
  - intros Hnd class_id subject_id. apply NoDup_cons in Hnd as [Hnotin Hnd].
    rewrite filter_app, length_app.
    destruct (decide (a.1 = (class_id, subject_id))) as [Heq|Hne].
    + rewrite (length_filter_none _ new2).
      * pose proof (length_filter (same_pair class_id subject_id) new1).
        assert (a.1.2 = subject_id) as <- by by rewrite Heq. lia.
      * intros e He [Hc Hs].
        destruct (proj1 (Forall_forall _ _) Hall2 e He) as (a' & Ha' & Hmade & _).
        destruct Hmade as (Hc' & Hs' & _). apply Hnotin.
        apply list_elem_of_fmap. exists a'. split; [|done].
        rewrite Heq. destruct a' as [[c' s'] t']. simpl in *. congruence.
    + rewrite (length_filter_none _ new1).
      * specialize (Hcount2 Hnd class_id subject_id). lia.
      * intros e He [Hc Hs].
        destruct (proj1 (Forall_forall _ _) Hall1 e He) as [(Hc' & Hs' & _) _].
        apply Hne. destruct a as [[c' s'] t']. simpl in *. congruence.
Qed.

Lemma mock_schedule_entries sch w :
  exists ats slots,
    NoDup (fst <$> ats) /\ Forall (picked sch) ats /\ slots ≡ₚ all_slots sch
    /\ Forall (fun e => exists a, a ∈ ats /\ made_for a e
                         /\ (e_day e, (e_startTime e, e_endTime e)) ∈ slots
                         /\ 0 < hours_of sch (e_subjectId e))
         (entries (fst (_generate_mock_schedule sch w)))
    /\ forall class_id subject_id,
         Z.of_nat (length (filter (same_pair class_id subject_id)
                             (entries (fst (_generate_mock_schedule sch w)))))
         <= Z.max 0 (hours_of sch subject_id).
Proof.
  unfold _generate_mock_schedule.
  destruct (fresh_id _ w) as [sid w0].
  pose proof (pick_teachers_inv sch w0) as [Hnd Hpicked].
  destruct (pick_teachers sch w0) as [ats w1].
  pose proof (shuffle_Permutation (all_slots sch) w1) as Hperm.
  destruct (shuffle _ w1) as [sl w2].
  destruct (fill_pairs_spec sch sl ats [] w2) as (new & Hnew & Hall & Hcount).
  destruct (foldl _ _ ats) as [es w3]. simpl in *. subst es.
  exists ats, sl. split_and!; try done. by apply Hcount.
Qed.

(** X18: every entry that the fallback generator returns is on a
    working day and in a slot of the grid, for a class that requires its
    subject, with a teacher of the request whose subjects contain it,
    and the subject is in the catalogue with a positive number of
    hours. *)
Theorem fallback_entries_are_lessons sch w e :
  e ∈ entries (fst (_generate_mock_schedule sch w)) -> fallback_lesson sch e.
Proof.
  intros He.
  destruct (mock_schedule_entries sch w) as (ats & slots & _ & Hpicked & Hperm & Hall & _).
  destruct (proj1 (Forall_forall _ _) Hall e He) as (a & Ha & Hmade & Hslot & Hhours).
  destruct (proj1 (Forall_forall _ _) Hpicked a Ha)
    as ((class_info & Hcls & Hid & Hreq) & Hteacher & Hteach).
  destruct Hmade as (Hc & Hs & Ht).
  rewrite Hperm in Hslot. apply all_slots_elem in Hslot as [Hday Hsl].
  unfold fallback_lesson. split_and!; [done | done | | | done].
  - exists class_info. by rewrite Hc, Hs.
  - exists a.2. by rewrite Ht, Hs.
Qed.

(** X19: in a schedule of the fallback generator, all entries with the
    same class and subject have the same teacher. *)
Theorem fallback_keeps_one_teacher sch w e1 e2 :
  e1 ∈ entries (fst (_generate_mock_schedule sch w)) ->
  e2 ∈ entries (fst (_generate_mock_schedule sch w)) ->
  e_classId e1 = e_classId e2 -> e_subjectId e1 = e_subjectId e2 ->
  e_teacherId e1 = e_teacherId e2.
Proof.
  intros He1 He2 Hclass Hsubject.
  destruct (mock_schedule_entries sch w) as (ats & slots & Hnd & _ & _ & Hall & _).
  destruct (proj1 (Forall_forall _ _) Hall e1 He1) as (a1 & Ha1 & (Hc1 & Hs1 & Ht1) & _).
  destruct (proj1 (Forall_forall _ _) Hall e2 He2) as (a2 & Ha2 & (Hc2 & Hs2 & Ht2) & _).
  assert (a1 = a2) as <-; [|by rewrite Ht1, Ht2].
  apply list_elem_of_lookup in Ha1 as [i Hi]. apply list_elem_of_lookup in Ha2 as [j Hj].
  assert (i = j) as <-; [|rewrite Hi in Hj; by inversion Hj].
  unfold assignment in *. apply (NoDup_lookup _ _ _ (fst a1) Hnd).
  - by rewrite list_lookup_fmap, Hi.
  - rewrite list_lookup_fmap, Hj. simpl. f_equal.
    destruct a1 as [[c1 s1] t1], a2 as [[c2 s2] t2]. simpl in *. congruence.
Qed.

(** X20: the fallback generator never gives a class more entries of a
    subject than the hours per week of that subject in the catalogue
    (none when the subject is not in the catalogue or has no positive
    number of hours). *)
Theorem fallback_gives_at_most_the_hours sch w class_id subject_id :
  Z.of_nat (lessons_of (fst (_generate_mock_schedule sch w)) class_id subject_id)
  <= Z.max 0 (hours_of sch subject_id).
Proof.
  destruct (mock_schedule_entries sch w) as (_ & _ & _ & _ & _ & _ & Hcount).
  exact (Hcount (Some class_id) subject_id).
Qed.


(** ** The further properties at sample requests *)

Ltac evaluated :=
  first [ vm_compute; reflexivity
        | apply (bool_decide_unpack _); vm_compute; exact I ].

Ltac durations_add_up :=
  let l := fresh "l" in let b := fresh "b" in
  let Hl := fresh "Hl" in let Hb := fresh "Hb" in
  intros l b Hl Hb; vm_compute in Hl, Hb; inversion Hl; inversion Hb; lia.



Lemma missing_setting_gives_error_schedule_witness :
  generate_schedule 10 solver_school request_no_settings (world_of (fun _ => 0%nat))
  = Some {| scheduleId := "error-schedule-00000000"; entries := [] |}.
Proof.
  apply (missing_setting_gives_error_schedule 10 solver_school request_no_settings
           (world_of (fun _ => 0%nat))).
  left. reflexivity.
Defined.

Lemma missing_id_gives_error_schedule_witness :
  __init__ 10 request_teacher_without_id = Raise KeyError
  /\ generate_schedule 10 solver_school request_teacher_without_id
       (world_of (fun _ => 0%nat))
     = Some {| scheduleId := "error-schedule-00000000"; entries := [] |}.
Proof.
  apply (missing_id_gives_error_schedule 10 solver_school request_teacher_without_id
           (world_of (fun _ => 0%nat)) (settings_with "12:00" [])
           (slots_of 10 (settings_with "12:00" []))).
  - reflexivity.
  - vm_compute. reflexivity.
  - vm_compute. reflexivity.
  - left. apply Exists_cons_hd. reflexivity.
Defined.

Lemma malformed_break_start_gives_error_schedule_witness :
  (exists e', solve solver_school (built 10 request_bad_lunch) = Raise e')
  /\ generate_schedule 10 solver_school request_bad_lunch (world_of (fun _ => 0%nat))
     = Some {| scheduleId := "error-schedule-00000000"; entries := [] |}.
Proof.
  apply (malformed_break_start_gives_error_schedule 10 solver_school request_bad_lunch
           (world_of (fun _ => 0%nat)) (built 10 request_bad_lunch)
           "10:00" "noon" ValueError).
  - vm_compute. reflexivity.
  - vm_compute. reflexivity.
  - vm_compute. reflexivity.
  - right. vm_compute. reflexivity.
Defined.

Lemma generate_schedule_always_answers_witness :
  exists fuel0 schedule,
    (forall fuel, (fuel0 <= fuel)%nat ->
       generate_schedule fuel solver_school request_school (world_of (fun _ => 0%nat))
       = Some schedule)
    /\ (String.prefix "generated-schedule-" (scheduleId schedule) = true
        \/ String.prefix "mock-schedule-" (scheduleId schedule) = true
        \/ String.prefix "error-schedule-" (scheduleId schedule) = true).
Proof.
  apply (generate_schedule_always_answers solver_school request_school
           (world_of (fun _ => 0%nat))).
  intros ss l b Hss Hl Hb. vm_compute in Hss. inversion Hss; subst ss.
  vm_compute in Hl, Hb. inversion Hl; inversion Hb; lia.
Defined.

Lemma generated_entries_are_lessons_witness :
  exists e,
    entries (answer 10 solver_school request_school (world_of (fun _ => 0%nat)))
      !! 3%nat = Some e
    /\ lesson_of_request request_school (built 10 request_school) e.
Proof.
  eexists. split; [vm_compute; reflexivity|].
  apply (generated_entries_are_lessons 10 solver_school request_school
           (world_of (fun _ => 0%nat)) (built 10 request_school)
           (solved solver_school (built 10 request_school))
           (answer 10 solver_school request_school (world_of (fun _ => 0%nat)))).
  - vm_compute. reflexivity.
  - vm_compute. reflexivity.
  - vm_compute. reflexivity.
  - apply (list_elem_of_lookup_2 _ 3%nat). vm_compute. reflexivity.
Defined.

Lemma generated_schedule_lists_every_chosen_variable_witness :
  Forall2 (written_for (solved solver_school (built 10 request_school)))
    (filter (fun k => value (solved solver_school (built 10 request_school)) k = true)
       (assignment_vars (solved solver_school (built 10 request_school))))
    (entries (answer 10 solver_school request_school (world_of (fun _ => 0%nat)))).
Proof.
  apply (generated_schedule_lists_every_chosen_variable 10 solver_school request_school
           (world_of (fun _ => 0%nat)) (built 10 request_school)).
  - vm_compute. reflexivity.
  - vm_compute. reflexivity.
  - vm_compute. reflexivity.
  - vm_compute. reflexivity.
Defined.

Lemma teacher_has_one_lesson_at_a_time_witness :
  no_two (fun e1 e2 => same_time e1 e2 /\ e_teacherId e1 = e_teacherId e2)
    (entries (answer 10 solver_school request_school (world_of (fun _ => 0%nat)))).
Proof.
  apply (teacher_has_one_lesson_at_a_time 10 solver_school request_school
           (world_of (fun _ => 0%nat)) (built 10 request_school)
           (solved solver_school (built 10 request_school))).
  - vm_compute. reflexivity.
  - vm_compute. reflexivity.
  - vm_compute. reflexivity.
  - split_and!; [discriminate | evaluated | durations_add_up].
  - evaluated.
  - vm_compute. reflexivity.
Defined.

Lemma class_has_one_lesson_at_a_time_witness :
  no_two (fun e1 e2 => same_time e1 e2 /\ e_classId e1 = e_classId e2)
    (entries (answer 10 solver_school request_school (world_of (fun _ => 0%nat)))).
Proof.
  apply (class_has_one_lesson_at_a_time 10 solver_school request_school
           (world_of (fun _ => 0%nat)) (built 10 request_school)
           (solved solver_school (built 10 request_school))).
  - vm_compute. reflexivity.
  - vm_compute. reflexivity.
  - vm_compute. reflexivity.
  - split_and!; [discriminate | evaluated | durations_add_up].
  - evaluated.
  - vm_compute. reflexivity.
Defined.

Lemma room_has_one_lesson_at_a_time_witness :
  no_two (fun e1 e2 => same_time e1 e2 /\ e_roomId e1 = e_roomId e2)
    (entries (answer 10 solver_school request_school (world_of (fun _ => 0%nat)))).
Proof.
  apply (room_has_one_lesson_at_a_time 10 solver_school request_school
           (world_of (fun _ => 0%nat)) (built 10 request_school)
           (solved solver_school (built 10 request_school))).
  - vm_compute. reflexivity.
  - vm_compute. reflexivity.
  - vm_compute. reflexivity.
  - vm_compute. reflexivity.
  - split_and!; [discriminate | evaluated | durations_add_up].
  - evaluated.
  - vm_compute. reflexivity.
Defined.

Lemma subject_once_a_day_witness :
  no_two (fun e1 e2 => e_day e1 = e_day e2 /\ e_classId e1 = e_classId e2
                       /\ e_subjectId e1 = e_subjectId e2
                       /\ e_subjectId e1 <> ""%string)
    (entries (answer 10 solver_school request_school (world_of (fun _ => 0%nat)))).
Proof.
  apply (subject_once_a_day 10 solver_school request_school
           (world_of (fun _ => 0%nat)) (built 10 request_school)
           (solved solver_school (built 10 request_school))).
  - vm_compute. reflexivity.
  - vm_compute. reflexivity.
  - vm_compute. reflexivity.
  - split_and!; [discriminate | evaluated | durations_add_up].
  - evaluated.
  - vm_compute. reflexivity.
Defined.

Lemma one_teacher_for_a_class_and_subject_witness :
  exists e1 e2,
    entries (answer 10 solver_school request_school (world_of (fun _ => 0%nat)))
      !! 0%nat = Some e1
    /\ entries (answer 10 solver_school request_school (world_of (fun _ => 0%nat)))
         !! 1%nat = Some e2
    /\ e_teacherId e1 = e_teacherId e2.
Proof.
  eexists _, _. split; [vm_compute; reflexivity|]. split; [vm_compute; reflexivity|].
  apply (one_teacher_for_a_class_and_subject 10 solver_school request_school
           (world_of (fun _ => 0%nat)) (built 10 request_school)
           (solved solver_school (built 10 request_school))
           (answer 10 solver_school request_school (world_of (fun _ => 0%nat)))
           chosen_school).
  - vm_compute. reflexivity.
  - vm_compute. reflexivity.
  - vm_compute. reflexivity.
  - discriminate.
  - evaluated.
  - vm_compute. reflexivity.
  - apply (list_elem_of_lookup_2 _ 0%nat). vm_compute. reflexivity.
  - apply (list_elem_of_lookup_2 _ 1%nat). vm_compute. reflexivity.
  - reflexivity.
  - reflexivity.
Defined.

Lemma lessons_keep_clear_of_breaks_witness :
  exists e,
    entries (answer 10 solver_school request_school (world_of (fun _ => 0%nat)))
      !! 0%nat = Some e
    /\ entry_clear_of (lunch_window (settings_with "12:00" [assembly])) e
    /\ entry_clear_of (breakfast_window (settings_with "12:00" [assembly])) e.
Proof.
  eexists. split; [vm_compute; reflexivity|].
  apply (lessons_keep_clear_of_breaks 10 solver_school request_school
           (world_of (fun _ => 0%nat)) (built 10 request_school)
           (solved solver_school (built 10 request_school))
           (answer 10 solver_school request_school (world_of (fun _ => 0%nat)))).
  - vm_compute. reflexivity.
  - vm_compute. reflexivity.
  - intros ks Hks. vm_compute in Hks. inversion Hks. vm_compute. reflexivity.
  - discriminate.
  - vm_compute. reflexivity.
  - apply (list_elem_of_lookup_2 _ 0%nat). vm_compute. reflexivity.
Defined.

Lemma lessons_keep_clear_of_free_periods_witness :
  exists e,
    entries (answer 10 solver_school request_school (world_of (fun _ => 0%nat)))
      !! 0%nat = Some e
    /\ entry_clear_of (period_window assembly) e.
Proof.
  eexists. split; [vm_compute; reflexivity|].
  apply (lessons_keep_clear_of_free_periods 10 solver_school request_school
           (world_of (fun _ => 0%nat)) (built 10 request_school)
           (solved solver_school (built 10 request_school))
           (answer 10 solver_school request_school (world_of (fun _ => 0%nat)))).
  - vm_compute. reflexivity.
  - vm_compute. reflexivity.
  - intros ks Hks. vm_compute in Hks. inversion Hks. vm_compute. reflexivity.
  - discriminate.
  - vm_compute. reflexivity.
  - apply (list_elem_of_lookup_2 _ 0%nat). vm_compute. reflexivity.
  - apply list_elem_of_here.
  - split; [vm_compute; reflexivity|]. left. apply list_elem_of_here.
Defined.

Lemma fallback_entries_are_lessons_witness :
  exists e,
    entries (fst (_generate_mock_schedule (built 10 request_school)
                    (world_of (fun _ => 1%nat)))) !! 0%nat = Some e
    /\ fallback_lesson (built 10 request_school) e.
Proof.
  eexists. split; [vm_compute; reflexivity|].
  apply (fallback_entries_are_lessons (built 10 request_school)
           (world_of (fun _ => 1%nat))).
  apply (list_elem_of_lookup_2 _ 0%nat). vm_compute. reflexivity.
Defined.

Lemma fallback_keeps_one_teacher_witness :
  exists e1 e2,
    entries (fst (_generate_mock_schedule (built 10 request_school)
                    (world_of (fun _ => 1%nat)))) !! 0%nat = Some e1
    /\ entries (fst (_generate_mock_schedule (built 10 request_school)
                       (world_of (fun _ => 1%nat)))) !! 1%nat = Some e2
    /\ e_teacherId e1 = e_teacherId e2.
Proof.
  eexists _, _. split; [vm_compute; reflexivity|]. split; [vm_compute; reflexivity|].
  apply (fallback_keeps_one_teacher (built 10 request_school)
           (world_of (fun _ => 1%nat))).
  - apply (list_elem_of_lookup_2 _ 0%nat). vm_compute. reflexivity.
  - apply (list_elem_of_lookup_2 _ 1%nat). vm_compute. reflexivity.
  - reflexivity.
  - reflexivity.
Defined.

Lemma variables_are_the_possible_lessons_witness :
  NoDup (_create_variables (built 10 request_school))
  /\ forall k,
       k ∈ _create_variables (built 10 request_school)
       <-> possible_lesson request_school (built 10 request_school) k.
Proof.
  apply (variables_are_the_possible_lessons 10 request_school
           (built 10 request_school)).
  vm_compute. reflexivity.
Defined.

(** * Exceptions: the handler of [generate_schedule] and the time grid builder *)

(** With complete settings, a grid and an id on every record, the
    constructor returns. *)
Lemma init_returns fuel data ss slots :
  school_settings data = Some ss -> missing_settings ss = [] ->
  _generate_time_slots fuel ss = Ret slots ->
  has_ids data -> exists sch, __init__ fuel data = Ret sch.
Proof.
  intros Hss Hmiss Hslots (Ht & Hc & Hs & Hr).
  unfold __init__. rewrite Hss, Hmiss. simpl.
  unfold missing_settings in Hmiss.
  destruct (useRoomConstraints ss);
    [|by repeat (apply app_eq_nil in Hmiss as [_ Hmiss])].
  destruct (workingDays ss);
    [|repeat (apply app_eq_nil in Hmiss as [? Hmiss]); done].
  simpl. rewrite Hslots. simpl.
  destruct (ids_of_present t_id _ Ht) as [? ->].
  destruct (ids_of_present c_id _ Hc) as [? ->].
  destruct (ids_of_present s_id _ Hs) as [? ->].
  destruct (ids_of_present r_id _ Hr) as [? ->].
  simpl. by eexists.
Qed.

Lemma builder_never_raises fuel ss e : _generate_time_slots fuel ss <> Raise e.
Proof. unfold _generate_time_slots. by destruct (time_slots_try fuel ss). Qed.

Lemma builder_catches fuel ss e :
  time_slots_try fuel ss = Raise e ->
  _generate_time_slots fuel ss = Ret default_time_slots.
Proof. intros H. unfold _generate_time_slots. by rewrite H. Qed.

Lemma error_prefix_only s :
  String.prefix "error-schedule-" s = true ->
  String.prefix "generated-schedule-" s = false
  /\ String.prefix "mock-schedule-" s = false.
Proof.
  destruct s as [|c s]; [done|]. intros H. cbn [String.prefix] in H.
  destruct (Ascii.ascii_dec "e" c) as [<-|]; [|done].
  split; reflexivity.
Qed.

Lemma generate_try_raise fuel cp data w e w' :
  generate_try fuel cp data w = (Raise e, w') -> reaches_handler fuel cp data w e.
Proof.
  unfold generate_try, reaches_handler.
  destruct (__init__ fuel data) as [sch| |] eqn:Hi; simpl; [| |done].
  - destruct (solve cp sch) as [[[] sch']| |] eqn:Hs.
    + intros H. right. right. exists sch, sch', w'. by split_and!.
    + destruct (_generate_mock_schedule sch' w). done.
    + intros H. inversion H; subst. right. left. by exists sch.
    + done.
  - intros H. inversion H; subst. by left.
Qed.

(** C3, as the code has it.  An exception that leaves the constructor,
    [solve] or the extraction, that is, reaches the handler of
    [generate_schedule], makes the function return an object whose
    [scheduleId] starts with "error-schedule-" and whose entries are
    empty, also when the extraction had appended entries before it
    raised; and an error schedule is returned on no other path.  An
    exception raised inside the time grid builder is caught by the
    builder's own handler and never reaches that of
    [generate_schedule]: the builder returns the default slots, it
    never raises, and the constructor then raises only for a missing
    required setting or a record without an id.  Whether such a run ends
    in an error schedule is decided by the later steps alone. *)
Theorem error_schedule_on_exception fuel cp data w :
  (forall e,
     reaches_handler fuel cp data w e ->
     exists schedule,
       generate_schedule fuel cp data w = Some schedule
       /\ String.prefix "error-schedule-" (scheduleId schedule) = true
       /\ entries schedule = [])
  /\ (forall schedule,
        generate_schedule fuel cp data w = Some schedule ->
        String.prefix "error-schedule-" (scheduleId schedule) = true ->
        exists e, reaches_handler fuel cp data w e)
  /\ (forall ss,
        school_settings data = Some ss ->
        (forall e, _generate_time_slots fuel ss <> Raise e)
        /\ forall e,
             time_slots_try fuel ss = Raise e ->
             _generate_time_slots fuel ss = Ret default_time_slots
             /\ forall e', __init__ fuel data = Raise e' ->
                  missing_settings ss <> [] \/ ~ has_ids data).
Proof.
  split_and!.
  - intros e H.
    assert (exists w', generate_try fuel cp data w = (Raise e, w')) as [w' Htry].
    { unfold generate_try.
      destruct H as [Hi | [(sch & Hi & Hs) | (sch & sch' & w' & Hi & Hs & He)]];
        rewrite Hi; simpl; [by eexists | |].
      - rewrite Hs. by eexists.
      - rewrite Hs, He. by eexists. }
    unfold generate_schedule. rewrite Htry. eexists. split; [reflexivity|].
    simpl. split; [apply prefix_append | done].
  - intros schedule Hgen Hkind. unfold generate_schedule in Hgen.
    destruct (generate_try fuel cp data w) as [[m|e|] w'] eqn:Htry; [| |done].
    + inversion Hgen; subst m.
      apply error_prefix_only in Hkind as [Hg Hm].
      destruct (generate_try_ret_prefix _ _ _ _ _ _ Htry) as [H|H]; congruence.
    + exists e. by eapply generate_try_raise.
  - intros ss Hss. split; [intros e; apply builder_never_raises|].
    intros e Hraise. pose proof (builder_catches _ _ _ Hraise) as Hdef.
    split; [done|]. intros e' Hi.
    destruct (decide (missing_settings ss = [])) as [Hmiss|?]; [|by left].
    right. intros Hids.
    destruct (init_returns _ _ _ _ Hss Hmiss Hdef Hids) as [sch Hsch]. congruence.
Qed.

(** A malformed break start makes [_add_break_constraints] raise. *)
Lemma bad_break_start_raises sch text e :
  missing_settings (sch_settings sch) = [] ->
  (lunchBreakStartTime (sch_settings sch) = Some text
   \/ breakfastBreakStartTime (sch_settings sch) = Some text) ->
  time_to_minutes text = Raise e ->
  exists e', _add_break_constraints sch = Raise e'.
Proof.
  intros Hmiss Htext Hbad. unfold missing_settings in Hmiss.
  repeat (apply app_eq_nil in Hmiss as [? Hmiss]).
  unfold _add_break_constraints.
  destruct (hasBreakfastBreak _), (breakfastBreakStartTime _) as [bs|],
    (breakfastBreakDuration _), (lunchBreakStartTime _) as [ls|],
    (lunchBreakDuration _); try done.
  simpl. destruct Htext as [Hl|Hb].
  - inversion Hl; subst ls.
    destruct (time_to_minutes bs) as [?|?|] eqn:Hbs; simpl.
    + rewrite Hbad. by eexists.
    + by eexists.
    + by apply time_to_minutes_not_timeout in Hbs.
  - inversion Hb; subst bs. rewrite Hbad. by eexists.
Qed.

Lemma solve_raise_answer fuel cp data w sch e :
  __init__ fuel data = Ret sch -> solve cp sch = Raise e ->
  generate_schedule fuel cp data w = Some (error_schedule w).
Proof.
  intros Hi Hs. unfold generate_schedule, generate_try. rewrite Hi. simpl.
  by rewrite Hs.
Qed.

(** The starts and ends of the entries that [generate_schedule] returns
    after [solve] has returned are slots of the scheduler. *)
Lemma answered_in_slots fuel cp data w sch b sch' :
  __init__ fuel data = Ret sch -> solve cp sch = Ret (b, sch') ->
  exists schedule,
    generate_schedule fuel cp data w = Some schedule
    /\ Forall (fun e => (e_startTime e, e_endTime e) ∈ time_slots sch)
         (entries schedule).
Proof.
  intros Hi Hs.
  destruct (solved_fields _ _ _ _ Hs) as (_ & Ets & _).
  assert (exists schedule, generate_schedule fuel cp data w = Some schedule)
    as [schedule Hgen].
  { unfold generate_schedule.
    pose proof (generate_try_not_timeout fuel cp data w) as Hnt.
    rewrite Hi in Hnt. specialize (Hnt ltac:(done)).
    destruct (generate_try fuel cp data w) as [[m|e|] w']; [by eexists..|done]. }
  exists schedule. split; [done|]. apply Forall_forall. intros e He.
  rewrite <- Ets. destruct b.
  - destruct (generated_entries_keys _ _ _ _ _ _ _ Hi Hs Hgen) as (ks & Hks).
    destruct (entry_key _ _ _ _ Hks He) as ([[[[[c s] t] r] d] ts] & _ & _ & Hw).
    apply written_for_fields in Hw as (_ & _ & _ & _ & Hslot & _).
    by eapply list_elem_of_lookup_2.
  - unfold generate_schedule in Hgen.
    rewrite (generate_try_mock _ _ _ w _ _ Hi Hs) in Hgen.
    inversion Hgen; subst schedule.
    destruct (mock_schedule_entries sch' w) as (ats & slots & _ & _ & Hperm & Hall & _).
    destruct (proj1 (Forall_forall _ _) Hall e He) as (a & _ & _ & Hslot & _).
    rewrite Hperm in Hslot. by apply all_slots_elem in Hslot as [_ ?].
Qed.

(** C9, as the code has it.  When the computation of the time grid
    builder raises, the builder returns the fixed list of six slots,
    whatever the configured school hours and break windows are, and the
    constructor stores these slots and does not pass the exception on.
    When [solve] then returns, scheduling has gone on with those slots:
    [solve] has made a decision variable for every possible lesson over
    the six slots and has run the solver on that model, and every entry
    of the schedule that [generate_schedule] returns lies in one of the
    six slots.  When the lunch or breakfast break start is not a time,
    [_add_break_constraints] parses that text again: [solve] raises and
    [generate_schedule] returns the empty error schedule. *)
Theorem time_grid_builder_fallback fuel ss e :
  time_slots_try fuel ss = Raise e ->
  _generate_time_slots fuel ss
  = Ret [("08:00", "09:00"); ("09:15", "10:15"); ("10:30", "11:30");
         ("11:45", "12:45"); ("13:30", "14:30"); ("14:45", "15:45")]%string
  /\ (forall data sch,
        school_settings data = Some ss -> __init__ fuel data = Ret sch ->
        time_slots sch = default_time_slots)
  /\ (forall data,
        school_settings data = Some ss -> missing_settings ss = [] ->
        has_ids data -> exists sch, __init__ fuel data = Ret sch)
  /\ (forall data cp w sch b sch',
        school_settings data = Some ss -> __init__ fuel data = Ret sch ->
        solve cp sch = Ret (b, sch') ->
        sch' = with_answer (with_vars sch (_create_variables sch))
                 (cp (with_vars sch (_create_variables sch)))
        /\ time_slots sch' = default_time_slots
        /\ (forall k, k ∈ assignment_vars sch' <-> possible_lesson data sch k)
        /\ exists schedule,
             generate_schedule fuel cp data w = Some schedule
             /\ Forall (fun x => (e_startTime x, e_endTime x) ∈ default_time_slots)
                  (entries schedule))
  /\ (forall data cp w sch text e',
        school_settings data = Some ss -> __init__ fuel data = Ret sch ->
        (lunchBreakStartTime ss = Some text
         \/ breakfastBreakStartTime ss = Some text) ->
        time_to_minutes text = Raise e' ->
        (exists e'', solve cp sch = Raise e'')
        /\ generate_schedule fuel cp data w = Some (error_schedule w)).
Proof.
  intros Hraise. pose proof (builder_catches _ _ _ Hraise) as Hdef.
  assert (forall data sch,
            school_settings data = Some ss -> __init__ fuel data = Ret sch ->
            time_slots sch = default_time_slots) as Hslots.
  { intros data sch Hss Hinit.
    apply init_time_slots in Hinit as (ss' & Hss' & Hts).
    rewrite Hss in Hss'. inversion Hss'; subst ss'.
    rewrite Hdef in Hts. by inversion Hts. }
  split_and!; [exact Hdef | exact Hslots | | |].
  - intros data Hss Hmiss Hids. by eapply init_returns.
  - intros data cp w sch b sch' Hss Hi Hs.
    destruct (solve_inv _ _ _ _ Hs) as (_ & Hsch' & _).
    destruct (solved_fields _ _ _ _ Hs)
      as (_ & Ets & _ & _ & _ & _ & _ & _ & _ & _ & _ & _ & _ & Evars).
    split_and!.
    + exact Hsch'.
    + rewrite Ets. by eapply Hslots.
    + intros k. rewrite Evars.
      destruct (init_inv _ _ _ Hi) as (_ & _ & _ & _ & _ & _ & _ & _ & _ & _ & _
                                       & _ & _ & _ & _ & _ & Hvars).
      destruct (create_variables_spec sch Hvars) as [_ Hin]. rewrite Hin.
      by apply (possible_lesson_key fuel).
    + destruct (answered_in_slots fuel cp data w _ _ _ Hi Hs) as (schedule & Hgen & Hall).
      exists schedule. split; [done|]. by rewrite <- (Hslots data sch Hss Hi).
  - intros data cp w sch text e' Hss Hi Htext Hbad.
    destruct (init_inv _ _ _ Hi) as (ss' & Hss' & Hmiss & Hset & _).
    rewrite Hss in Hss'. injection Hss' as <-.
    destruct (bad_break_start_raises (with_vars sch (_create_variables sch)) text e')
      as [e0 He0]; [simpl; by rewrite Hset..|done|].
    destruct (add_all_constraints_break_raises _ _ He0) as [e1 He1].
    assert (solve cp sch = Raise e1) as Hs by (unfold solve; by rewrite He1).
    split; [by exists e1|]. by eapply solve_raise_answer.
Qed.

(** C9, as stated, fails: with a lunch break start that is not a time
    the builder raises and returns the six default slots, the
    constructor stores them, and [solve] raises on the same text;
    [generate_schedule] returns the empty error schedule, and nothing is
    scheduled in those slots. *)
Lemma builder_fallback_ends_in_error_schedule :
  school_settings request_bad_lunch = Some (settings_with "noon" [])
  /\ time_slots_try 10 (settings_with "noon" []) = Raise ValueError
  /\ _generate_time_slots 10 (settings_with "noon" []) = Ret default_time_slots
  /\ __init__ 10 request_bad_lunch = Ret (built 10 request_bad_lunch)
  /\ time_slots (built 10 request_bad_lunch) = default_time_slots
  /\ solve solver_one_lesson (built 10 request_bad_lunch) = Raise ValueError
  /\ generate_schedule 10 solver_one_lesson request_bad_lunch
       (world_of (fun _ => 0%nat))
     = Some {| scheduleId := "error-schedule-00000000"; entries := [] |}.
Proof. split_and!; vm_compute; reflexivity. Qed.

(** ** The two theorems at sample requests *)

Lemma error_schedule_on_exception_witness :
  exists schedule,
    generate_schedule 10 solver_one_lesson request_unnamed_class
      (world_of (fun _ => 0%nat)) = Some schedule
    /\ String.prefix "error-schedule-" (scheduleId schedule) = true
    /\ entries schedule = [].
Proof.
  apply (proj1 (error_schedule_on_exception 10 solver_one_lesson request_unnamed_class
                  (world_of (fun _ => 0%nat))) KeyError).
  right. right.
  exists (built 10 request_unnamed_class),
         (solved solver_one_lesson (built 10 request_unnamed_class)).
  eexists. split; [vm_compute; reflexivity|].
  split; vm_compute; reflexivity.
Defined.

Lemma time_grid_builder_fallback_witness :
  time_slots_try 10 settings_bad_start = Raise ValueError
  /\ _generate_time_slots 10 settings_bad_start
     = Ret [("08:00", "09:00"); ("09:15", "10:15"); ("10:30", "11:30");
            ("11:45", "12:45"); ("13:30", "14:30"); ("14:45", "15:45")]%string
  /\ time_slots (built 10 request_bad_start) = default_time_slots
  /\ (exists sch, __init__ 10 request_bad_start = Ret sch)
  /\ (forall k,
        k ∈ assignment_vars (solved solver_one_lesson (built 10 request_bad_start))
        <-> possible_lesson request_bad_start (built 10 request_bad_start) k)
  /\ exists schedule,
       generate_schedule 10 solver_one_lesson request_bad_start
         (world_of (fun _ => 0%nat)) = Some schedule
       /\ Forall (fun x => (e_startTime x, e_endTime x) ∈ default_time_slots)
            (entries schedule).
Proof.
  split; [vm_compute; reflexivity|].
  destruct (time_grid_builder_fallback 10 settings_bad_start ValueError)
    as (Hdef & Hslots & Hinit & Hsolve & _); [vm_compute; reflexivity|].
  split; [exact Hdef|].
  split; [apply (Hslots request_bad_start); vm_compute; reflexivity|].
  split.
  { apply (Hinit request_bad_start); [reflexivity | vm_compute; reflexivity|].
    repeat split; repeat constructor; simpl; eauto. }
  destruct (Hsolve request_bad_start solver_one_lesson (world_of (fun _ => 0%nat))
              (built 10 request_bad_start) true
              (solved solver_one_lesson (built 10 request_bad_start)))
    as (_ & _ & Hvars & Hgen); [reflexivity | vm_compute; reflexivity..|].
  split; [exact Hvars | exact Hgen].
Defined.
